(** * pod-limit-checker: the analysis engine of [pkg/analyzer]

    A shallow embedding of [analyzer.go] (AnalyzePods, generateSuggestions,
    calculateRiskLevel, generateSpecificRecommendations, generateExampleYAML)
    and the properties of the engine proved over it; then of the reporter
    that prints its results, of the client ([NewClient], [buildConfig]) and
    of the command [Execute] that runs the three.

    Go's [int64] is a [Z] whose products are wrapped to 64 bits, Go's
    [float64] is Rocq's primitive binary64 [float], Go's maps are stdpp's
    [gmap], a Go pointer that may be [nil] is an [option], and a Go string is
    a [string] (the zero value of a string field is the empty string). What
    a function prints on standard output is a string it returns, an [error]
    is its message, and the calls into the operating system, the cluster and
    the marshallers are variables of the sections that use them. *)

From Stdlib Require Import ZArith QArith String Ascii List Bool Lia DecimalString.
From Stdlib Require DecimalZ DecimalPos.
From Stdlib Require Import Floats.
From stdpp Require Import base gmap strings list fin_maps.

Local Open Scope string_scope.
Local Open Scope list_scope.
Local Open Scope Z_scope.

(** ** 64-bit integers *)

Module Int64.

Definition min_int : Z := - 2 ^ 63.
Definition max_int : Z := 2 ^ 63 - 1.

(** [z] is a value of Go's [int64]. *)
Definition in_range (z : Z) : Prop := min_int <= z <= max_int.

(** The two's-complement value an [int64] operation keeps of the exact
    result [z]. *)
Definition wrap (z : Z) : Z := (z + 2 ^ 63) mod 2 ^ 64 - 2 ^ 63.

(** Go's [x * y] on [int64]. *)
Definition mul (x y : Z) : Z := wrap (x * y).

(** Go's [x / y] on [int64] truncates towards zero; the divisors of the
    analyzer are positive constants, so the quotient never overflows. *)
Definition div (x y : Z) : Z := Z.quot x y.

End Int64.

(** ** Formatting verbs of [fmt.Sprintf] *)

Module Fmt.

(** [%d] of an integer. *)
Definition d (z : Z) : string := NilZero.string_of_int (Z.to_int z).

(** The value [m * 2^e * 10] rounded to the nearest integer, ties to even:
    the digits [strconv] keeps of a positive binary64 for one decimal. *)
Definition tenths (m : positive) (e : Z) : Z :=
  let num := Z.pos m * 10 in
  if 0 <=? e then num * 2 ^ e
  else
    let den := 2 ^ (- e) in
    let q := num / den in
    let r := num mod den in
    if (den <? 2 * r) || ((den =? 2 * r) && Z.odd q) then q + 1 else q.

(** [%.1f] of a [float64]. *)
Definition f1 (x : float) : string :=
  match Prim2SF x with
  | S754_nan => "NaN"
  | S754_infinity false => "+Inf"
  | S754_infinity true => "-Inf"
  | S754_zero s => (if s then "-" else "") +:+ "0.0"
  | S754_finite s m e =>
      let t := tenths m e in
      (if s then "-" else "") +:+ d (t / 10) +:+ "." +:+ d (t mod 10)
  end.

End Fmt.

(** ** Conversions and constants of [float64] *)

Module Float64.

(** Go's [float64(x)] of an [int64]: the nearest binary64, ties to even. *)
Definition of_int64 (z : Z) : float :=
  let a := Z.abs z in
  let f := if a <? 2 ^ 63 then of_uint63 (Uint63.of_Z a) else Z.ldexp one 63 in
  if z <? 0 then (- f)%float else f.

Definition gt (x y : float) : bool := (y <? x)%float.
Definition lt (x y : float) : bool := (x <? y)%float.

End Float64.

(** ** The Kubernetes types the analyzer reads *)

(** [resource.Quantity], through the two readings the analyzer takes of it:
    [MilliValue()] (thousandths of the unit) and [Value()] (whole units),
    both [int64]. *)
Module Quantity.
Record t : Type := mk { MilliValue : Z; Value : Z }.

(** The zero quantity, [resource.Quantity{}]. *)
Definition zero : t := mk 0 0.
End Quantity.

(** [v1.ResourceName] and the two names the analyzer looks up. *)
Definition ResourceCPU : string := "cpu".
Definition ResourceMemory : string := "memory".

(** [v1.ResourceList], a [map[ResourceName]resource.Quantity]. *)
Abbreviation ResourceList := (gmap string Quantity.t).

(** Go's [len(m)] of a map. *)
Definition len (m : ResourceList) : Z := Z.of_nat (size m).

(** [ResourceList.Cpu()] and [ResourceList.Memory()]: the entry, or a
    pointer to a fresh zero quantity when the map has none. *)
Definition Cpu (rl : ResourceList) : Quantity.t :=
  match rl !! ResourceCPU with Some q => q | None => Quantity.zero end.
Definition Memory (rl : ResourceList) : Quantity.t :=
  match rl !! ResourceMemory with Some q => q | None => Quantity.zero end.

(** [v1.ResourceRequirements]. *)
Module Resources.
Record t : Type := mk { Limits : ResourceList; Requests : ResourceList }.
End Resources.

(** [v1.Container]. *)
Module Container.
Record t : Type := mk { Name : string; Resources : Resources.t }.
End Container.

(** [v1.Pod]: [CreationTimestamp] in nanoseconds, [Containers] for
    [pod.Spec.Containers]. *)
Module Pod.
Record t : Type := mk {
  Namespace : string;
  Name : string;
  CreationTimestamp : Z;
  Containers : list Container.t
}.
End Pod.

(** [metricsv1beta1.ContainerMetrics]. *)
Module ContainerMetrics.
Record t : Type := mk { Name : string; Usage : ResourceList }.
End ContainerMetrics.

(** [metricsv1beta1.PodMetrics]. *)
Module PodMetrics.
Record t : Type := mk {
  Namespace : string;
  Name : string;
  Containers : list ContainerMetrics.t
}.
End PodMetrics.

(** ** The analyzer's own types *)

(** [ResourceUsage]: two pointers to quantities. *)
Module ResourceUsage.
Record t : Type := mk {
  CPU : option Quantity.t;
  Memory : option Quantity.t
}.
End ResourceUsage.

(** [PodAnalysis]; [CurrentUsage] is a pointer. *)
Module PodAnalysis.
Record t : Type := mk {
  Namespace : string;
  PodName : string;
  ContainerName : string;
  HasLimits : bool;
  HasRequests : bool;
  CurrentLimits : ResourceList;
  CurrentUsage : option ResourceUsage.t;
  Suggestions : list string;
  RiskLevel : string;
  Age : string;
  RecommendedCPULimit : string;
  RecommendedCPURequest : string;
  RecommendedMemoryLimit : string;
  RecommendedMemoryRequest : string;
  ExampleYAML : string
}.

(** The composite literal of [AnalyzePods]: the named fields, every other
    field at its zero value. *)
Definition literal (ns pod container age : string) (limits : ResourceList) : t :=
  mk ns pod container false false limits None [] "" age "" "" "" "" "".

Definition set_HasLimits (b : bool) (a : t) : t :=
  mk (Namespace a) (PodName a) (ContainerName a) b (HasRequests a)
     (CurrentLimits a) (CurrentUsage a) (Suggestions a) (RiskLevel a) (Age a)
     (RecommendedCPULimit a) (RecommendedCPURequest a)
     (RecommendedMemoryLimit a) (RecommendedMemoryRequest a) (ExampleYAML a).

Definition set_HasRequests (b : bool) (a : t) : t :=
  mk (Namespace a) (PodName a) (ContainerName a) (HasLimits a) b
     (CurrentLimits a) (CurrentUsage a) (Suggestions a) (RiskLevel a) (Age a)
     (RecommendedCPULimit a) (RecommendedCPURequest a)
     (RecommendedMemoryLimit a) (RecommendedMemoryRequest a) (ExampleYAML a).

Definition set_CurrentUsage (u : option ResourceUsage.t) (a : t) : t :=
  mk (Namespace a) (PodName a) (ContainerName a) (HasLimits a) (HasRequests a)
     (CurrentLimits a) u (Suggestions a) (RiskLevel a) (Age a)
     (RecommendedCPULimit a) (RecommendedCPURequest a)
     (RecommendedMemoryLimit a) (RecommendedMemoryRequest a) (ExampleYAML a).

Definition set_Suggestions (s : list string) (a : t) : t :=
  mk (Namespace a) (PodName a) (ContainerName a) (HasLimits a) (HasRequests a)
     (CurrentLimits a) (CurrentUsage a) s (RiskLevel a) (Age a)
     (RecommendedCPULimit a) (RecommendedCPURequest a)
     (RecommendedMemoryLimit a) (RecommendedMemoryRequest a) (ExampleYAML a).

Definition set_RiskLevel (r : string) (a : t) : t :=
  mk (Namespace a) (PodName a) (ContainerName a) (HasLimits a) (HasRequests a)
     (CurrentLimits a) (CurrentUsage a) (Suggestions a) r (Age a)
     (RecommendedCPULimit a) (RecommendedCPURequest a)
     (RecommendedMemoryLimit a) (RecommendedMemoryRequest a) (ExampleYAML a).

Definition set_Recommended (cl cr ml mr : string) (a : t) : t :=
  mk (Namespace a) (PodName a) (ContainerName a) (HasLimits a) (HasRequests a)
     (CurrentLimits a) (CurrentUsage a) (Suggestions a) (RiskLevel a) (Age a)
     cl cr ml mr (ExampleYAML a).

Definition set_ExampleYAML (y : string) (a : t) : t :=
  mk (Namespace a) (PodName a) (ContainerName a) (HasLimits a) (HasRequests a)
     (CurrentLimits a) (CurrentUsage a) (Suggestions a) (RiskLevel a) (Age a)
     (RecommendedCPULimit a) (RecommendedCPURequest a)
     (RecommendedMemoryLimit a) (RecommendedMemoryRequest a) y.

(** The record with its [Age] replaced. *)
Definition set_Age (age : string) (a : t) : t :=
  mk (Namespace a) (PodName a) (ContainerName a) (HasLimits a) (HasRequests a)
     (CurrentLimits a) (CurrentUsage a) (Suggestions a) (RiskLevel a) age
     (RecommendedCPULimit a) (RecommendedCPURequest a)
     (RecommendedMemoryLimit a) (RecommendedMemoryRequest a) (ExampleYAML a).
End PodAnalysis.

(** ** generateSuggestions *)

(** The guard [usage != nil && usage.CPU != nil && usage.Memory != nil],
    and under it [usage.CPU.MilliValue()] and [usage.Memory.Value()]. *)
Definition usageValues (usage : option ResourceUsage.t) : option (Z * Z) :=
  match usage with
  | Some u =>
      match ResourceUsage.CPU u, ResourceUsage.Memory u with
      | Some cpu, Some mem => Some (Quantity.MilliValue cpu, Quantity.Value mem)
      | _, _ => None
      end
  | None => None
  end.

(** [float64(used) / float64(limit) * 100]. *)
Definition usagePercentOf (used limit : Z) : float :=
  (Float64.of_int64 used / Float64.of_int64 limit * 100)%float.

Definition msgNoLimits : string := "‚ùå No resource limits set".
Definition msgNoRequests : string := "‚ö†Ô∏è No resource requests set".
Definition msgFallback : string := "üìã Consider setting limits based on application requirements".

(** The four [fmt.Sprintf] advisories, [%.1f%%] carrying the percentage. *)
Definition msgIncrease (what : string) (usagePercent : float) : string :=
  "‚ö†Ô∏è " +:+ what +:+ " usage at " +:+ Fmt.f1 usagePercent
  +:+ "% of limit, consider increasing limit".
Definition msgDecrease (what : string) (usagePercent : float) : string :=
  "üí° " +:+ what +:+ " usage at " +:+ Fmt.f1 usagePercent
  +:+ "% of limit, consider decreasing limit".

Definition generateSuggestions (container : Container.t)
  (usage : option ResourceUsage.t) (threshold : float) : list string :=
  let limits := Resources.Limits (Container.Resources container) in
  let requests := Resources.Requests (Container.Resources container) in
  let suggestions : list string := [] in
  (* Check for missing limits *)
  let suggestions :=
    if len limits =? 0 then suggestions ++ [msgNoLimits] else suggestions in
  (* Check for missing requests *)
  let suggestions :=
    if len requests =? 0 then suggestions ++ [msgNoRequests] else suggestions in
  match usageValues usage with
  | Some (cpuUsageMilli, memUsageBytes) =>
      (* CPU suggestions *)
      let suggestions :=
        match limits !! ResourceCPU with
        | Some limitCPU =>
            let cpuLimitMilli := Quantity.MilliValue limitCPU in
            if 0 <? cpuLimitMilli then
              let usagePercent := usagePercentOf cpuUsageMilli cpuLimitMilli in
              if Float64.gt usagePercent (threshold * 100)%float then
                suggestions ++ [msgIncrease "CPU" usagePercent]
              else if Float64.lt usagePercent 30%float then
                suggestions ++ [msgDecrease "CPU" usagePercent]
              else suggestions
            else suggestions
        | None => suggestions
        end in
      (* Memory suggestions *)
      match limits !! ResourceMemory with
      | Some limitMem =>
          let memLimitBytes := Quantity.Value limitMem in
          if 0 <? memLimitBytes then
            let usagePercent := usagePercentOf memUsageBytes memLimitBytes in
            if Float64.gt usagePercent (threshold * 100)%float then
              suggestions ++ [msgIncrease "Memory" usagePercent]
            else if Float64.lt usagePercent 50%float then
              suggestions ++ [msgDecrease "Memory" usagePercent]
            else suggestions
          else suggestions
      | None => suggestions
      end
  | None =>
      (* No metrics available and no limits *)
      if len limits =? 0 then suggestions ++ [msgFallback] else suggestions
  end.

(** ** calculateRiskLevel *)

(** The literal [0.9], as the binary64 the compiler rounds it to. *)
Definition tightness : float := 0x1.ccccccccccccdp-1%float.

Definition calculateRiskLevel (container : Container.t)
  (usage : option ResourceUsage.t) : string :=
  let limits := Resources.Limits (Container.Resources container) in
  (* If no limits at all, high risk *)
  if len limits =? 0 then "HIGH"
  else
    (* If limits exist but no CPU or memory specifically *)
    let hasCPULimit := bool_decide (is_Some (limits !! ResourceCPU)) in
    let hasMemLimit := bool_decide (is_Some (limits !! ResourceMemory)) in
    if negb hasCPULimit || negb hasMemLimit then "MEDIUM"
    else
      (* Check if limits are reasonable compared to usage *)
      match usageValues usage, limits !! ResourceCPU with
      | Some (cpuUsageMilli, _), Some limitCPU =>
          let cpuLimitMilli := Quantity.MilliValue limitCPU in
          if (0 <? cpuLimitMilli)
             && Float64.gt (Float64.of_int64 cpuUsageMilli
                            / Float64.of_int64 cpuLimitMilli)%float tightness
          then "MEDIUM" (* High usage of limits *)
          else "LOW"
      | _, _ => "LOW"
      end.

(** ** generateSpecificRecommendations *)

Module Rec.
(** Field assignments [analysis.RecommendedX = v] through the pointer. *)
Definition setCPULimit (v : string) (a : PodAnalysis.t) : PodAnalysis.t :=
  PodAnalysis.set_Recommended v (PodAnalysis.RecommendedCPURequest a)
    (PodAnalysis.RecommendedMemoryLimit a) (PodAnalysis.RecommendedMemoryRequest a) a.
Definition setCPURequest (v : string) (a : PodAnalysis.t) : PodAnalysis.t :=
  PodAnalysis.set_Recommended (PodAnalysis.RecommendedCPULimit a) v
    (PodAnalysis.RecommendedMemoryLimit a) (PodAnalysis.RecommendedMemoryRequest a) a.
Definition setMemoryLimit (v : string) (a : PodAnalysis.t) : PodAnalysis.t :=
  PodAnalysis.set_Recommended (PodAnalysis.RecommendedCPULimit a)
    (PodAnalysis.RecommendedCPURequest a) v (PodAnalysis.RecommendedMemoryRequest a) a.
Definition setMemoryRequest (v : string) (a : PodAnalysis.t) : PodAnalysis.t :=
  PodAnalysis.set_Recommended (PodAnalysis.RecommendedCPULimit a)
    (PodAnalysis.RecommendedCPURequest a) (PodAnalysis.RecommendedMemoryLimit a) v a.
End Rec.

(** [1024*1024], one mebibyte in bytes. *)
Definition MiB : Z := 1024 * 1024.

Definition generateSpecificRecommendations (analysis : PodAnalysis.t)
  (container : Container.t) : PodAnalysis.t :=
  (* Only provide specific recommendations if we have usage data *)
  match usageValues (PodAnalysis.CurrentUsage analysis) with
  | None => analysis
  | Some (cpuUsageMilli, memUsageBytes) =>
      (* CPU recommendations *)
      let recommendedCPULimit := Int64.div (Int64.mul cpuUsageMilli 5) 2 in
      let recommendedCPULimit :=
        if recommendedCPULimit <? 100 then 100 else recommendedCPULimit in
      let analysis :=
        Rec.setCPULimit (Fmt.d recommendedCPULimit +:+ "m") analysis in
      let recommendedCPURequest := Int64.div (Int64.mul cpuUsageMilli 6) 5 in
      let recommendedCPURequest :=
        if recommendedCPURequest <? 50 then 50 else recommendedCPURequest in
      let analysis :=
        Rec.setCPURequest (Fmt.d recommendedCPURequest +:+ "m") analysis in
      (* Memory recommendations (convert to Mi) *)
      let recommendedMemLimit := Int64.div (Int64.mul memUsageBytes 5) 2 in
      let recommendedMemLimit :=
        if recommendedMemLimit <? 128 * MiB then 128 * MiB
        else recommendedMemLimit in
      let analysis :=
        Rec.setMemoryLimit
          (Fmt.d (Int64.div recommendedMemLimit MiB) +:+ "Mi") analysis in
      let recommendedMemRequest := Int64.div (Int64.mul memUsageBytes 6) 5 in
      let recommendedMemRequest :=
        if recommendedMemRequest <? 64 * MiB then 64 * MiB
        else recommendedMemRequest in
      Rec.setMemoryRequest
        (Fmt.d (Int64.div recommendedMemRequest MiB) +:+ "Mi") analysis
  end.

(** ** generateExampleYAML *)

(** A double quote and a line feed of the raw template string. *)
Definition dq : string := String (ascii_of_nat 34) EmptyString.
Definition lf : string := String (ascii_of_nat 10) EmptyString.

Definition generateExampleYAML (analysis : PodAnalysis.t)
  (container : Container.t) : string :=
  match PodAnalysis.CurrentUsage analysis with
  | None => EmptyString
  | Some _ =>
      "        resources:" +:+ lf +:+
      "          limits:" +:+ lf +:+
      "            cpu: " +:+ dq +:+ PodAnalysis.RecommendedCPULimit analysis +:+ dq +:+ lf +:+
      "            memory: " +:+ dq +:+ PodAnalysis.RecommendedMemoryLimit analysis +:+ dq +:+ lf +:+
      "          requests:" +:+ lf +:+
      "            cpu: " +:+ dq +:+ PodAnalysis.RecommendedCPURequest analysis +:+ dq +:+ lf +:+
      "            memory: " +:+ dq +:+ PodAnalysis.RecommendedMemoryRequest analysis +:+ dq
  end.

(** ** AnalyzePods *)

(** The key [fmt.Sprintf("%s/%s", namespace, name)] of the metrics map. *)
Definition metricsKey (namespace name : string) : string :=
  namespace +:+ "/" +:+ name.

(** The first loop: [metricsMap[key] = pm] for each entry, in order. *)
Definition buildMetricsMap (podMetrics : list PodMetrics.t)
  : gmap string PodMetrics.t :=
  fold_left
    (fun metricsMap pm =>
       <[metricsKey (PodMetrics.Namespace pm) (PodMetrics.Name pm) := pm]> metricsMap)
    podMetrics ∅.

(** The loop over [pm.Containers]: the first entry named like the container
    sets [analysis.CurrentUsage] and breaks. *)
Fixpoint usageOfContainer (containers : list ContainerMetrics.t)
  (name : string) : option ResourceUsage.t :=
  match containers with
  | [] => None
  | cm :: rest =>
      if String.eqb (ContainerMetrics.Name cm) name then
        Some (ResourceUsage.mk (Some (Cpu (ContainerMetrics.Usage cm)))
                               (Some (Memory (ContainerMetrics.Usage cm))))
      else usageOfContainer rest name
  end.

(** [time.Since(t)] read at the clock value [now]: a [time.Duration] in
    nanoseconds, saturated to [int64] as [Time.Sub] does. *)
Definition Since (now t : Z) : Z :=
  Z.max Int64.min_int (Z.min Int64.max_int (now - t)).

Section Engine.

(** [duration.ShortHumanDuration] of k8s.io/apimachinery, a function of the
    duration alone. *)
Variable ShortHumanDuration : Z -> string.

(** The reading of the wall clock that [time.Since] takes. *)
Variable now : Z.

(** The body of the inner loop, for one container of one pod. *)
Definition analyzeContainer (metricsMap : gmap string PodMetrics.t)
  (threshold : float) (pod : Pod.t) (podAge : string)
  (container : Container.t) : PodAnalysis.t :=
  let limits := Resources.Limits (Container.Resources container) in
  let requests := Resources.Requests (Container.Resources container) in
  let analysis :=
    PodAnalysis.literal (Pod.Namespace pod) (Pod.Name pod)
      (Container.Name container) podAge limits in
  (* Check for limits and requests *)
  let hasLimits := 0 <? len limits in
  let hasRequests := 0 <? len requests in
  let analysis := PodAnalysis.set_HasLimits hasLimits analysis in
  let analysis := PodAnalysis.set_HasRequests hasRequests analysis in
  (* Get current usage from metrics *)
  let analysis :=
    match metricsMap !! metricsKey (Pod.Namespace pod) (Pod.Name pod) with
    | Some pm =>
        match usageOfContainer (PodMetrics.Containers pm) (Container.Name container) with
        | Some u => PodAnalysis.set_CurrentUsage (Some u) analysis
        | None => analysis
        end
    | None => analysis
    end in
  (* Generate suggestions and specific recommendations *)
  let analysis :=
    PodAnalysis.set_Suggestions
      (generateSuggestions container (PodAnalysis.CurrentUsage analysis) threshold)
      analysis in
  let analysis :=
    PodAnalysis.set_RiskLevel
      (calculateRiskLevel container (PodAnalysis.CurrentUsage analysis))
      analysis in
  (* Generate specific recommendations based on actual usage *)
  let analysis := generateSpecificRecommendations analysis container in
  (* Generate example YAML if no limits *)
  if negb (PodAnalysis.HasLimits analysis)
     && bool_decide (is_Some (PodAnalysis.CurrentUsage analysis))
  then PodAnalysis.set_ExampleYAML (generateExampleYAML analysis container) analysis
  else analysis.

Definition AnalyzePods (pods : list Pod.t) (podMetrics : list PodMetrics.t)
  (threshold : float) : list PodAnalysis.t :=
  let results : list PodAnalysis.t := [] in
  (* Create a map of pod metrics for quick lookup *)
  let metricsMap := buildMetricsMap podMetrics in
  fold_left
    (fun results pod =>
       let podAge := ShortHumanDuration (Since now (Pod.CreationTimestamp pod)) in
       fold_left
         (fun results container =>
            results ++ [analyzeContainer metricsMap threshold pod podAge container])
         (Pod.Containers pod) results)
    pods results.

End Engine.

(** ** The library's duration formatting *)

(** [time.Duration] readings and [duration.ShortHumanDuration] of
    k8s.io/apimachinery, the function [AnalyzePods] formats a pod's age
    with: an instance of the engine's parameter for the scenarios. *)
Module Duration.

Definition Second : Z := 1000000000.
Definition Minute : Z := 60 * Second.
Definition Hour : Z := 60 * Minute.

(** Go's [int(x)] of a finite [float64]: the fraction is dropped. *)
Definition to_int (x : float) : Z :=
  match Prim2SF x with
  | S754_finite s m e =>
      let a := if 0 <=? e then Z.pos m * 2 ^ e else Z.pos m / 2 ^ (- e) in
      if s then - a else a
  | _ => 0
  end.

Definition Seconds (d : Z) : float :=
  (Float64.of_int64 (d ÷ Second) + Float64.of_int64 (Z.rem d Second) / 1e9)%float.
Definition Minutes (d : Z) : float :=
  (Float64.of_int64 (d ÷ Minute) + Float64.of_int64 (Z.rem d Minute) / 6e10)%float.
Definition Hours (d : Z) : float :=
  (Float64.of_int64 (d ÷ Hour) + Float64.of_int64 (Z.rem d Hour) / 3.6e12)%float.

Definition ShortHumanDuration (d : Z) : string :=
  let seconds := to_int (Seconds d) in
  if seconds <? -1 then "<invalid>"
  else if seconds <? 0 then "0s"
  else if seconds <? 60 then Fmt.d seconds +:+ "s"
  else
    let minutes := to_int (Minutes d) in
    if minutes <? 60 then Fmt.d minutes +:+ "m"
    else
      let hours := to_int (Hours d) in
      if hours <? 24 then Fmt.d hours +:+ "h"
      else if hours <? 24 * 365 then Fmt.d (hours ÷ 24) +:+ "d"
      else Fmt.d (to_int (Hours d / 24 / 365)%float) +:+ "y".

End Duration.

(** * The specification's vocabulary *)

(** ** Risk tiers and the ordered classification *)

Inductive RiskTier : Type := HIGH | MEDIUM | LOW.

Definition tierName (t : RiskTier) : string :=
  match t with HIGH => "HIGH" | MEDIUM => "MEDIUM" | LOW => "LOW" end.

(** A usage sample exists: the pointer and both of its quantities. *)
Definition hasSample (usage : option ResourceUsage.t) : bool :=
  bool_decide (is_Some (usageValues usage)).

(** [used ÷ limit > bound], the quotient taken in binary64 as every ratio of
    the engine is, over a limit that has one: a positive limit. *)
Definition ratioExceeds (used limit : Z) (bound : float) : bool :=
  (0 <? limit)
  && Float64.gt (Float64.of_int64 used / Float64.of_int64 limit)%float bound.

(** CPU usage ÷ CPU limit > 0.9, for a sample and a declared CPU limit. *)
Definition cpuTight (limits : ResourceList) (usage : option ResourceUsage.t) : bool :=
  match usageValues usage, limits !! ResourceCPU with
  | Some (cpuUsage, _), Some cpuLimit =>
      ratioExceeds cpuUsage (Quantity.MilliValue cpuLimit) tightness
  | _, _ => false
  end.

(** The rules of the classification, in their order. *)
Definition riskRules (limits requests : ResourceList)
  (usage : option ResourceUsage.t) : list (bool * RiskTier) :=
  [ (bool_decide (limits = ∅), HIGH);
    (bool_decide (limits !! ResourceCPU = None ∨ limits !! ResourceMemory = None), MEDIUM);
    (hasSample usage && cpuTight limits usage, MEDIUM) ].

(** The tier of the first rule that matches, [otherwise] when none does. *)
Fixpoint firstMatch (rules : list (bool * RiskTier)) (otherwise : RiskTier) : RiskTier :=
  match rules with
  | [] => otherwise
  | (true, t) :: _ => t
  | (false, _) :: rest => firstMatch rest otherwise
  end.

Definition riskTier (limits requests : ResourceList)
  (usage : option ResourceUsage.t) : RiskTier :=
  firstMatch (riskRules limits requests usage) LOW.

(** ** Advisories and their order *)

(** The kinds of suggestion the engine emits; the usage advisories carry
    the percentage they report. *)
Inductive Advisory : Type :=
  | NoLimitsSet
  | NoRequestsSet
  | IncreaseCPULimit (usagePercent : float)
  | DecreaseCPULimit (usagePercent : float)
  | IncreaseMemoryLimit (usagePercent : float)
  | DecreaseMemoryLimit (usagePercent : float)
  | SetLimitsFromRequirements.

(** The text of an advisory. *)
Definition render (a : Advisory) : string :=
  match a with
  | NoLimitsSet => msgNoLimits
  | NoRequestsSet => msgNoRequests
  | IncreaseCPULimit p => msgIncrease "CPU" p
  | DecreaseCPULimit p => msgDecrease "CPU" p
  | IncreaseMemoryLimit p => msgIncrease "Memory" p
  | DecreaseMemoryLimit p => msgDecrease "Memory" p
  | SetLimitsFromRequirements => msgFallback
  end.

(** An advisory without its percentage. *)
Inductive AdvisoryKind : Type :=
  | KNoLimits | KNoRequests | KIncreaseCPU | KDecreaseCPU
  | KIncreaseMemory | KDecreaseMemory | KFallback.

Definition kindOf (a : Advisory) : AdvisoryKind :=
  match a with
  | NoLimitsSet => KNoLimits
  | NoRequestsSet => KNoRequests
  | IncreaseCPULimit _ => KIncreaseCPU
  | DecreaseCPULimit _ => KDecreaseCPU
  | IncreaseMemoryLimit _ => KIncreaseMemory
  | DecreaseMemoryLimit _ => KDecreaseMemory
  | SetLimitsFromRequirements => KFallback
  end.

(** One entry iff the condition holds. *)
Definition emitIf {A : Type} (condition : bool) (entry : A) : list A :=
  if condition then [entry] else [].

(** The usage check of one resource: for a sample and a declared, positive
    limit, an increase advisory iff [usagePercent > threshold × 100], else a
    decrease advisory iff [usagePercent < trigger]. *)
Definition usageCheck (increase decrease : float -> Advisory) (trigger : float)
  (used : option Z) (limit : option Z) (threshold : float) : list Advisory :=
  match used, limit with
  | Some used, Some limit =>
      if 0 <? limit then
        let usagePercent := usagePercentOf used limit in
        if Float64.gt usagePercent (threshold * 100)%float then [increase usagePercent]
        else emitIf (Float64.lt usagePercent trigger) (decrease usagePercent)
      else []
  | _, _ => []
  end.

(** The suggestion list of the specification, rule by rule in its order. *)
Definition suggestionsSpec (limits requests : ResourceList)
  (usage : option ResourceUsage.t) (threshold : float) : list Advisory :=
  emitIf (bool_decide (limits = ∅)) NoLimitsSet
  ++ emitIf (bool_decide (requests = ∅)) NoRequestsSet
  ++ usageCheck IncreaseCPULimit DecreaseCPULimit 30%float
       (fst <$> usageValues usage)
       (Quantity.MilliValue <$> limits !! ResourceCPU) threshold
  ++ usageCheck IncreaseMemoryLimit DecreaseMemoryLimit 50%float
       (snd <$> usageValues usage)
       (Quantity.Value <$> limits !! ResourceMemory) threshold
  ++ emitIf (negb (hasSample usage) && bool_decide (limits = ∅))
       SetLimitsFromRequirements.

(** ** Recommended values *)

(** The four texts [generateSpecificRecommendations] assigns, as functions
    of [cpuUsageMilli] and [memUsageBytes]. *)
Definition cpuLimitFor (cpuUsageMilli : Z) : string :=
  let v := Int64.div (Int64.mul cpuUsageMilli 5) 2 in
  Fmt.d (if v <? 100 then 100 else v) +:+ "m".

Definition cpuRequestFor (cpuUsageMilli : Z) : string :=
  let v := Int64.div (Int64.mul cpuUsageMilli 6) 5 in
  Fmt.d (if v <? 50 then 50 else v) +:+ "m".

Definition memoryLimitFor (memUsageBytes : Z) : string :=
  let v := Int64.div (Int64.mul memUsageBytes 5) 2 in
  Fmt.d (Int64.div (if v <? 128 * MiB then 128 * MiB else v) MiB) +:+ "Mi".

Definition memoryRequestFor (memUsageBytes : Z) : string :=
  let v := Int64.div (Int64.mul memUsageBytes 6) 5 in
  Fmt.d (Int64.div (if v <? 64 * MiB then 64 * MiB else v) MiB) +:+ "Mi".

(** A recommendation text [<n>m] that stands for exactly [factor] times
    [cpuUsage] milli-cores. *)
Definition isTimes (factor : Q) (cpuUsage : Z) (text : string) : Prop :=
  exists n : Z, text = Fmt.d n +:+ "m" /\ Qeq (inject_Z n) (factor * inject_Z cpuUsage)%Q.

(** An analysis under way whose usage has been attached. *)
Definition analysisWith (usage : option ResourceUsage.t) : PodAnalysis.t :=
  PodAnalysis.set_CurrentUsage usage
    (PodAnalysis.literal "default" "web" "app" "1h" ∅).

(** ** The join and the result of one container *)

(** What the lookup in the metrics map and the loop over its containers
    leave in [analysis.CurrentUsage]. *)
Definition attachedUsage (metricsMap : gmap string PodMetrics.t) (pod : Pod.t)
  (container : Container.t) : option ResourceUsage.t :=
  match metricsMap !! metricsKey (Pod.Namespace pod) (Pod.Name pod) with
  | Some pm => usageOfContainer (PodMetrics.Containers pm) (Container.Name container)
  | None => None
  end.

(** The example snippet rendered from four recommendation texts. *)
Definition snippet (cpuLimit memLimit cpuRequest memRequest : string) : string :=
  "        resources:" +:+ lf +:+
  "          limits:" +:+ lf +:+
  "            cpu: " +:+ dq +:+ cpuLimit +:+ dq +:+ lf +:+
  "            memory: " +:+ dq +:+ memLimit +:+ dq +:+ lf +:+
  "          requests:" +:+ lf +:+
  "            cpu: " +:+ dq +:+ cpuRequest +:+ dq +:+ lf +:+
  "            memory: " +:+ dq +:+ memRequest +:+ dq.

(** The record the loop body appends for a container, field by field. *)
Definition resultOf (metricsMap : gmap string PodMetrics.t) (threshold : float)
  (pod : Pod.t) (podAge : string) (container : Container.t) : PodAnalysis.t :=
  let limits := Resources.Limits (Container.Resources container) in
  let requests := Resources.Requests (Container.Resources container) in
  let usage := attachedUsage metricsMap pod container in
  let values := usageValues usage in
  let rec (f : Z -> string) (v : option Z) : string :=
    match v with Some z => f z | None => EmptyString end in
  let cl := rec cpuLimitFor (fst <$> values) in
  let cr := rec cpuRequestFor (fst <$> values) in
  let ml := rec memoryLimitFor (snd <$> values) in
  let mr := rec memoryRequestFor (snd <$> values) in
  PodAnalysis.mk (Pod.Namespace pod) (Pod.Name pod) (Container.Name container)
    (negb (bool_decide (limits = ∅))) (negb (bool_decide (requests = ∅)))
    limits usage
    (generateSuggestions container usage threshold)
    (calculateRiskLevel container usage)
    podAge cl cr ml mr
    (if bool_decide (limits = ∅) && bool_decide (is_Some usage)
     then snippet cl ml cr mr else EmptyString).

(** The containers of the pods, in input order, each with its pod. *)
Definition containersOf (pods : list Pod.t) : list (Pod.t * Container.t) :=
  pods ≫= (fun pod => (fun container => (pod, container)) <$> Pod.Containers pod).

(** ** Identity and gating of a result *)

(** The join key of a container and of a result. *)
Definition identityOf (pc : Pod.t * Container.t) : string * string * string :=
  (Pod.Namespace pc.1, Pod.Name pc.1, Container.Name pc.2).

Definition identity (r : PodAnalysis.t) : string * string * string :=
  (PodAnalysis.Namespace r, PodAnalysis.PodName r, PodAnalysis.ContainerName r).

(** A string field is populated when it is not the empty string. *)
Definition populated (field : string) : Prop := field <> EmptyString.

(** The four recommendation fields of a result. *)
Definition recommendations (r : PodAnalysis.t) : list string :=
  [ PodAnalysis.RecommendedCPULimit r; PodAnalysis.RecommendedCPURequest r;
    PodAnalysis.RecommendedMemoryLimit r; PodAnalysis.RecommendedMemoryRequest r ].

(** The gating invariant of a result. *)
Definition gated (r : PodAnalysis.t) : Prop :=
  (is_Some (PodAnalysis.CurrentUsage r) -> Forall populated (recommendations r))
  /\ (PodAnalysis.CurrentUsage r = None ->
      Forall (fun field => field = EmptyString) (recommendations r))
  /\ (populated (PodAnalysis.ExampleYAML r)
      <-> is_Some (PodAnalysis.CurrentUsage r) /\ PodAnalysis.CurrentLimits r = ∅)
  /\ (populated (PodAnalysis.ExampleYAML r) ->
      Forall populated (recommendations r)
      /\ PodAnalysis.ExampleYAML r
         = snippet (PodAnalysis.RecommendedCPULimit r) (PodAnalysis.RecommendedMemoryLimit r)
             (PodAnalysis.RecommendedCPURequest r) (PodAnalysis.RecommendedMemoryRequest r)).

(** ** The join, by exact identity *)

(** The string has no separator character. *)
Fixpoint noSlash (s : string) : bool :=
  match s with
  | EmptyString => true
  | String c rest => negb (Ascii.eqb c "/") && noSlash rest
  end.

(** The usage entry is the pod's: same namespace and same workload name. *)
Definition sameWorkload (pod : Pod.t) (pm : PodMetrics.t) : bool :=
  String.eqb (PodMetrics.Namespace pm) (Pod.Namespace pod)
  && String.eqb (PodMetrics.Name pm) (Pod.Name pod).

(** The entry of the pod in the dataset, the last one should the dataset
    repeat it. *)
Fixpoint workloadEntry (pod : Pod.t) (podMetrics : list PodMetrics.t)
  : option PodMetrics.t :=
  match podMetrics with
  | [] => None
  | pm :: rest =>
      match workloadEntry pod rest with
      | Some later => Some later
      | None => if sameWorkload pod pm then Some pm else None
      end
  end.

(** The sample whose (namespace, workload, container) equals the
    container's: the entry of the pod, and in it the entry named like the
    container (the first, should the entry repeat it). *)
Definition exactJoin (podMetrics : list PodMetrics.t) (pod : Pod.t)
  (container : Container.t) : option ResourceUsage.t :=
  match workloadEntry pod podMetrics with
  | Some pm => usageOfContainer (PodMetrics.Containers pm) (Container.Name container)
  | None => None
  end.

(** The sample of a container entry, as the engine copies it. *)
Definition sampleOf (cm : ContainerMetrics.t) : ResourceUsage.t :=
  ResourceUsage.mk (Some (Cpu (ContainerMetrics.Usage cm)))
                   (Some (Memory (ContainerMetrics.Usage cm))).

(** The usage entry belongs to one of the pods. *)
Definition matchesSomePod (pods : list Pod.t) (pm : PodMetrics.t) : bool :=
  existsb (fun pod => sameWorkload pod pm) pods.

(** ** The binary64 tests against exact comparisons *)

(** The pairs (used, limit) with [0 <= used <= n] and [1 <= limit <= n]. *)
Definition grid (n : nat) : list (Z * Z) :=
  (Z.of_nat <$> seq 0 (S n)) ≫= (fun used =>
    (fun limit => (used, Z.of_nat limit)) <$> seq 1 n).

(** On a pair, the tests of the engine give what the exact comparisons of
    the two integers give: the tightness test [used / limit > 0.9], the
    increase test at threshold 0.8 and the decrease tests at 30 and 50. *)
Definition testsAreExact (p : Z * Z) : bool :=
  let used := p.1 in
  let limit := p.2 in
  let percent := usagePercentOf used limit in
  Bool.eqb (ratioExceeds used limit tightness) (9 * limit <? 10 * used)
  && Bool.eqb (Float64.gt percent (0x1.999999999999ap-1 * 100)%float) (80 * limit <? 100 * used)
  && Bool.eqb (Float64.lt percent 30%float) (100 * used <? 30 * limit)
  && Bool.eqb (Float64.lt percent 50%float) (100 * used <? 50 * limit).

(** ** Fields of a result that tell the same fact *)

(** The tier, the two booleans, the headline suggestions and the snippet of
    a result agree with one another. *)
Definition consistent (r : PodAnalysis.t) : Prop :=
  PodAnalysis.RiskLevel r ∈ ["HIGH"; "MEDIUM"; "LOW"]
  /\ (PodAnalysis.HasLimits r = false <-> PodAnalysis.CurrentLimits r = ∅)
  /\ (PodAnalysis.RiskLevel r = "HIGH" <-> PodAnalysis.HasLimits r = false)
  /\ (msgNoLimits ∈ PodAnalysis.Suggestions r <-> PodAnalysis.HasLimits r = false)
  /\ (msgNoRequests ∈ PodAnalysis.Suggestions r <-> PodAnalysis.HasRequests r = false)
  /\ (msgFallback ∈ PodAnalysis.Suggestions r
      <-> PodAnalysis.HasLimits r = false /\ PodAnalysis.CurrentUsage r = None)
  /\ (populated (PodAnalysis.ExampleYAML r) -> PodAnalysis.RiskLevel r = "HIGH").

(** ** The recommended values as numbers *)

(** The values of the locals [recommendedCPULimit], [recommendedCPURequest]
    (milli-cores), and of [recommendedMemLimit/(1024*1024)],
    [recommendedMemRequest/(1024*1024)] (mebibytes) that
    [generateSpecificRecommendations] prints. *)
Definition recommendedCPULimitMilli (cpuUsageMilli : Z) : Z :=
  let v := Int64.div (Int64.mul cpuUsageMilli 5) 2 in
  if v <? 100 then 100 else v.

Definition recommendedCPURequestMilli (cpuUsageMilli : Z) : Z :=
  let v := Int64.div (Int64.mul cpuUsageMilli 6) 5 in
  if v <? 50 then 50 else v.

Definition recommendedMemoryLimitMi (memUsageBytes : Z) : Z :=
  let v := Int64.div (Int64.mul memUsageBytes 5) 2 in
  Int64.div (if v <? 128 * MiB then 128 * MiB else v) MiB.

Definition recommendedMemoryRequestMi (memUsageBytes : Z) : Z :=
  let v := Int64.div (Int64.mul memUsageBytes 6) 5 in
  Int64.div (if v <? 64 * MiB then 64 * MiB else v) MiB.

(** The key a usage entry is stored under. *)
Definition keyOf (pm : PodMetrics.t) : string :=
  metricsKey (PodMetrics.Namespace pm) (PodMetrics.Name pm).

(** ** Containers that differ in their requests only *)

(** The same container but for its requests, which are empty in both or in
    neither. *)
Definition sameUpToRequests (c c' : Container.t) : Prop :=
  Container.Name c = Container.Name c'
  /\ Resources.Limits (Container.Resources c) = Resources.Limits (Container.Resources c')
  /\ (Resources.Requests (Container.Resources c) = ∅
      <-> Resources.Requests (Container.Resources c') = ∅).

(** The same pod but for the requests of its containers. *)
Definition samePodUpToRequests (pod pod' : Pod.t) : Prop :=
  Pod.Namespace pod = Pod.Namespace pod'
  /\ Pod.Name pod = Pod.Name pod'
  /\ Pod.CreationTimestamp pod = Pod.CreationTimestamp pod'
  /\ Forall2 sameUpToRequests (Pod.Containers pod) (Pod.Containers pod').

(** ** Quantities and inputs of the scenarios *)

Module Scenario.

(** [n] thousandths of a unit, as in the quantity [<n>m]: [Value()] rounds
    away from zero. *)
Definition milli (n : Z) : Quantity.t :=
  Quantity.mk n (Z.sgn n * ((Z.abs n + 999) / 1000)).

(** [n] whole units, as in a number of bytes. *)
Definition units (n : Z) : Quantity.t := Quantity.mk (n * 1000) n.

(** A resource list with a CPU and a memory entry. *)
Definition cpuAndMemory (cpu mem : Quantity.t) : ResourceList :=
  <[ResourceCPU := cpu]> (<[ResourceMemory := mem]> ∅).

(** One pod [default/web] with the single container [app]. *)
Definition podOf (limits requests : ResourceList) : Pod.t :=
  Pod.mk "default" "web" 0 [Container.mk "app" (Resources.mk limits requests)].

(** The usage entry of that container. *)
Definition metricsOf (usage : ResourceList) : PodMetrics.t :=
  PodMetrics.mk "default" "web" [ContainerMetrics.mk "app" usage].

(** A sample as the engine attaches it. *)
Definition sample (cpu mem : Quantity.t) : option ResourceUsage.t :=
  Some (ResourceUsage.mk (Some cpu) (Some mem)).

(** The suggestion threshold [0.8], the flag's default. *)
Definition threshold : float := 0x1.999999999999ap-1%float.

(** A container whose CPU limit is the zero quantity. *)
Definition zeroCPU : Container.t :=
  Container.mk "app" (Resources.mk (cpuAndMemory Quantity.zero (units (256 * MiB))) ∅).

(** A container whose memory limit is the zero quantity. *)
Definition zeroMemory : Container.t :=
  Container.mk "app" (Resources.mk (cpuAndMemory (milli 200) Quantity.zero) ∅).

(** A container with neither limits nor requests. *)
Definition bare : Container.t := Container.mk "app" (Resources.mk ∅ ∅).

(** Scenario B: CPU limit 200m, memory limit 256Mi, no requests; usage
    cpu=50m, memory=64Mi. *)
Definition podB : Pod.t := podOf (cpuAndMemory (milli 200) (units (256 * MiB))) ∅.
Definition metricsB : PodMetrics.t :=
  metricsOf (cpuAndMemory (milli 50) (units (64 * MiB))).

(** Two readings of the clock, ten seconds and three hours after the
    creation of the scenario pods. *)
Definition tenSeconds : Z := 10 * Duration.Second.
Definition threeHours : Z := 3 * Duration.Hour.

(** A pod named [b/c] in namespace [a], and a usage entry named [c] in
    namespace [a/b]: different identities, one formatted key [a/b/c]. *)
Definition podSlash : Pod.t :=
  Pod.mk "a" "b/c" 0 [Container.mk "app" (Resources.mk ∅ ∅)].
Definition metricsSlash : PodMetrics.t :=
  PodMetrics.mk "a/b" "c"
    [ContainerMetrics.mk "app" (cpuAndMemory (milli 50) (units (64 * MiB)))].

(** A usage entry of a workload that is not among the scenario pods. *)
Definition metricsStale : PodMetrics.t :=
  PodMetrics.mk "default" "gone"
    [ContainerMetrics.mk "app" (cpuAndMemory (milli 900) (units (512 * MiB)))].

(** Scenario A: no limits, no requests, no usage sample. *)
Definition podA : Pod.t := podOf ∅ ∅.

(** Scenario C: CPU limit 100m with a memory limit, usage cpu=95m. *)
Definition podC : Pod.t := podOf (cpuAndMemory (milli 100) (units (256 * MiB))) ∅.
Definition metricsC : PodMetrics.t :=
  metricsOf (cpuAndMemory (milli 95) (units (64 * MiB))).

(** Scenario D: no limits, usage cpu=10m and memory=10MiB. *)
Definition podD : Pod.t := podOf ∅ ∅.
Definition metricsD : PodMetrics.t :=
  metricsOf (cpuAndMemory (milli 10) (units (10 * MiB))).

End Scenario.

(** * The reporter, [pkg/reporter] *)

(** ** Format strings *)

Module Printf.

Definition tab : string := String (ascii_of_nat 9) EmptyString.

(** The string a Go interpreted literal denotes: [\n] and [\t] are the
    escapes the reporter's literals use. *)
Fixpoint lit (s : string) : string :=
  match s with
  | EmptyString => EmptyString
  | String "\" (String "n" rest) => lf +:+ lit rest
  | String "\" (String "t" rest) => tab +:+ lit rest
  | String c rest => String c (lit rest)
  end.

(** An operand of [fmt.Printf]: a string for [%s] or [%v], an integer for
    [%d]. *)
Inductive arg : Type := S (s : string) | D (z : Z).

Definition show (a : arg) : string :=
  match a with S s => s | D z => Fmt.d z end.

(** [fmt.Sprintf] for formats whose verbs are [%s], [%v], [%d] and [%%]:
    each verb prints the next operand. *)
Fixpoint sprintf (format : string) (args : list arg) : string :=
  match format with
  | EmptyString => EmptyString
  | String "%" (String verb rest) =>
      if Ascii.eqb verb "%" then String "%" (sprintf rest args)
      else
        match args with
        | a :: args' => show a +:+ sprintf rest args'
        | [] => "%!" +:+ String verb "(MISSING)" +:+ sprintf rest []
        end
  | String c rest => String c (sprintf rest args)
  end.

(** [fmt.Println] of one string. *)
Definition println (s : string) : string := s +:+ lf.

(** [strings.Join]. *)
Fixpoint join (parts : list string) (sep : string) : string :=
  match parts with
  | [] => EmptyString
  | [p] => p
  | p :: rest => p +:+ sep +:+ join rest sep
  end.

End Printf.

(** ** Slices *)

(** A Go slice as the reporter sees it: [nil], or a slice and its elements.
    [len] and [range] see the elements; a marshaller sees the difference. *)
Module Slice.

Definition t (A : Type) : Type := option (list A).

Definition items {A : Type} (s : t A) : list A :=
  match s with Some l => l | None => [] end.

(** The value of a variable declared [var results []T] after a sequence of
    [append]s of the elements: [nil] if there was none. *)
Definition appended {A : Type} (l : list A) : t A :=
  match l with [] => None | _ :: _ => Some l end.

End Slice.

(** ** The reporter *)

Module Reporter.

Record t : Type := mk { format : string; verbose : bool; showExamples : bool }.

Definition NewReporter (format : string) : t := mk format false true.

Definition SetVerbose (verbose : bool) (r : t) : t :=
  mk (format r) verbose (showExamples r).

Definition SetShowExamples (showExamples : bool) (r : t) : t :=
  mk (format r) (verbose r) showExamples.

End Reporter.

(** The guard [result.CurrentUsage != nil && result.CurrentUsage.CPU != nil
    && result.CurrentUsage.Memory != nil] of the reporter, and under it the
    two quantities. *)
Definition usageQuantities (usage : option ResourceUsage.t)
  : option (Quantity.t * Quantity.t) :=
  match usage with
  | Some u =>
      match ResourceUsage.CPU u, ResourceUsage.Memory u with
      | Some cpu, Some mem => Some (cpu, mem)
      | _, _ => None
      end
  | None => None
  end.

(** The test of the filtering loop of [GenerateReport]. *)
Definition shown (result : PodAnalysis.t) : bool :=
  negb (PodAnalysis.HasLimits result)
  || String.eqb (PodAnalysis.RiskLevel result) "HIGH"
  || String.eqb (PodAnalysis.RiskLevel result) "MEDIUM".

(** The loop of [GenerateReport] that fills [filteredResults]. *)
Definition keptResults (results : list PodAnalysis.t) : list PodAnalysis.t :=
  fold_left
    (fun filtered result => if shown result then filtered ++ [result] else filtered)
    results [].

(** [filteredResults] of [GenerateReport]: the slice it was given, or the
    slice [[]analyzer.PodAnalysis{}] with what the loop appended. *)
Definition filteredResults (results : Slice.t PodAnalysis.t) (showAll : bool)
  : Slice.t PodAnalysis.t :=
  if negb showAll then Some (keptResults (Slice.items results)) else results.

(** The [switch result.RiskLevel] that picks the icon. *)
Definition riskIcon (riskLevel : string) : string :=
  if String.eqb riskLevel "HIGH" then "🔴"
  else if String.eqb riskLevel "MEDIUM" then "🟡"
  else if String.eqb riskLevel "LOW" then "🟢"
  else "✅".

(** The six counters of [printSummary] after its loop: highRisk,
    mediumRisk, lowRisk, noLimits, noRequests, withUsageData. *)
Module Counters.
Record t : Type := mk {
  highRisk : Z; mediumRisk : Z; lowRisk : Z;
  noLimits : Z; noRequests : Z; withUsageData : Z
}.
End Counters.

Definition countResult (c : Counters.t) (result : PodAnalysis.t) : Counters.t :=
  let level := PodAnalysis.RiskLevel result in
  let high := if String.eqb level "HIGH" then Counters.highRisk c + 1
              else Counters.highRisk c in
  let medium := if negb (String.eqb level "HIGH") && String.eqb level "MEDIUM"
                then Counters.mediumRisk c + 1 else Counters.mediumRisk c in
  let low := if negb (String.eqb level "HIGH") && negb (String.eqb level "MEDIUM")
                && String.eqb level "LOW"
             then Counters.lowRisk c + 1 else Counters.lowRisk c in
  let noLimits := if negb (PodAnalysis.HasLimits result) then Counters.noLimits c + 1
                  else Counters.noLimits c in
  let noRequests := if negb (PodAnalysis.HasRequests result)
                    then Counters.noRequests c + 1 else Counters.noRequests c in
  let withUsage :=
    if bool_decide (is_Some (usageQuantities (PodAnalysis.CurrentUsage result)))
    then Counters.withUsageData c + 1 else Counters.withUsageData c in
  Counters.mk high medium low noLimits noRequests withUsage.

Definition summaryCounters (results : list PodAnalysis.t) : Counters.t :=
  fold_left countResult results (Counters.mk 0 0 0 0 0 0).

(** [podsNeedingExamples] of [printSpecificExamples]. *)
Definition podsNeedingExamples (results : list PodAnalysis.t) : list PodAnalysis.t :=
  fold_left
    (fun needing result =>
       if negb (PodAnalysis.HasLimits result)
          && bool_decide (is_Some (usageQuantities (PodAnalysis.CurrentUsage result)))
       then needing ++ [result] else needing)
    results [].

(** The last block of [printPodDetails]: the recommended limits, and under
    them the example snippet. *)
Definition recommendedBlock (result : PodAnalysis.t) : string :=
  if negb (String.eqb (PodAnalysis.RecommendedCPULimit result) EmptyString)
     && negb (String.eqb (PodAnalysis.RecommendedMemoryLimit result) EmptyString)
  then
    Printf.lit "  Recommended limits (based on current usage):\n"
    +:+ Printf.sprintf (Printf.lit "    CPU: %s (request: %s)\n")
          [ Printf.S (PodAnalysis.RecommendedCPULimit result);
            Printf.S (PodAnalysis.RecommendedCPURequest result) ]
    +:+ Printf.sprintf (Printf.lit "    Memory: %s (request: %s)\n")
          [ Printf.S (PodAnalysis.RecommendedMemoryLimit result);
            Printf.S (PodAnalysis.RecommendedMemoryRequest result) ]
    +:+ (if negb (String.eqb (PodAnalysis.ExampleYAML result) EmptyString) then
           Printf.lit "  Example YAML to add to container spec:\n"
           +:+ Printf.sprintf (Printf.lit "%s\n")
                 [Printf.S (PodAnalysis.ExampleYAML result)]
         else EmptyString)
  else EmptyString.

(** The suggestion cell of a compact row: the first suggestion, and how many
    more there are. *)
Definition suggestionCell (result : PodAnalysis.t) : string :=
  let suggestions := PodAnalysis.Suggestions result in
  match suggestions with
  | [] => EmptyString
  | first :: _ =>
      if 1 <? Z.of_nat (length suggestions) then
        first +:+ Printf.sprintf " (+%d more)"
                    [Printf.D (Z.of_nat (length suggestions) - 1)]
      else first
  end.

Section Report.

(** [resource.Quantity.String()]. *)
Variable QuantityString : Quantity.t -> string.

(** What a [tabwriter.Writer] made with [NewWriter(os.Stdout, 0, 0, 3, ' ',
    0)] writes to standard output at [Flush] for the text written to it. *)
Variable tabwrite : string -> string.

(** [json.MarshalIndent(results, "", "  ")] and [yaml.Marshal(results)]: the
    bytes, or the message of the error. *)
Variable MarshalIndent : Slice.t PodAnalysis.t -> string + string.
Variable YamlMarshal : Slice.t PodAnalysis.t -> string + string.

(** [strings.ToLower]. *)
Variable ToLower : string -> string.

(** The limits cell of a compact row. *)
Definition limitsCell (result : PodAnalysis.t) : string :=
  let limits := PodAnalysis.CurrentLimits result in
  if 0 <? len limits then
    let limitParts : list string := [] in
    let limitParts :=
      match limits !! ResourceCPU with
      | Some cpu =>
          limitParts ++ [Printf.sprintf "CPU:%s" [Printf.S (QuantityString cpu)]]
      | None => limitParts
      end in
    let limitParts :=
      match limits !! ResourceMemory with
      | Some mem =>
          limitParts ++ [Printf.sprintf "Mem:%s" [Printf.S (QuantityString mem)]]
      | None => limitParts
      end in
    Printf.join limitParts ", "
  else "None".

(** One row of the compact table, as written to the tabwriter. *)
Definition compactRow (result : PodAnalysis.t) : string :=
  let requestsStr := if PodAnalysis.HasRequests result then "Yes" else "No" in
  Printf.sprintf (Printf.lit "%s\t%s\t%s\t%s\t%s\t%s\t%s%s\t%s\n")
    [ Printf.S (PodAnalysis.Namespace result);
      Printf.S (PodAnalysis.PodName result);
      Printf.S (PodAnalysis.ContainerName result);
      Printf.S (PodAnalysis.Age result);
      Printf.S (limitsCell result);
      Printf.S requestsStr;
      Printf.S (riskIcon (PodAnalysis.RiskLevel result));
      Printf.S (PodAnalysis.RiskLevel result);
      Printf.S (suggestionCell result) ].

(** [printPodDetails]: what it prints to standard output. *)
Definition printPodDetails (result : PodAnalysis.t) : string :=
  let limits := PodAnalysis.CurrentLimits result in
  Printf.sprintf (Printf.lit "📦 Pod: %s/%s\n")
    [Printf.S (PodAnalysis.Namespace result); Printf.S (PodAnalysis.PodName result)]
  +:+ Printf.sprintf (Printf.lit "  Container: %s (Age: %s)\n")
        [Printf.S (PodAnalysis.ContainerName result); Printf.S (PodAnalysis.Age result)]
  (* Current configuration *)
  +:+ Printf.lit "  Current configuration:\n"
  +:+ (if 0 <? len limits then
         Printf.lit "    Limits:\n"
         +:+ match limits !! ResourceCPU with
             | Some cpu =>
                 Printf.sprintf (Printf.lit "      CPU: %s\n") [Printf.S (QuantityString cpu)]
             | None => Printf.lit "      CPU: ❌ Not set\n"
             end
         +:+ match limits !! ResourceMemory with
             | Some mem =>
                 Printf.sprintf (Printf.lit "      Memory: %s\n")
                   [Printf.S (QuantityString mem)]
             | None => Printf.lit "      Memory: ❌ Not set\n"
             end
       else Printf.lit "    Limits: ❌ None\n")
  +:+ (if PodAnalysis.HasRequests result then Printf.lit "    Requests: ✅ Set\n"
       else Printf.lit "    Requests: ⚠️ Not set\n")
  (* Current usage if available *)
  +:+ match usageQuantities (PodAnalysis.CurrentUsage result) with
      | Some (cpu, mem) =>
          Printf.lit "  Current usage:\n"
          +:+ Printf.sprintf (Printf.lit "    CPU: %s\n") [Printf.S (QuantityString cpu)]
          +:+ Printf.sprintf (Printf.lit "    Memory: %s\n") [Printf.S (QuantityString mem)]
      | None => EmptyString
      end
  (* Risk level *)
  +:+ Printf.sprintf (Printf.lit "  Risk level: %s%s\n")
        [ Printf.S (riskIcon (PodAnalysis.RiskLevel result));
          Printf.S (PodAnalysis.RiskLevel result) ]
  (* Suggestions *)
  +:+ (if 0 <? Z.of_nat (length (PodAnalysis.Suggestions result)) then
         Printf.lit "  Suggestions:\n"
         +:+ fold_left
               (fun out suggestion =>
                  out +:+ Printf.sprintf (Printf.lit "    - %s\n") [Printf.S suggestion])
               (PodAnalysis.Suggestions result) EmptyString
       else EmptyString)
  (* Specific recommendations if we have usage data *)
  +:+ recommendedBlock result.

(** [printSummary]. *)
Definition printSummary (results : list PodAnalysis.t) : string :=
  let c := summaryCounters results in
  Printf.lit "\n📊 Summary:\n"
  +:+ Printf.sprintf (Printf.lit "  Total containers analyzed: %d\n")
        [Printf.D (Z.of_nat (length results))]
  +:+ Printf.sprintf (Printf.lit "  🔴 High risk (no limits): %d\n")
        [Printf.D (Counters.highRisk c)]
  +:+ Printf.sprintf (Printf.lit "  🟡 Medium risk: %d\n") [Printf.D (Counters.mediumRisk c)]
  +:+ Printf.sprintf (Printf.lit "  🟢 Low risk: %d\n") [Printf.D (Counters.lowRisk c)]
  +:+ Printf.sprintf (Printf.lit "  ❌ No limits set: %d\n") [Printf.D (Counters.noLimits c)]
  +:+ Printf.sprintf (Printf.lit "  ⚠️  No requests set: %d\n")
        [Printf.D (Counters.noRequests c)]
  +:+ Printf.sprintf (Printf.lit "  📊 With usage metrics: %d\n")
        [Printf.D (Counters.withUsageData c)].

(** The block [printSpecificExamples] prints for one result that needs an
    example; its usage pointers are not nil. *)
Definition exampleBlock (result : PodAnalysis.t) : string :=
  match usageQuantities (PodAnalysis.CurrentUsage result) with
  | Some (cpu, mem) =>
      Printf.sprintf (Printf.lit "\n  %s/%s/%s:\n")
        [ Printf.S (PodAnalysis.Namespace result); Printf.S (PodAnalysis.PodName result);
          Printf.S (PodAnalysis.ContainerName result) ]
      +:+ Printf.sprintf
            (Printf.lit "    Current CPU usage: %s → Suggested: limit=%s, request=%s\n")
            [ Printf.S (QuantityString cpu);
              Printf.S (PodAnalysis.RecommendedCPULimit result);
              Printf.S (PodAnalysis.RecommendedCPURequest result) ]
      +:+ Printf.sprintf
            (Printf.lit "    Current memory usage: %s → Suggested: limit=%s, request=%s\n")
            [ Printf.S (QuantityString mem);
              Printf.S (PodAnalysis.RecommendedMemoryLimit result);
              Printf.S (PodAnalysis.RecommendedMemoryRequest result) ]
  | None => EmptyString
  end.

(** [printSpecificExamples]. *)
Definition printSpecificExamples (results : list PodAnalysis.t) : string :=
  let needing := podsNeedingExamples results in
  if 0 <? Z.of_nat (length needing) then
    Printf.lit "\n🔧 Specific fixes for pods without limits (based on current usage):\n"
    +:+ fold_left (fun out result => out +:+ exampleBlock result) needing EmptyString
  else EmptyString.

(** [generateTable]: the text on standard output; the error is always
    [nil]. *)
Definition generateTable (r : Reporter.t) (results : list PodAnalysis.t) : string :=
  if Z.of_nat (length results) =? 0 then
    Printf.println "✅ All pods have proper resource limits configured."
  else
    let '(printed, written) :=
      if Reporter.verbose r then
        (* Verbose mode - detailed output *)
        (fold_left
           (fun out ir =>
              out +:+ (if 0 <? Z.of_nat ir.1 then Printf.println EmptyString
                       else EmptyString)
              +:+ printPodDetails ir.2)
           (imap (fun i result => (i, result)) results) EmptyString,
         EmptyString)
      else
        (* Compact mode - just the table *)
        (EmptyString,
         fold_left (fun w result => w +:+ compactRow result) results
           (Printf.println
              (Printf.lit "NAMESPACE\tPOD\tCONTAINER\tAGE\tLIMITS\tREQUESTS\tRISK\tSUGGESTIONS")
            +:+ Printf.println
                  (Printf.lit "---------\t---\t---------\t---\t------\t--------\t----\t----------"))) in
    printed
    +:+ tabwrite written
    (* Print summary *)
    +:+ printSummary results
    (* Print examples for pods without limits *)
    +:+ (if Reporter.showExamples r then printSpecificExamples results else EmptyString)
    +:+ (if negb (Reporter.verbose r) && (0 <? Z.of_nat (length results)) then
           Printf.lit "\n💡 Tip: Use --verbose flag to see detailed recommendations\n"
         else EmptyString).

(** [generateJSON] and [generateYAML]: the text on standard output and the
    error returned. *)
Definition generateJSON (results : Slice.t PodAnalysis.t) : string * option string :=
  match MarshalIndent results with
  | inr err => (EmptyString, Some err)
  | inl data => (Printf.println data, None)
  end.

Definition generateYAML (results : Slice.t PodAnalysis.t) : string * option string :=
  match YamlMarshal results with
  | inr err => (EmptyString, Some err)
  | inl data => (Printf.println data, None)
  end.

(** [GenerateReport]. *)
Definition GenerateReport (r : Reporter.t) (results : Slice.t PodAnalysis.t)
  (showAll : bool) : string * option string :=
  (* Filter results if not showing all *)
  let filtered := filteredResults results showAll in
  let format := ToLower (Reporter.format r) in
  if String.eqb format "json" then generateJSON filtered
  else if String.eqb format "yaml" then generateYAML filtered
  else (generateTable r (Slice.items filtered), None).

End Report.

(** * The client, [pkg/kubernetes] *)

Module Kubernetes.

(** [Client]: the clientset, and the metrics clientset or [nil]. *)
Record Client (kubernetes_Clientset metricsv_Clientset : Type) : Type := mkClient {
  Clientset : kubernetes_Clientset;
  MetricsClient : option metricsv_Clientset
}.
Arguments mkClient {kubernetes_Clientset metricsv_Clientset}.
Arguments Clientset {kubernetes_Clientset metricsv_Clientset}.
Arguments MetricsClient {kubernetes_Clientset metricsv_Clientset}.

Section Environment.

(** [*rest.Config], [*kubernetes.Clientset] and [*metricsv.Clientset]. *)
Variables rest_Config kubernetes_Clientset metricsv_Clientset : Type.

(** [rest.InClusterConfig()]: the configuration, or the message of the
    error. *)
Variable InClusterConfig : rest_Config + string.

(** [os.Getenv]. *)
Variable Getenv : string -> string.

(** [os.Stat(path)] returns a [nil] error. *)
Variable Stat : string -> bool.

(** [filepath.Join]. *)
Variable Join : list string -> string.

(** [clientcmd.BuildConfigFromFlags], [kubernetes.NewForConfig] and
    [metricsv.NewForConfig]. *)
Variable BuildConfigFromFlags : string -> string -> rest_Config + string.
Variable NewForConfig : rest_Config -> kubernetes_Clientset + string.
Variable MetricsNewForConfig : rest_Config -> metricsv_Clientset + string.

Definition homeDir : string :=
  let h := Getenv "HOME" in
  if negb (String.eqb h EmptyString) then h
  else Getenv "USERPROFILE". (* windows *)

(** The loop over [possiblePaths]: the first path that exists is assigned to
    [kubeconfigPath], and the loop breaks. *)
Fixpoint firstExisting (possiblePaths : list string) (kubeconfigPath : string)
  : string :=
  match possiblePaths with
  | [] => kubeconfigPath
  | path :: rest => if Stat path then path else firstExisting rest kubeconfigPath
  end.

(** [buildConfig]: the text on standard output, and the configuration or
    the message of the error. *)
Definition buildConfig (kubeconfigPath : string) : string * (rest_Config + string) :=
  (* First, try in-cluster config *)
  match InClusterConfig with
  | inl config =>
      (Printf.println "✅ Using in-cluster Kubernetes configuration", inl config)
  | inr _ =>
      (* Not in cluster, try kubeconfig *)
      let kubeconfigPath :=
        if String.eqb kubeconfigPath EmptyString then
          (* Check environment variable *)
          let envPath := Getenv "KUBECONFIG" in
          if negb (String.eqb envPath EmptyString) then envPath
          else
            (* Try default locations *)
            let home := homeDir in
            let possiblePaths :=
              [ Join [home; ".kube"; "config"];
                "/app/kubeconfig";
                "/etc/kubernetes/kubeconfig" ] in
            firstExisting possiblePaths kubeconfigPath
        else kubeconfigPath in
      if String.eqb kubeconfigPath EmptyString then
        (EmptyString, inr "could not find kubeconfig and not running in-cluster")
      else
        (Printf.sprintf (Printf.lit "✅ Using kubeconfig: %s\n") [Printf.S kubeconfigPath],
         BuildConfigFromFlags EmptyString kubeconfigPath)
  end.

(** [NewClient]: the text on standard output, and the client or the message
    of the error. *)
Definition NewClient (kubeconfigPath : string)
  : string * (Client kubernetes_Clientset metricsv_Clientset + string) :=
  (* Build configuration *)
  let '(out, built) := buildConfig kubeconfigPath in
  match built with
  | inr err => (out, inr err)
  | inl config =>
      (* Create clientset *)
      match NewForConfig config with
      | inr err =>
          (out, inr (Printf.sprintf "failed to create Kubernetes client: %v" [Printf.S err]))
      | inl clientset =>
          (* Create metrics client *)
          match MetricsNewForConfig config with
          | inr _ =>
              (* Don't fail if metrics server is not available *)
              (out +:+ Printf.println
                         "⚠️  Metrics server not available, continuing without metrics",
               inl (mkClient clientset None))
          | inl metricsClient => (out, inl (mkClient clientset (Some metricsClient)))
          end
      end
  end.

End Environment.

Arguments buildConfig {rest_Config}.
Arguments NewClient {rest_Config kubernetes_Clientset metricsv_Clientset}.

End Kubernetes.

(** ** The candidates of the kubeconfig path *)

(** The candidate paths in their order of precedence: the [-kubeconfig]
    flag, the variable [KUBECONFIG], and the default locations that exist. *)
Definition kubeconfigCandidates (Getenv : string -> string) (Stat : string -> bool)
  (Join : list string -> string) (flag : string) : list string :=
  [flag; Getenv "KUBECONFIG"]
  ++ filter (fun path => Stat path = true)
       [ Join [Kubernetes.homeDir Getenv; ".kube"; "config"];
         "/app/kubeconfig";
         "/etc/kubernetes/kubeconfig" ].

(** The first candidate that is not the empty string. *)
Definition chosenKubeconfig (Getenv : string -> string) (Stat : string -> bool)
  (Join : list string -> string) (flag : string) : option string :=
  head (filter (fun path => path <> EmptyString)
          (kubeconfigCandidates Getenv Stat Join flag)).

(** * The command, [cmd] *)

Module Cmd.

(** The package variables the flags are parsed into. *)
Record Flags : Type := mkFlags {
  kubeconfig : string;
  output : string;
  threshold : float;
  showAll : bool;
  namespace : string;
  verbose : bool;
  noExamples : bool
}.

Section Execute.

Variables rest_Config kubernetes_Clientset metricsv_Clientset : Type.

(** What [pkg/kubernetes] reads and calls. *)
Variable InClusterConfig : rest_Config + string.
Variable Getenv : string -> string.
Variable Stat : string -> bool.
Variable Join : list string -> string.
Variable BuildConfigFromFlags : string -> string -> rest_Config + string.
Variable NewForConfig : rest_Config -> kubernetes_Clientset + string.
Variable MetricsNewForConfig : rest_Config -> metricsv_Clientset + string.

(** [Clientset.CoreV1().Pods(namespace).List(ctx, metav1.ListOptions{})] and
    [MetricsClient.MetricsV1beta1().PodMetricses(namespace).List(ctx,
    metav1.ListOptions{})]: the items of the list, or the message of the
    error. *)
Variable PodsList : kubernetes_Clientset -> string -> list Pod.t + string.
Variable PodMetricsesList :
  option metricsv_Clientset -> string -> list PodMetrics.t + string.

(** What the analyzer and the reporter read and call. *)
Variable ShortHumanDuration : Z -> string.
Variable now : Z.
Variable QuantityString : Quantity.t -> string.
Variable tabwrite : string -> string.
Variable MarshalIndent : Slice.t PodAnalysis.t -> string + string.
Variable YamlMarshal : Slice.t PodAnalysis.t -> string + string.
Variable ToLower : string -> string.

Definition Client : Type := Kubernetes.Client kubernetes_Clientset metricsv_Clientset.

(** [GetPodsWithoutLimits] and [GetPodMetrics] of the analyzer made by
    [NewPodAnalyzer(client)]. *)
Definition GetPodsWithoutLimits (client : Client) (namespace : string)
  : list Pod.t + string :=
  match PodsList (Kubernetes.Clientset client) namespace with
  | inr err => inr err
  | inl items => inl items
  end.

Definition GetPodMetrics (client : Client) (namespace : string)
  : list PodMetrics.t + string :=
  match PodMetricsesList (Kubernetes.MetricsClient client) namespace with
  | inr err => inr err
  | inl items => inl items
  end.

(** [Execute], from the parsed flags on: the text on standard output and
    the error returned. *)
Definition Execute (flags : Flags) : string * option string :=
  (* Initialize Kubernetes client *)
  let '(out, created) :=
    Kubernetes.NewClient InClusterConfig Getenv Stat Join BuildConfigFromFlags
      NewForConfig MetricsNewForConfig (kubeconfig flags) in
  match created with
  | inr err =>
      (out, Some (Printf.sprintf "failed to create Kubernetes client: %v" [Printf.S err]))
  | inl client =>
      (* Get pods without limits *)
      match GetPodsWithoutLimits client (namespace flags) with
      | inr err => (out, Some (Printf.sprintf "failed to get pods: %v" [Printf.S err]))
      | inl pods =>
          (* Get usage metrics *)
          let out := out +:+ Printf.println "Fetching pod metrics..." in
          let '(out, podMetrics) :=
            match GetPodMetrics client (namespace flags) with
            | inr err =>
                (out
                 +:+ Printf.sprintf (Printf.lit "Warning: Could not fetch metrics: %v\n")
                       [Printf.S err]
                 +:+ Printf.println "Continuing without metric-based suggestions...",
                 [])
            | inl podMetrics => (out, podMetrics)
            end in
          (* Analyze pods and generate suggestions *)
          let results :=
            Slice.appended
              (AnalyzePods ShortHumanDuration now pods podMetrics (threshold flags)) in
          (* Create reporter and generate output *)
          let rep := Reporter.NewReporter (output flags) in
          let rep := Reporter.SetVerbose (verbose flags) rep in
          let rep := Reporter.SetShowExamples (negb (noExamples flags)) rep in
          let '(written, failed) :=
            GenerateReport QuantityString tabwrite MarshalIndent YamlMarshal ToLower
              rep results (showAll flags) in
          match failed with
          | Some err =>
              (out +:+ written,
               Some (Printf.sprintf "failed to generate report: %v" [Printf.S err]))
          | None => (out +:+ written, None)
          end
      end
  end.

End Execute.

Arguments GetPodsWithoutLimits {kubernetes_Clientset metricsv_Clientset}.
Arguments GetPodMetrics {kubernetes_Clientset metricsv_Clientset}.
Arguments Execute {rest_Config kubernetes_Clientset metricsv_Clientset}.

(** The reporter [Execute] makes from the flags. *)
Definition reporterOf (flags : Flags) : Reporter.t :=
  Reporter.SetShowExamples (negb (noExamples flags))
    (Reporter.SetVerbose (verbose flags) (Reporter.NewReporter (output flags))).

(** The flags with another threshold. *)
Definition withThreshold (threshold' : float) (flags : Flags) : Flags :=
  mkFlags (kubeconfig flags) (output flags) threshold' (showAll flags)
    (namespace flags) (verbose flags) (noExamples flags).

End Cmd.

(** * Properties *)

(** ** Maps and their length *)

Lemma len_zero_iff (m : ResourceList) : (len m =? 0) = true <-> m = ∅.
Proof.
  unfold len. rewrite Z.eqb_eq, <- map_size_empty_iff. lia.
Qed.

Lemma len_zero_decide (m : ResourceList) : (len m =? 0) = bool_decide (m = ∅).
Proof.
  destruct (len m =? 0) eqn:E.
  - apply len_zero_iff in E. by rewrite bool_decide_eq_true_2.
  - rewrite bool_decide_eq_false_2; [done|]. intros ->.
    by rewrite (proj2 (len_zero_iff ∅)) in E.
Qed.

Lemma len_pos_decide (m : ResourceList) : (0 <? len m) = negb (bool_decide (m = ∅)).
Proof.
  rewrite <- len_zero_decide. unfold len.
  destruct (Z.of_nat (size m) =? 0) eqn:E.
  - apply Z.eqb_eq in E. rewrite E. reflexivity.
  - apply Z.eqb_neq in E. apply Z.ltb_lt. lia.
Qed.

Lemma decide_is_Some_Some {A} (x : A) : bool_decide (is_Some (Some x)) = true.
Proof. apply bool_decide_eq_true_2. by exists x. Qed.

Lemma decide_is_Some_None {A} : bool_decide (is_Some (@None A)) = false.
Proof. apply bool_decide_eq_false_2. by intros [? ?]. Qed.

(** ** Risk classification *)

Lemma calculateRiskLevel_riskTier (container : Container.t)
  (usage : option ResourceUsage.t) :
  calculateRiskLevel container usage
  = tierName (riskTier (Resources.Limits (Container.Resources container))
                       (Resources.Requests (Container.Resources container)) usage).
Proof.
  unfold calculateRiskLevel, riskTier, riskRules, cpuTight, hasSample, ratioExceeds.
  set (limits := Resources.Limits (Container.Resources container)).
  rewrite len_zero_decide. cbn [firstMatch].
  destruct (bool_decide (limits = ∅)); [reflexivity|].
  destruct (limits !! ResourceCPU) as [qc|] eqn:Hc;
    destruct (limits !! ResourceMemory) as [qm|] eqn:Hm;
    destruct (usageValues usage) as [[cpu mem]|];
    repeat case_bool_decide;
    repeat match goal with
      | H : is_Some None |- _ => destruct H; discriminate
      | H : ¬ is_Some (Some _) |- _ => exfalso; apply H; eauto
      | H : _ ∨ _ |- _ => destruct H; try discriminate
      | H : ¬ (_ ∨ _) |- _ => exfalso; apply H; auto; fail
      end;
    cbn [negb orb andb tierName]; try reflexivity.
  by destruct (_ && _).
Qed.


(** ** Suggestions *)

Lemma generateSuggestions_spec (container : Container.t)
  (usage : option ResourceUsage.t) (threshold : float) :
  generateSuggestions container usage threshold
  = render <$> suggestionsSpec (Resources.Limits (Container.Resources container))
                 (Resources.Requests (Container.Resources container)) usage threshold.
Proof.
  unfold generateSuggestions, suggestionsSpec, usageCheck, hasSample, emitIf.
  set (limits := Resources.Limits (Container.Resources container)).
  set (requests := Resources.Requests (Container.Resources container)).
  rewrite !len_zero_decide.
  destruct (usageValues usage) as [[cpu mem]|];
    rewrite ?decide_is_Some_Some, ?decide_is_Some_None; cbn [negb andb fmap option_fmap option_map fst snd].
  - destruct (limits !! ResourceCPU) as [qc|], (limits !! ResourceMemory) as [qm|];
      cbn [fmap option_fmap option_map];
      repeat match goal with
        | |- context [if ?b then _ else _] => destruct b
        end; reflexivity.
  - repeat match goal with
        | |- context [if ?b then _ else _] => destruct b
        end; reflexivity.
Qed.

(** The text of an advisory tells its kind. *)
Lemma render_kind (a b : Advisory) : render a = render b -> kindOf a = kindOf b.
Proof.
  destruct a, b; intros H; try reflexivity; exfalso;
    cbv [render msgNoLimits msgNoRequests msgFallback msgIncrease msgDecrease] in H;
    cbn [String.append] in H; discriminate H.
Qed.

(** The usage check of a limit that is not positive emits nothing, whatever
    the usage: no percentage is computed over it. *)
Lemma usageCheck_not_positive increase decrease trigger used limit threshold :
  limit <= 0 ->
  usageCheck increase decrease trigger used (Some limit) threshold = [].
Proof.
  intros Hle. unfold usageCheck. destruct used as [u|]; [|reflexivity].
  destruct (0 <? limit) eqn:E; [|reflexivity].
  apply Z.ltb_lt in E. lia.
Qed.

(** The kinds a usage check can emit. *)
Lemma usageCheck_kinds increase decrease trigger used limit threshold a :
  a ∈ usageCheck increase decrease trigger used limit threshold ->
  exists p, a = increase p \/ a = decrease p.
Proof.
  unfold usageCheck, emitIf. intros Ha.
  destruct used as [u|], limit as [l|]; try (by apply elem_of_nil in Ha).
  repeat match type of Ha with
    | context [if ?b then _ else _] => destruct b
    end;
    try (by apply elem_of_nil in Ha);
    apply list_elem_of_singleton in Ha; eauto.
Qed.

Lemma elem_of_emitIf {A} (condition : bool) (entry a : A) :
  a ∈ emitIf condition entry -> a = entry.
Proof.
  destruct condition; cbn; intros Ha.
  - by apply list_elem_of_singleton in Ha.
  - by apply elem_of_nil in Ha.
Qed.

(** C1. The risk tier the engine returns for a container is the tier of the
    first matching rule of the ordered classification: HIGH if the declared
    limits are empty; else MEDIUM if the CPU entry or the Memory entry is
    missing; else MEDIUM if a usage sample exists and CPU usage divided by
    the CPU limit exceeds 0.9; else LOW. The tier is a function of the
    declared limits, the declared requests and the usage sample alone: two
    containers that agree on them get the same tier. The quotient is the
    binary64 one the engine computes, and it exists for a positive limit. *)
Theorem risk_tier_is_first_matching_rule (container : Container.t)
  (usage : option ResourceUsage.t) :
  let limits := Resources.Limits (Container.Resources container) in
  let requests := Resources.Requests (Container.Resources container) in
  calculateRiskLevel container usage
  = tierName
      (if bool_decide (limits = ∅) then HIGH
       else if bool_decide (limits !! ResourceCPU = None ∨ limits !! ResourceMemory = None)
       then MEDIUM
       else if hasSample usage && cpuTight limits usage then MEDIUM
       else LOW)
  /\ calculateRiskLevel container usage = tierName (riskTier limits requests usage)
  /\ forall other : Container.t,
       Resources.Limits (Container.Resources other) = limits ->
       Resources.Requests (Container.Resources other) = requests ->
       calculateRiskLevel other usage = calculateRiskLevel container usage.
Proof.
  intros limits requests. split; [|split].
  - rewrite calculateRiskLevel_riskTier. reflexivity.
  - apply calculateRiskLevel_riskTier.
  - intros other Hl Hr. rewrite !calculateRiskLevel_riskTier, Hl, Hr. reflexivity.
Qed.

(** C5. For every container and every threshold, the suggestion list is, in
    this order: a no-limits entry iff the declared limits are empty; a
    no-requests entry iff the declared requests are empty; when a usage
    sample exists and a positive CPU limit is declared, an increase-CPU
    advisory iff usagePercent = cpuUsage / cpuLimit × 100 exceeds
    threshold × 100, else a decrease-CPU advisory iff usagePercent is below
    30; the same check for memory with 50 in place of 30; a generic fallback
    iff no usage sample exists and the declared limits are empty. The texts
    of advisories of different kinds differ. *)
Theorem suggestions_follow_fixed_order (container : Container.t)
  (usage : option ResourceUsage.t) (threshold : float) :
  let limits := Resources.Limits (Container.Resources container) in
  let requests := Resources.Requests (Container.Resources container) in
  generateSuggestions container usage threshold
  = render <$>
      (emitIf (bool_decide (limits = ∅)) NoLimitsSet
       ++ emitIf (bool_decide (requests = ∅)) NoRequestsSet
       ++ usageCheck IncreaseCPULimit DecreaseCPULimit 30%float
            (fst <$> usageValues usage)
            (Quantity.MilliValue <$> limits !! ResourceCPU) threshold
       ++ usageCheck IncreaseMemoryLimit DecreaseMemoryLimit 50%float
            (snd <$> usageValues usage)
            (Quantity.Value <$> limits !! ResourceMemory) threshold
       ++ emitIf (negb (hasSample usage) && bool_decide (limits = ∅))
            SetLimitsFromRequirements)
  /\ generateSuggestions container usage threshold
     = render <$> suggestionsSpec limits requests usage threshold
  /\ forall a b : Advisory, render a = render b -> kindOf a = kindOf b.
Proof.
  intros limits requests. split; [|split].
  - apply generateSuggestions_spec.
  - apply generateSuggestions_spec.
  - apply render_kind.
Qed.

(** The kinds of the entries of the suggestion list, segment by segment. *)
Lemma suggestionsSpec_elem limits requests usage threshold (b : Advisory) :
  b ∈ suggestionsSpec limits requests usage threshold ->
  b = NoLimitsSet \/ b = NoRequestsSet
  \/ b ∈ usageCheck IncreaseCPULimit DecreaseCPULimit 30%float
           (fst <$> usageValues usage)
           (Quantity.MilliValue <$> limits !! ResourceCPU) threshold
  \/ b ∈ usageCheck IncreaseMemoryLimit DecreaseMemoryLimit 50%float
           (snd <$> usageValues usage)
           (Quantity.Value <$> limits !! ResourceMemory) threshold
  \/ b = SetLimitsFromRequirements.
Proof.
  unfold suggestionsSpec. rewrite !elem_of_app.
  intros [H|[H|[H|[H|H]]]]; try apply elem_of_emitIf in H; auto.
Qed.

(** C10. For a container whose CPU limit entry is present with quantity
    zero, for every usage sample and threshold, no percentage is computed
    over the zero limit: the CPU check emits nothing, so no increase-CPU or
    decrease-CPU advisory is among the suggestions, and when the Memory
    entry is present too the tightness rule does not fire and the risk tier
    is LOW, however high the CPU usage. The same guard holds for the memory
    advisories of a container whose Memory limit entry is zero. *)
Theorem zero_limit_is_guarded (container : Container.t)
  (usage : option ResourceUsage.t) (threshold : float) :
  let limits := Resources.Limits (Container.Resources container) in
  (forall q : Quantity.t,
     limits !! ResourceCPU = Some q -> Quantity.MilliValue q = 0 ->
     usageCheck IncreaseCPULimit DecreaseCPULimit 30%float
       (fst <$> usageValues usage)
       (Quantity.MilliValue <$> limits !! ResourceCPU) threshold = []
     /\ (forall a : Advisory,
           render a ∈ generateSuggestions container usage threshold ->
           kindOf a <> KIncreaseCPU /\ kindOf a <> KDecreaseCPU)
     /\ (is_Some (limits !! ResourceMemory) ->
         cpuTight limits usage = false
         /\ calculateRiskLevel container usage = "LOW"))
  /\ (forall q : Quantity.t,
        limits !! ResourceMemory = Some q -> Quantity.Value q = 0 ->
        usageCheck IncreaseMemoryLimit DecreaseMemoryLimit 50%float
          (snd <$> usageValues usage)
          (Quantity.Value <$> limits !! ResourceMemory) threshold = []
        /\ forall a : Advisory,
             render a ∈ generateSuggestions container usage threshold ->
             kindOf a <> KIncreaseMemory /\ kindOf a <> KDecreaseMemory).
Proof.
  intros limits. split.
  - intros q Hq Hz.
    assert (Hcheck : usageCheck IncreaseCPULimit DecreaseCPULimit 30%float
              (fst <$> usageValues usage)
              (Quantity.MilliValue <$> limits !! ResourceCPU) threshold = []).
    { rewrite Hq. cbn [fmap option_fmap option_map].
      apply usageCheck_not_positive. lia. }
    split; [exact Hcheck|]. split.
    + intros a Ha. rewrite generateSuggestions_spec in Ha.
      apply list_elem_of_fmap in Ha as (b & Hab & Hb).
      apply render_kind in Hab. rewrite Hab.
      apply suggestionsSpec_elem in Hb. fold limits in Hb. rewrite Hcheck in Hb.
      destruct Hb as [-> | [-> | [Hb | [Hb | ->]]]]; try (split; discriminate).
      * by apply elem_of_nil in Hb.
      * apply usageCheck_kinds in Hb as [p [Hp|Hp]]; subst b; split; discriminate.
    + intros [qm Hm].
      assert (Htight : cpuTight limits usage = false).
      { unfold cpuTight, ratioExceeds. rewrite Hq, Hz.
        by destruct (usageValues usage) as [[? ?]|]. }
      split; [exact Htight|].
      rewrite calculateRiskLevel_riskTier. fold limits.
      unfold riskTier, riskRules. rewrite Htight, andb_false_r.
      rewrite bool_decide_eq_false_2.
      2:{ intros He. rewrite He, lookup_empty in Hq. discriminate. }
      rewrite bool_decide_eq_false_2.
      2:{ rewrite Hq, Hm. intros [?|?]; discriminate. }
      reflexivity.
  - intros q Hq Hz.
    assert (Hcheck : usageCheck IncreaseMemoryLimit DecreaseMemoryLimit 50%float
              (snd <$> usageValues usage)
              (Quantity.Value <$> limits !! ResourceMemory) threshold = []).
    { rewrite Hq. cbn [fmap option_fmap option_map].
      apply usageCheck_not_positive. lia. }
    split; [exact Hcheck|].
    intros a Ha. rewrite generateSuggestions_spec in Ha.
    apply list_elem_of_fmap in Ha as (b & Hab & Hb).
    apply render_kind in Hab. rewrite Hab.
    apply suggestionsSpec_elem in Hb. fold limits in Hb. rewrite Hcheck in Hb.
    destruct Hb as [-> | [-> | [Hb | [Hb | ->]]]]; try (split; discriminate).
    + apply usageCheck_kinds in Hb as [p [Hp|Hp]]; subst b; split; discriminate.
    + by apply elem_of_nil in Hb.
Qed.

(** The guard at two containers, one with a zero CPU limit and one with a
    zero memory limit, under a usage of 5000m and 512Mi. *)
Lemma zero_limit_is_guarded_witness :
  let usage := Scenario.sample (Scenario.milli 5000) (Scenario.units (512 * MiB)) in
  (Resources.Limits (Container.Resources Scenario.zeroCPU) !! ResourceCPU = Some Quantity.zero
   /\ Quantity.MilliValue Quantity.zero = 0
   /\ calculateRiskLevel Scenario.zeroCPU usage = "LOW")
  /\ (Resources.Limits (Container.Resources Scenario.zeroMemory) !! ResourceMemory = Some Quantity.zero
      /\ Quantity.Value Quantity.zero = 0
      /\ usageCheck IncreaseMemoryLimit DecreaseMemoryLimit 50%float
           (snd <$> usageValues usage)
           (Quantity.Value <$>
              Resources.Limits (Container.Resources Scenario.zeroMemory) !! ResourceMemory)
           Scenario.threshold = []).
Proof.
  intros usage. split.
  - split; [reflexivity|]. split; [reflexivity|].
    apply (proj1 (zero_limit_is_guarded Scenario.zeroCPU usage Scenario.threshold)
             Quantity.zero eq_refl eq_refl).
    exists (Scenario.units (256 * MiB)). reflexivity.
  - split; [reflexivity|]. split; [reflexivity|].
    apply (proj2 (zero_limit_is_guarded Scenario.zeroMemory usage Scenario.threshold)
             Quantity.zero eq_refl eq_refl).
Defined.

(** ** Recommendations *)

Lemma wrap_in_range (z : Z) : Int64.in_range z -> Int64.wrap z = z.
Proof.
  unfold Int64.in_range, Int64.wrap, Int64.min_int, Int64.max_int. intros H.
  rewrite Z.mod_small; lia.
Qed.

Lemma generateSpecificRecommendations_sample (analysis : PodAnalysis.t)
  (container : Container.t) (cpu mem : Z) :
  usageValues (PodAnalysis.CurrentUsage analysis) = Some (cpu, mem) ->
  generateSpecificRecommendations analysis container
  = PodAnalysis.set_Recommended (cpuLimitFor cpu) (cpuRequestFor cpu)
      (memoryLimitFor mem) (memoryRequestFor mem) analysis.
Proof.
  intros H. unfold generateSpecificRecommendations. rewrite H.
  destruct analysis; reflexivity.
Qed.

Lemma generateSpecificRecommendations_no_sample (analysis : PodAnalysis.t)
  (container : Container.t) :
  usageValues (PodAnalysis.CurrentUsage analysis) = None ->
  generateSpecificRecommendations analysis container = analysis.
Proof.
  intros H. unfold generateSpecificRecommendations. by rewrite H.
Qed.

Lemma quot_max (v floor : Z) : (if v <? floor then floor else v) = Z.max v floor.
Proof. destruct (Z.ltb_spec v floor); lia. Qed.




(** ** The engine loop *)

Lemma fold_left_append {A B} (f : A -> B) (l : list A) (acc : list B) :
  fold_left (fun results x => results ++ [f x]) l acc = acc ++ (f <$> l).
Proof.
  revert acc. induction l as [|x l IH]; intros acc; cbn.
  - by rewrite app_nil_r.
  - by rewrite IH, <- app_assoc.
Qed.

Lemma usageOfContainer_Some containers name u :
  usageOfContainer containers name = Some u ->
  exists cm, cm ∈ containers /\ ContainerMetrics.Name cm = name
    /\ u = ResourceUsage.mk (Some (Cpu (ContainerMetrics.Usage cm)))
                            (Some (Memory (ContainerMetrics.Usage cm))).
Proof.
  induction containers as [|cm rest IH]; cbn; [discriminate|].
  destruct (String.eqb_spec (ContainerMetrics.Name cm) name) as [He|Hne].
  - intros [= <-]. exists cm. split; [left|]. by split.
  - intros H. destruct (IH H) as (cm' & Hin & Hn & Hu).
    exists cm'. split; [by right|]. by split.
Qed.

(** An attached sample always has both of its quantities. *)
Lemma attachedUsage_values metricsMap pod container u :
  attachedUsage metricsMap pod container = Some u ->
  exists cpu mem, usageValues (Some u) = Some (cpu, mem).
Proof.
  unfold attachedUsage. destruct (metricsMap !! _) as [pm|]; [|discriminate].
  intros H. apply usageOfContainer_Some in H as (cm & _ & _ & ->).
  cbn. eauto.
Qed.

Lemma analyzeContainer_resultOf metricsMap threshold pod podAge container :
  analyzeContainer metricsMap threshold pod podAge container
  = resultOf metricsMap threshold pod podAge container.
Proof.
  unfold analyzeContainer, resultOf.
  pose proof (attachedUsage_values metricsMap pod container) as Hv.
  unfold attachedUsage in *.
  rewrite !len_pos_decide.
  destruct (metricsMap !! metricsKey (Pod.Namespace pod) (Pod.Name pod)) as [pm|].
  - destruct (usageOfContainer (PodMetrics.Containers pm) (Container.Name container))
      as [u|] eqn:Hu.
    + destruct (Hv u eq_refl) as (cpu & mem & Hcm).
      cbn [PodAnalysis.literal PodAnalysis.set_HasLimits PodAnalysis.set_HasRequests
           PodAnalysis.set_CurrentUsage PodAnalysis.set_Suggestions
           PodAnalysis.set_RiskLevel PodAnalysis.CurrentUsage PodAnalysis.HasLimits
           PodAnalysis.Namespace PodAnalysis.PodName PodAnalysis.ContainerName
           PodAnalysis.HasRequests PodAnalysis.CurrentLimits PodAnalysis.Suggestions
           PodAnalysis.RiskLevel PodAnalysis.Age].
      erewrite generateSpecificRecommendations_sample by exact Hcm.
      rewrite Hcm, decide_is_Some_Some.
      destruct (bool_decide (Resources.Limits (Container.Resources container) = ∅));
        reflexivity.
    + cbn.
      destruct (bool_decide (Resources.Limits (Container.Resources container) = ∅));
        reflexivity.
  - cbn.
    destruct (bool_decide (Resources.Limits (Container.Resources container) = ∅));
      reflexivity.
Qed.

Lemma AnalyzePods_containers (ShortHumanDuration : Z -> string) (now : Z)
  (pods : list Pod.t) (podMetrics : list PodMetrics.t) (threshold : float) :
  AnalyzePods ShortHumanDuration now pods podMetrics threshold
  = (fun pc : Pod.t * Container.t =>
       resultOf (buildMetricsMap podMetrics) threshold pc.1
         (ShortHumanDuration (Since now (Pod.CreationTimestamp pc.1))) pc.2)
    <$> containersOf pods.
Proof.
  unfold AnalyzePods, containersOf.
  set (f := fun pc : Pod.t * Container.t => _).
  enough (H : forall acc,
             fold_left
               (fun results pod =>
                  fold_left
                    (fun results container =>
                       results ++ [analyzeContainer (buildMetricsMap podMetrics) threshold pod
                                     (ShortHumanDuration (Since now (Pod.CreationTimestamp pod)))
                                     container])
                    (Pod.Containers pod) results)
               pods acc
             = acc ++ (f <$> (pods ≫= (fun pod =>
                          (fun container => (pod, container)) <$> Pod.Containers pod)))).
  { apply (H []). }
  induction pods as [|pod pods IH]; intros acc; cbn.
  - by rewrite app_nil_r.
  - rewrite IH, fold_left_append, fmap_app, app_assoc. f_equal. f_equal.
    rewrite <- list_fmap_compose. apply list_fmap_ext. intros i c _. cbn.
    apply analyzeContainer_resultOf.
Qed.

(** C7. For every sequence of pods with their containers and every usage
    dataset the engine returns a result list (it is a total function): one
    result per input container, the list as long as the container sequence
    and in the same order, each result carrying the identity and the declared
    limits of the container at its position. *)
Theorem one_result_per_container_in_order (ShortHumanDuration : Z -> string)
  (now : Z) (pods : list Pod.t) (podMetrics : list PodMetrics.t) (threshold : float) :
  let results := AnalyzePods ShortHumanDuration now pods podMetrics threshold in
  length results = length (containersOf pods)
  /\ identity <$> results = identityOf <$> containersOf pods
  /\ Forall2
       (fun (pc : Pod.t * Container.t) (r : PodAnalysis.t) =>
          identity r = identityOf pc
          /\ PodAnalysis.CurrentLimits r = Resources.Limits (Container.Resources pc.2))
       (containersOf pods) results.
Proof.
  cbv zeta. rewrite AnalyzePods_containers.
  split; [by rewrite length_fmap|]. split.
  - rewrite <- list_fmap_compose. apply list_fmap_ext. by intros i [pod c] _.
  - apply Forall2_fmap_r, Forall2_same_length_lookup_2; [done|].
    intros i pc pc' H1 H2. rewrite H1 in H2. injection H2 as <-. by split.
Qed.

(** ** Gating of recommendations and snippet *)

Lemma append_populated (s suffix : string) :
  populated suffix -> populated (s +:+ suffix).
Proof.
  unfold populated. intros H. induction s as [|c s IH]; cbn; [exact H|discriminate].
Qed.

Lemma cpuLimitFor_populated z : populated (cpuLimitFor z).
Proof. apply append_populated. discriminate. Qed.

Lemma cpuRequestFor_populated z : populated (cpuRequestFor z).
Proof. apply append_populated. discriminate. Qed.

Lemma memoryLimitFor_populated z : populated (memoryLimitFor z).
Proof. apply append_populated. discriminate. Qed.

Lemma memoryRequestFor_populated z : populated (memoryRequestFor z).
Proof. apply append_populated. discriminate. Qed.

Lemma snippet_populated a b c d : populated (snippet a b c d).
Proof. discriminate. Qed.

Lemma resultOf_gated metricsMap threshold pod podAge container :
  gated (resultOf metricsMap threshold pod podAge container).
Proof.
  unfold gated, resultOf, recommendations.
  cbn [PodAnalysis.CurrentUsage PodAnalysis.RecommendedCPULimit
       PodAnalysis.RecommendedCPURequest PodAnalysis.RecommendedMemoryLimit
       PodAnalysis.RecommendedMemoryRequest PodAnalysis.ExampleYAML
       PodAnalysis.CurrentLimits].
  pose proof (attachedUsage_values metricsMap pod container) as Hv.
  destruct (attachedUsage metricsMap pod container) as [u|].
  - destruct (Hv u eq_refl) as (cpu & mem & ->).
    cbn [fmap option_fmap option_map fst snd].
    assert (Hpop : Forall populated
              [cpuLimitFor cpu; cpuRequestFor cpu; memoryLimitFor mem; memoryRequestFor mem]).
    { repeat constructor; auto using cpuLimitFor_populated, cpuRequestFor_populated,
        memoryLimitFor_populated, memoryRequestFor_populated. }
    split; [auto|]. split; [discriminate|].
    case_bool_decide as Hl; case_bool_decide as Hs; cbn [andb];
      try (exfalso; apply Hs; eauto; fail).
    + split; [split; auto using snippet_populated|]. auto.
    + split; [split; [intros H; by destruct H | intros [_ H]; done]|].
      intros H. by destruct H.
  - cbn [usageValues fmap option_fmap option_map].
    split; [intros [? ?]; discriminate|].
    split; [intros _; repeat constructor|].
    rewrite andb_comm. case_bool_decide as Hs; [destruct Hs; discriminate|].
    cbn [andb]. split; [split|].
    + intros H. by destruct H.
    + intros [[? ?] _]. discriminate.
    + intros H. by destruct H.
Qed.

(** C9. Every result the engine produces obeys the gating invariant: its
    four recommendation fields are all populated when the result has a usage
    sample and all empty when it has none, and its example snippet is
    populated exactly when the result has a usage sample and the declared
    limits of its container are empty; a populated snippet is rendered from
    four populated recommendations, never from a missing one. *)
Theorem recommendations_and_snippet_are_gated (ShortHumanDuration : Z -> string)
  (now : Z) (pods : list Pod.t) (podMetrics : list PodMetrics.t) (threshold : float) :
  Forall2
    (fun (pc : Pod.t * Container.t) (r : PodAnalysis.t) =>
       PodAnalysis.CurrentLimits r = Resources.Limits (Container.Resources pc.2)
       /\ PodAnalysis.HasLimits r
          = negb (bool_decide (Resources.Limits (Container.Resources pc.2) = ∅))
       /\ gated r)
    (containersOf pods)
    (AnalyzePods ShortHumanDuration now pods podMetrics threshold).
Proof.
  rewrite AnalyzePods_containers.
  apply Forall2_fmap_r, Forall2_same_length_lookup_2; [done|].
  intros i pc pc' H1 H2. rewrite H1 in H2. injection H2 as <-.
  split; [reflexivity|]. split; [reflexivity|]. apply resultOf_gated.
Qed.

(** C4. For every usage sample with memory usage in bytes, the recommended
    memory limit is max(memoryUsage × 5 ÷ 2, 128 MiB) and the recommended
    memory request is max(memoryUsage × 6 ÷ 5, 64 MiB), each printed as a
    whole number of mebibytes, the divisions dropping the fraction; the
    products are the engine's 64-bit products, which are the exact ones
    whenever memoryUsage × 6 fits in 64 bits. Without a usage sample the
    function leaves the analysis as it is, and in every result of the engine
    that has no sample the four recommendation fields are empty. *)
Theorem memory_recommendations_have_floors (analysis : PodAnalysis.t)
  (container : Container.t) :
  (forall cpu mem : Z,
     usageValues (PodAnalysis.CurrentUsage analysis) = Some (cpu, mem) ->
     let r := generateSpecificRecommendations analysis container in
     PodAnalysis.RecommendedMemoryLimit r
     = Fmt.d (Z.max (Int64.mul mem 5 ÷ 2) (128 * MiB) ÷ MiB) +:+ "Mi"
     /\ PodAnalysis.RecommendedMemoryRequest r
        = Fmt.d (Z.max (Int64.mul mem 6 ÷ 5) (64 * MiB) ÷ MiB) +:+ "Mi"
     /\ (Int64.in_range (mem * 6) ->
         Int64.mul mem 5 = mem * 5 /\ Int64.mul mem 6 = mem * 6
         /\ PodAnalysis.RecommendedMemoryLimit r
            = Fmt.d (Z.max (mem * 5 ÷ 2) (128 * MiB) ÷ MiB) +:+ "Mi"
         /\ PodAnalysis.RecommendedMemoryRequest r
            = Fmt.d (Z.max (mem * 6 ÷ 5) (64 * MiB) ÷ MiB) +:+ "Mi"))
  /\ (usageValues (PodAnalysis.CurrentUsage analysis) = None ->
      generateSpecificRecommendations analysis container = analysis)
  /\ (forall (ShortHumanDuration : Z -> string) (now : Z) (pods : list Pod.t)
        (podMetrics : list PodMetrics.t) (threshold : float),
        Forall
          (fun r : PodAnalysis.t =>
             PodAnalysis.CurrentUsage r = None ->
             Forall (fun field => field = EmptyString) (recommendations r))
          (AnalyzePods ShortHumanDuration now pods podMetrics threshold)).
Proof.
  split; [|split].
  - intros cpu mem Hu r. subst r.
    rewrite (generateSpecificRecommendations_sample _ _ _ _ Hu).
    destruct analysis;
      cbn [PodAnalysis.set_Recommended PodAnalysis.RecommendedMemoryLimit
           PodAnalysis.RecommendedMemoryRequest].
    unfold memoryLimitFor, memoryRequestFor, Int64.div. cbv zeta. rewrite !quot_max.
    split; [reflexivity|]. split; [reflexivity|].
    intros Hr.
    assert (H5 : Int64.mul mem 5 = mem * 5).
    { apply wrap_in_range. unfold Int64.in_range, Int64.min_int, Int64.max_int in *. lia. }
    assert (H6 : Int64.mul mem 6 = mem * 6) by (apply wrap_in_range; exact Hr).
    rewrite H5, H6. auto.
  - apply generateSpecificRecommendations_no_sample.
  - intros shd now pods podMetrics threshold. rewrite AnalyzePods_containers.
    apply Forall_fmap, Forall_forall. intros [pod c] _. cbn.
    apply resultOf_gated.
Qed.

(** The memory recommendations of a usage of one byte more than 100 MiB:
    250Mi and 120Mi, the fractions of a mebibyte dropped. *)
Lemma memory_recommendations_have_floors_witness :
  let mem := 100 * MiB + 1 in
  let usage := Scenario.sample (Scenario.milli 50) (Scenario.units mem) in
  let r := generateSpecificRecommendations (analysisWith usage) Scenario.bare in
  usageValues (PodAnalysis.CurrentUsage (analysisWith usage)) = Some (50, mem)
  /\ Int64.in_range (mem * 6)
  /\ PodAnalysis.RecommendedMemoryLimit r
     = Fmt.d (Z.max (mem * 5 ÷ 2) (128 * MiB) ÷ MiB) +:+ "Mi"
  /\ PodAnalysis.RecommendedMemoryLimit r = "250Mi"
  /\ PodAnalysis.RecommendedMemoryRequest r = "120Mi".
Proof.
  cbv zeta.
  assert (Hr : Int64.in_range ((100 * MiB + 1) * 6)).
  { unfold Int64.in_range, Int64.min_int, Int64.max_int, MiB. lia. }
  split; [reflexivity|]. split; [exact Hr|]. split; [|split; reflexivity].
  exact (proj1 (proj2 (proj2 (proj2 (proj2 (proj1
           (memory_recommendations_have_floors
              (analysisWith (Scenario.sample (Scenario.milli 50)
                               (Scenario.units (100 * MiB + 1))))
              Scenario.bare) 50 (100 * MiB + 1) eq_refl)) Hr)))).
Defined.

(** ** Scenario B *)

(** C2, as stated, fails: on the input of Scenario B the engine's risk tier
    is LOW, not MEDIUM; the missing requests do not enter the tier. *)
Lemma scenario_B_risk_is_not_MEDIUM :
  PodAnalysis.RiskLevel <$>
    AnalyzePods Duration.ShortHumanDuration Scenario.threeHours
      [Scenario.podB] [Scenario.metricsB] Scenario.threshold
  = ["LOW"]
  /\ PodAnalysis.RiskLevel <$>
       AnalyzePods Duration.ShortHumanDuration Scenario.threeHours
         [Scenario.podB] [Scenario.metricsB] Scenario.threshold
     <> [tierName MEDIUM].
Proof.
  split; [vm_compute; reflexivity|].
  intros H. vm_compute in H. discriminate H.
Qed.

(** C2, amended. On the input of Scenario B (CPU limit 200m, memory limit
    256Mi, no requests, usage cpu=50m and memory=64Mi, threshold 0.8) the
    engine produces one result with hasLimits = true, hasRequests = false
    and riskTier = LOW (both limit entries are present and the CPU ratio 0.25
    is not above 0.9; requests are not part of the tier), and its suggestions
    are the no-requests entry, the decrease-CPU advisory for a usagePercent
    of 25, which is below 30, and the decrease-memory advisory. *)
Theorem scenario_B_result (ShortHumanDuration : Z -> string) (now : Z) :
  let results :=
    AnalyzePods ShortHumanDuration now [Scenario.podB] [Scenario.metricsB]
      Scenario.threshold in
  PodAnalysis.HasLimits <$> results = [true]
  /\ PodAnalysis.HasRequests <$> results = [false]
  /\ PodAnalysis.RiskLevel <$> results = [tierName LOW]
  /\ usagePercentOf 50 200 = 25%float
  /\ Float64.lt 25%float 30%float = true
  /\ PodAnalysis.Suggestions <$> results
     = [render <$> [NoRequestsSet; DecreaseCPULimit 25%float; DecreaseMemoryLimit 25%float]]
  /\ Fmt.f1 25%float = "25.0".
Proof.
  cbv zeta. repeat split; reflexivity.
Qed.

(** ** Runs of the engine at different times *)

(** C6, as stated, fails: two invocations on the same pods, the same usage
    dataset and the same threshold, ten seconds and three hours after the
    pod was created, return different outputs; the Age fields differ. *)
Lemma age_differs_between_two_runs :
  let run := fun now : Z =>
    AnalyzePods Duration.ShortHumanDuration now [Scenario.podB] [Scenario.metricsB]
      Scenario.threshold in
  run Scenario.tenSeconds <> run Scenario.threeHours
  /\ PodAnalysis.Age <$> run Scenario.tenSeconds = ["10s"]
  /\ PodAnalysis.Age <$> run Scenario.threeHours = ["3h"].
Proof.
  cbv zeta. split; [|split; vm_compute; reflexivity].
  intros H. apply (f_equal (fmap PodAnalysis.Age)) in H.
  vm_compute in H. discriminate H.
Qed.

(** C6, amended. Invoking the engine twice on identical input snapshots
    (same pods, same usage dataset, same threshold) yields result sequences
    that are equal in every field other than Age, whatever the two readings
    of the clock are; the Age of each result is the formatted time elapsed
    between the creation of its pod and the reading of the clock, the only
    input of the engine besides the snapshots. *)
Theorem runs_agree_except_on_age (ShortHumanDuration : Z -> string)
  (now1 now2 : Z) (pods : list Pod.t) (podMetrics : list PodMetrics.t)
  (threshold : float) :
  PodAnalysis.set_Age EmptyString <$>
    AnalyzePods ShortHumanDuration now1 pods podMetrics threshold
  = PodAnalysis.set_Age EmptyString <$>
      AnalyzePods ShortHumanDuration now2 pods podMetrics threshold
  /\ PodAnalysis.Age <$> AnalyzePods ShortHumanDuration now1 pods podMetrics threshold
     = (fun pc : Pod.t * Container.t =>
          ShortHumanDuration (Since now1 (Pod.CreationTimestamp pc.1)))
       <$> containersOf pods.
Proof.
  rewrite !AnalyzePods_containers, <- !list_fmap_compose. split.
  - apply list_fmap_ext. intros i pc _. reflexivity.
  - apply list_fmap_ext. intros i pc _. reflexivity.
Qed.

(** ** The join *)

Lemma metricsKey_inj ns1 n1 ns2 n2 :
  noSlash ns1 = true -> noSlash ns2 = true ->
  metricsKey ns1 n1 = metricsKey ns2 n2 -> ns1 = ns2 /\ n1 = n2.
Proof.
  unfold metricsKey. revert ns2.
  induction ns1 as [|c1 s1 IH]; intros [|c2 s2]; cbn; intros H1 H2 He.
  - injection He as He. by subst.
  - injection He as Hc _. subst c2. discriminate H2.
  - injection He as Hc _. subst c1. discriminate H1.
  - injection He as Hc He. subst c2.
    apply andb_prop in H1 as [_ H1]. apply andb_prop in H2 as [_ H2].
    destruct (IH s2 H1 H2 He) as [Hs Hn]. by subst.
Qed.

(** The metrics map holds, under a key, the last entry of the dataset
    formatted to that key. *)
Lemma buildMetricsMap_lookup (podMetrics : list PodMetrics.t) (key : string) :
  buildMetricsMap podMetrics !! key
  = last (filter (fun pm => metricsKey (PodMetrics.Namespace pm) (PodMetrics.Name pm) = key)
            podMetrics).
Proof.
  unfold buildMetricsMap.
  enough (H : forall m : gmap string PodMetrics.t,
             fold_left
               (fun metricsMap pm =>
                  <[metricsKey (PodMetrics.Namespace pm) (PodMetrics.Name pm) := pm]> metricsMap)
               podMetrics m !! key
             = match last (filter (fun pm => metricsKey (PodMetrics.Namespace pm)
                                                (PodMetrics.Name pm) = key) podMetrics) with
               | Some pm => Some pm
               | None => m !! key
               end).
  { rewrite H, lookup_empty. by destruct (last _). }
  induction podMetrics as [|pm rest IH]; intros m; [done|].
  cbn [fold_left]. rewrite IH, filter_cons. case_decide as Hk.
  - rewrite last_cons. destruct (last (filter _ rest)); [done|].
    by rewrite <- Hk, lookup_insert_eq.
  - destruct (last (filter _ rest)); [done|]. by rewrite lookup_insert_ne.
Qed.

Lemma sameWorkload_key (pod : Pod.t) (pm : PodMetrics.t) :
  noSlash (Pod.Namespace pod) = true ->
  noSlash (PodMetrics.Namespace pm) = true ->
  metricsKey (PodMetrics.Namespace pm) (PodMetrics.Name pm)
  = metricsKey (Pod.Namespace pod) (Pod.Name pod)
  <-> sameWorkload pod pm = true.
Proof.
  intros Hp Hm. unfold sameWorkload. rewrite andb_true_iff, !String.eqb_eq. split.
  - intros He. by apply metricsKey_inj.
  - by intros [-> ->].
Qed.

Lemma workloadEntry_last (pod : Pod.t) (podMetrics : list PodMetrics.t) :
  noSlash (Pod.Namespace pod) = true ->
  Forall (fun pm => noSlash (PodMetrics.Namespace pm) = true) podMetrics ->
  last (filter (fun pm => metricsKey (PodMetrics.Namespace pm) (PodMetrics.Name pm)
                          = metricsKey (Pod.Namespace pod) (Pod.Name pod)) podMetrics)
  = workloadEntry pod podMetrics.
Proof.
  intros Hp. induction 1 as [|pm rest Hm Hrest IH]; [done|].
  cbn [workloadEntry]. rewrite filter_cons, <- IH.
  pose proof (sameWorkload_key pod pm Hp Hm) as Hk.
  case_decide as He.
  - rewrite last_cons. apply Hk in He. rewrite He. by destruct (last _).
  - destruct (last _); [done|].
    destruct (sameWorkload pod pm); [|done]. exfalso. apply He, Hk. done.
Qed.

Lemma attachedUsage_exactJoin (pod : Pod.t) (container : Container.t)
  (podMetrics : list PodMetrics.t) :
  noSlash (Pod.Namespace pod) = true ->
  Forall (fun pm => noSlash (PodMetrics.Namespace pm) = true) podMetrics ->
  attachedUsage (buildMetricsMap podMetrics) pod container
  = exactJoin podMetrics pod container.
Proof.
  intros Hp Hm. unfold attachedUsage, exactJoin.
  by rewrite buildMetricsMap_lookup, workloadEntry_last.
Qed.

Lemma workloadEntry_Some pod podMetrics pm :
  workloadEntry pod podMetrics = Some pm ->
  pm ∈ podMetrics /\ PodMetrics.Namespace pm = Pod.Namespace pod
  /\ PodMetrics.Name pm = Pod.Name pod.
Proof.
  induction podMetrics as [|pm' rest IH]; cbn; [discriminate|].
  destruct (workloadEntry pod rest) as [later|].
  - intros [= <-]. destruct (IH eq_refl) as (Hin & Hns & Hn).
    split; [by right|done].
  - destruct (sameWorkload pod pm') eqn:Hs; [|discriminate].
    intros [= <-]. unfold sameWorkload in Hs.
    apply andb_prop in Hs as [Hns Hn].
    apply String.eqb_eq in Hns. apply String.eqb_eq in Hn.
    split; [left|done].
Qed.

Lemma workloadEntry_None pod podMetrics :
  workloadEntry pod podMetrics = None ->
  Forall (fun pm => sameWorkload pod pm = false) podMetrics.
Proof.
  induction podMetrics as [|pm rest IH]; cbn; [constructor|].
  destruct (workloadEntry pod rest) as [later|]; [discriminate|].
  destruct (sameWorkload pod pm) eqn:Hs; [discriminate|].
  intros _. constructor; auto.
Qed.

(** Dropping the entries of other workloads does not change the entry of a
    pod that is among the pods. *)
Lemma workloadEntry_filter (pods : list Pod.t) (pod : Pod.t)
  (podMetrics : list PodMetrics.t) :
  pod ∈ pods ->
  workloadEntry pod (List.filter (matchesSomePod pods) podMetrics)
  = workloadEntry pod podMetrics.
Proof.
  intros Hin. induction podMetrics as [|pm rest IH]; [done|].
  cbn [List.filter workloadEntry].
  destruct (matchesSomePod pods pm) eqn:Hm.
  - cbn [workloadEntry]. by rewrite IH.
  - rewrite IH. destruct (workloadEntry pod rest); [done|].
    destruct (sameWorkload pod pm) eqn:Hs; [|done].
    exfalso. unfold matchesSomePod in Hm.
    assert (Ht : existsb (fun pod => sameWorkload pod pm) pods = true).
    { apply existsb_exists. exists pod. split; [by apply list_elem_of_In|done]. }
    congruence.
Qed.

Lemma filter_matches_noSlash (pods : list Pod.t) (podMetrics : list PodMetrics.t) :
  Forall (fun pm => noSlash (PodMetrics.Namespace pm) = true) podMetrics ->
  Forall (fun pm => noSlash (PodMetrics.Namespace pm) = true)
    (List.filter (matchesSomePod pods) podMetrics).
Proof.
  induction 1 as [|pm rest Hm _ IH]; cbn; [constructor|].
  destruct (matchesSomePod pods pm); [by constructor|done].
Qed.

Lemma resultOf_attached metricsMap metricsMap' threshold pod podAge container :
  attachedUsage metricsMap pod container = attachedUsage metricsMap' pod container ->
  resultOf metricsMap threshold pod podAge container
  = resultOf metricsMap' threshold pod podAge container.
Proof. intros H. unfold resultOf. by rewrite H. Qed.

Lemma containersOf_pod (pods : list Pod.t) (pc : Pod.t * Container.t) :
  pc ∈ containersOf pods -> pc.1 ∈ pods /\ pc.2 ∈ Pod.Containers pc.1.
Proof.
  unfold containersOf. rewrite list_elem_of_bind.
  intros (pod & Hpc & Hpod). apply list_elem_of_fmap in Hpc as (c & -> & Hc). done.
Qed.

Lemma usageOfContainer_None_inv containers name :
  usageOfContainer containers name = None ->
  Forall (fun cm => ContainerMetrics.Name cm <> name) containers.
Proof.
  induction containers as [|cm rest IH]; cbn; [constructor|].
  destruct (String.eqb_spec (ContainerMetrics.Name cm) name); [discriminate|].
  intros H. constructor; auto.
Qed.

Lemma exactJoin_Some podMetrics pod container u :
  exactJoin podMetrics pod container = Some u ->
  exists pm cm,
    pm ∈ podMetrics /\ cm ∈ PodMetrics.Containers pm
    /\ PodMetrics.Namespace pm = Pod.Namespace pod
    /\ PodMetrics.Name pm = Pod.Name pod
    /\ ContainerMetrics.Name cm = Container.Name container
    /\ u = sampleOf cm.
Proof.
  unfold exactJoin. destruct (workloadEntry pod podMetrics) as [pm|] eqn:Hw; [|discriminate].
  intros Hu. apply workloadEntry_Some in Hw as (Hin & Hns & Hn).
  apply usageOfContainer_Some in Hu as (cm & Hcm & Hname & ->).
  exists pm, cm. done.
Qed.

Lemma exactJoin_None podMetrics pod container :
  (forall pm cm,
     pm ∈ podMetrics -> cm ∈ PodMetrics.Containers pm ->
     ~ (PodMetrics.Namespace pm = Pod.Namespace pod
        /\ PodMetrics.Name pm = Pod.Name pod
        /\ ContainerMetrics.Name cm = Container.Name container)) ->
  exactJoin podMetrics pod container = None.
Proof.
  intros Hno. destruct (exactJoin podMetrics pod container) as [u|] eqn:He; [|done].
  apply exactJoin_Some in He as (pm & cm & Hpm & Hcm & Hns & Hn & Hc & _).
  exfalso. by apply (Hno pm cm).
Qed.

Lemma exactJoin_unique podMetrics pod container pm cm :
  pm ∈ podMetrics -> cm ∈ PodMetrics.Containers pm ->
  sameWorkload pod pm = true ->
  ContainerMetrics.Name cm = Container.Name container ->
  (forall pm', pm' ∈ podMetrics -> sameWorkload pod pm' = true -> pm' = pm) ->
  (forall cm', cm' ∈ PodMetrics.Containers pm ->
     ContainerMetrics.Name cm' = Container.Name container -> cm' = cm) ->
  exactJoin podMetrics pod container = Some (sampleOf cm).
Proof.
  intros Hpm Hcm Hs Hname Hupm Hucm. unfold exactJoin.
  destruct (workloadEntry pod podMetrics) as [pm'|] eqn:Hw.
  - apply workloadEntry_Some in Hw as (Hin & Hns & Hn).
    assert (pm' = pm) as ->.
    { apply Hupm; [done|]. unfold sameWorkload.
      by rewrite Hns, Hn, !String.eqb_refl. }
    destruct (usageOfContainer (PodMetrics.Containers pm) (Container.Name container))
      as [u|] eqn:Hu.
    + apply usageOfContainer_Some in Hu as (cm' & Hin' & Hn' & ->).
      by rewrite (Hucm cm' Hin' Hn').
    + apply usageOfContainer_None_inv in Hu.
      rewrite Forall_forall in Hu. by destruct (Hu cm Hcm).
  - apply workloadEntry_None in Hw. rewrite Forall_forall in Hw.
    rewrite (Hw pm Hpm) in Hs. discriminate.
Qed.

Lemma AnalyzePods_usage_ext shd now pods podMetrics podMetrics' threshold :
  (forall pc, pc ∈ containersOf pods ->
     attachedUsage (buildMetricsMap podMetrics) pc.1 pc.2
     = attachedUsage (buildMetricsMap podMetrics') pc.1 pc.2) ->
  AnalyzePods shd now pods podMetrics threshold
  = AnalyzePods shd now pods podMetrics' threshold.
Proof.
  intros H. rewrite !AnalyzePods_containers.
  apply list_fmap_ext. intros i pc Hi. apply resultOf_attached, H.
  by apply list_elem_of_lookup_2 in Hi.
Qed.

(** C8, as stated, fails: a pod named b/c in namespace a is given the sample
    of a usage entry named c in namespace a/b, whose namespace and workload
    name both differ from the pod's; the two format to the same key a/b/c. *)
Lemma join_attaches_sample_of_another_identity :
  let results :=
    AnalyzePods Duration.ShortHumanDuration Scenario.tenSeconds
      [Scenario.podSlash] [Scenario.metricsSlash] Scenario.threshold in
  PodMetrics.Namespace Scenario.metricsSlash <> Pod.Namespace Scenario.podSlash
  /\ PodMetrics.Name Scenario.metricsSlash <> Pod.Name Scenario.podSlash
  /\ exactJoin [Scenario.metricsSlash] Scenario.podSlash Scenario.bare = None
  /\ PodAnalysis.CurrentUsage <$> results
     = [Scenario.sample (Scenario.milli 50) (Scenario.units (64 * MiB))].
Proof.
  cbv zeta. split; [discriminate|]. split; [discriminate|].
  split; vm_compute; reflexivity.
Qed.

(** C8, amended. When no namespace of the pods and of the usage dataset
    contains the separator character of the formatted key, the join attaches
    to each container exactly the sample whose (namespace, workload,
    container) equals the container's, and leaves currentUsage absent when
    no such entry exists; where the identities of the dataset are unique the
    attached sample is that of the one matching entry. Usage entries that
    match no pod are ignored, a dataset in which nothing matches yields the
    same results as an empty one, and with an empty dataset every result has
    no sample. *)
Theorem join_is_exact_without_separator (ShortHumanDuration : Z -> string)
  (now : Z) (pods : list Pod.t) (podMetrics : list PodMetrics.t) (threshold : float) :
  Forall (fun pod => noSlash (Pod.Namespace pod) = true) pods ->
  Forall (fun pm => noSlash (PodMetrics.Namespace pm) = true) podMetrics ->
  let results := AnalyzePods ShortHumanDuration now pods podMetrics threshold in
  PodAnalysis.CurrentUsage <$> results
  = (fun pc : Pod.t * Container.t => exactJoin podMetrics pc.1 pc.2) <$> containersOf pods
  /\ (forall pod container u,
        exactJoin podMetrics pod container = Some u ->
        exists pm cm,
          pm ∈ podMetrics /\ cm ∈ PodMetrics.Containers pm
          /\ PodMetrics.Namespace pm = Pod.Namespace pod
          /\ PodMetrics.Name pm = Pod.Name pod
          /\ ContainerMetrics.Name cm = Container.Name container
          /\ u = sampleOf cm)
  /\ (forall pod container,
        (forall pm cm,
           pm ∈ podMetrics -> cm ∈ PodMetrics.Containers pm ->
           ~ (PodMetrics.Namespace pm = Pod.Namespace pod
              /\ PodMetrics.Name pm = Pod.Name pod
              /\ ContainerMetrics.Name cm = Container.Name container)) ->
        exactJoin podMetrics pod container = None)
  /\ (forall pod container pm cm,
        pm ∈ podMetrics -> cm ∈ PodMetrics.Containers pm ->
        sameWorkload pod pm = true ->
        ContainerMetrics.Name cm = Container.Name container ->
        (forall pm', pm' ∈ podMetrics -> sameWorkload pod pm' = true -> pm' = pm) ->
        (forall cm', cm' ∈ PodMetrics.Containers pm ->
           ContainerMetrics.Name cm' = Container.Name container -> cm' = cm) ->
        exactJoin podMetrics pod container = Some (sampleOf cm))
  /\ results
     = AnalyzePods ShortHumanDuration now pods
         (List.filter (matchesSomePod pods) podMetrics) threshold
  /\ (Forall (fun pm => matchesSomePod pods pm = false) podMetrics ->
      results = AnalyzePods ShortHumanDuration now pods [] threshold)
  /\ Forall (fun r => PodAnalysis.CurrentUsage r = None)
       (AnalyzePods ShortHumanDuration now pods [] threshold).
Proof.
  intros Hpods Hpms results. subst results.
  assert (Hfilter :
    AnalyzePods ShortHumanDuration now pods podMetrics threshold
    = AnalyzePods ShortHumanDuration now pods
        (List.filter (matchesSomePod pods) podMetrics) threshold).
  { apply AnalyzePods_usage_ext. intros pc Hpc.
    apply containersOf_pod in Hpc as [Hpod _].
    assert (Hns : noSlash (Pod.Namespace pc.1) = true).
    { rewrite Forall_forall in Hpods. by apply Hpods. }
    rewrite !attachedUsage_exactJoin by auto using filter_matches_noSlash.
    unfold exactJoin. by rewrite workloadEntry_filter. }
  split; [|split; [|split; [|split; [|split; [|split]]]]].
  - rewrite AnalyzePods_containers, <- list_fmap_compose.
    apply list_fmap_ext. intros i pc Hi. cbn.
    apply list_elem_of_lookup_2, containersOf_pod in Hi as [Hpod _].
    apply attachedUsage_exactJoin; [|done].
    rewrite Forall_forall in Hpods. by apply Hpods.
  - apply exactJoin_Some.
  - apply exactJoin_None.
  - apply exactJoin_unique.
  - exact Hfilter.
  - intros Hnone. rewrite Hfilter. f_equal.
    clear Hfilter Hpms. induction Hnone as [|pm rest Hm _ IH]; [done|].
    cbn. by rewrite Hm.
  - rewrite AnalyzePods_containers. apply Forall_fmap, Forall_forall.
    intros pc _. reflexivity.
Qed.

(** The join of the pod of Scenario B with a dataset that holds its entry
    and a stale one. *)
Lemma join_is_exact_without_separator_witness :
  let pods := [Scenario.podB] in
  let podMetrics := [Scenario.metricsStale; Scenario.metricsB] in
  Forall (fun pod => noSlash (Pod.Namespace pod) = true) pods
  /\ Forall (fun pm => noSlash (PodMetrics.Namespace pm) = true) podMetrics
  /\ PodAnalysis.CurrentUsage <$>
       AnalyzePods Duration.ShortHumanDuration Scenario.tenSeconds pods podMetrics
         Scenario.threshold
     = (fun pc : Pod.t * Container.t => exactJoin podMetrics pc.1 pc.2)
       <$> containersOf pods.
Proof.
  cbv zeta.
  assert (Hpods : Forall (fun pod => noSlash (Pod.Namespace pod) = true) [Scenario.podB]).
  { repeat constructor. }
  assert (Hpms : Forall (fun pm => noSlash (PodMetrics.Namespace pm) = true)
                   [Scenario.metricsStale; Scenario.metricsB]).
  { repeat constructor. }
  split; [exact Hpods|]. split; [exact Hpms|].
  exact (proj1 (join_is_exact_without_separator Duration.ShortHumanDuration
                  Scenario.tenSeconds [Scenario.podB]
                  [Scenario.metricsStale; Scenario.metricsB] Scenario.threshold
                  Hpods Hpms)).
Defined.

(** ** Further properties of the engine *)

(** The tiers of the three plain cases: empty limits are HIGH whatever the
    usage; limits missing the CPU or the Memory entry are MEDIUM; complete
    limits without a usage sample are LOW. *)
Theorem risk_tier_plain_cases (container : Container.t)
  (usage : option ResourceUsage.t) :
  let limits := Resources.Limits (Container.Resources container) in
  (limits = ∅ -> calculateRiskLevel container usage = "HIGH")
  /\ (limits <> ∅ ->
      limits !! ResourceCPU = None \/ limits !! ResourceMemory = None ->
      calculateRiskLevel container usage = "MEDIUM")
  /\ (is_Some (limits !! ResourceCPU) -> is_Some (limits !! ResourceMemory) ->
      usageValues usage = None ->
      calculateRiskLevel container usage = "LOW").
Proof.
  intros limits. rewrite calculateRiskLevel_riskTier. fold limits.
  unfold riskTier, riskRules, hasSample. cbn [firstMatch].
  split; [|split].
  - intros He. by rewrite bool_decide_eq_true_2.
  - intros Hne Hmiss. rewrite bool_decide_eq_false_2 by done.
    by rewrite bool_decide_eq_true_2.
  - intros [qc Hc] [qm Hm] Hu.
    rewrite bool_decide_eq_false_2.
    2:{ intros He. rewrite He, lookup_empty in Hc. discriminate. }
    rewrite bool_decide_eq_false_2.
    2:{ rewrite Hc, Hm. intros [?|?]; discriminate. }
    rewrite Hu. reflexivity.
Qed.

(** The two booleans of a result say whether the declared limits and the
    declared requests of its container are non-empty. *)
Theorem has_limits_and_requests_reflect_maps (ShortHumanDuration : Z -> string)
  (now : Z) (pods : list Pod.t) (podMetrics : list PodMetrics.t) (threshold : float) :
  Forall2
    (fun (pc : Pod.t * Container.t) (r : PodAnalysis.t) =>
       (PodAnalysis.HasLimits r = true
        <-> Resources.Limits (Container.Resources pc.2) <> ∅)
       /\ (PodAnalysis.HasRequests r = true
           <-> Resources.Requests (Container.Resources pc.2) <> ∅))
    (containersOf pods)
    (AnalyzePods ShortHumanDuration now pods podMetrics threshold).
Proof.
  rewrite AnalyzePods_containers.
  apply Forall2_fmap_r, Forall2_same_length_lookup_2; [done|].
  intros i pc pc' H1 H2. rewrite H1 in H2. injection H2 as <-.
  unfold compose, resultOf. cbn [PodAnalysis.HasLimits PodAnalysis.HasRequests].
  rewrite !negb_true_iff, !bool_decide_eq_false. done.
Qed.

(** The recommended CPU request of a usage sample is
    max(cpuUsage × 6 ÷ 5, 50) milli-cores, the product being the engine's
    64-bit product and the exact one when it fits. *)
Theorem cpu_request_has_floor (analysis : PodAnalysis.t) (container : Container.t)
  (cpu mem : Z) :
  usageValues (PodAnalysis.CurrentUsage analysis) = Some (cpu, mem) ->
  PodAnalysis.RecommendedCPURequest (generateSpecificRecommendations analysis container)
  = Fmt.d (Z.max (Int64.mul cpu 6 ÷ 5) 50) +:+ "m"
  /\ (Int64.in_range (cpu * 6) -> Int64.mul cpu 6 = cpu * 6).
Proof.
  intros Hu. rewrite (generateSpecificRecommendations_sample _ _ _ _ Hu).
  destruct analysis; cbn [PodAnalysis.set_Recommended PodAnalysis.RecommendedCPURequest].
  unfold cpuRequestFor, Int64.div. cbv zeta. rewrite quot_max.
  split; [reflexivity|]. apply wrap_in_range.
Qed.

(** The recommended CPU request of a usage of 95 milli-cores. *)
Lemma cpu_request_has_floor_witness :
  let usage := Scenario.sample (Scenario.milli 95) (Scenario.units (64 * MiB)) in
  usageValues (PodAnalysis.CurrentUsage (analysisWith usage)) = Some (95, 64 * MiB)
  /\ PodAnalysis.RecommendedCPURequest
       (generateSpecificRecommendations (analysisWith usage) Scenario.bare)
     = Fmt.d (Z.max (Int64.mul 95 6 ÷ 5) 50) +:+ "m".
Proof.
  cbv zeta. split; [reflexivity|].
  exact (proj1 (cpu_request_has_floor
                  (analysisWith (Scenario.sample (Scenario.milli 95)
                                   (Scenario.units (64 * MiB))))
                  Scenario.bare 95 (64 * MiB) eq_refl)).
Defined.

(** Scenario A: a container with no limits, no requests and no usage sample
    gets hasLimits = false, hasRequests = false, tier HIGH, the no-limits,
    no-requests and fallback suggestions, no recommendation and no snippet. *)
Theorem scenario_A_result (ShortHumanDuration : Z -> string) (now : Z) :
  AnalyzePods ShortHumanDuration now [Scenario.podA] [] Scenario.threshold
  = [ PodAnalysis.mk "default" "web" "app" false false ∅ None
        (render <$> [NoLimitsSet; NoRequestsSet; SetLimitsFromRequirements])
        "HIGH" (ShortHumanDuration (Since now 0))
        EmptyString EmptyString EmptyString EmptyString EmptyString ].
Proof. reflexivity. Qed.

(** Scenario C: with CPU limit 100m and usage cpu=95m the usagePercent is 95
    and the ratio exceeds 0.9, so the tier is MEDIUM although the limits are
    complete, and at threshold 0.8 the increase-CPU advisory is emitted. *)
Theorem scenario_C_result (ShortHumanDuration : Z -> string) (now : Z) :
  let results :=
    AnalyzePods ShortHumanDuration now [Scenario.podC] [Scenario.metricsC]
      Scenario.threshold in
  PodAnalysis.RiskLevel <$> results = ["MEDIUM"]
  /\ usagePercentOf 95 100 = 95%float
  /\ PodAnalysis.Suggestions <$> results
     = [render <$> [NoRequestsSet; IncreaseCPULimit 95%float; DecreaseMemoryLimit 25%float]].
Proof. cbv zeta. repeat split; reflexivity. Qed.

(** Scenario D: with no limits and usage cpu=10m, memory=10MiB every
    recommendation is its floor, and the snippet is rendered from the four. *)
Theorem scenario_D_result (ShortHumanDuration : Z -> string) (now : Z) :
  let results :=
    AnalyzePods ShortHumanDuration now [Scenario.podD] [Scenario.metricsD]
      Scenario.threshold in
  recommendations <$> results = [["100m"; "50m"; "128Mi"; "64Mi"]]
  /\ PodAnalysis.ExampleYAML <$> results = [snippet "100m" "128Mi" "50m" "64Mi"]
  /\ PodAnalysis.RiskLevel <$> results = ["HIGH"].
Proof. cbv zeta. repeat split; reflexivity. Qed.

(** For every usage up to 200 units and every limit from 1 to 200 units the
    binary64 tests of the engine agree with the exact comparisons: the ratio
    exceeds 0.9 iff 10 × used > 9 × limit, the percentage exceeds 0.8 × 100
    iff 100 × used > 80 × limit, and it is below 30 (below 50) iff
    100 × used < 30 × limit (50 × limit). *)
Theorem binary64_tests_are_exact_up_to_200 :
  Forall (fun p => testsAreExact p = true) (grid 200).
Proof.
  apply Forall_forall. intros p Hp.
  assert (H : forallb testsAreExact (grid 200) = true) by (vm_compute; reflexivity).
  rewrite forallb_forall in H. apply H. by apply list_elem_of_In.
Qed.

(** ** How runs of the engine compose *)

Lemma containersOf_app (pods1 pods2 : list Pod.t) :
  containersOf (pods1 ++ pods2) = containersOf pods1 ++ containersOf pods2.
Proof. unfold containersOf. apply bind_app. Qed.

(** Analysing a concatenation of pod lists gives the concatenation of the
    analyses, each part against the whole usage dataset; no pods give no
    results, and a pod without containers adds none. *)
Theorem analysis_of_concatenated_pods (ShortHumanDuration : Z -> string) (now : Z)
  (pods1 pods2 : list Pod.t) (podMetrics : list PodMetrics.t) (threshold : float) :
  AnalyzePods ShortHumanDuration now (pods1 ++ pods2) podMetrics threshold
  = AnalyzePods ShortHumanDuration now pods1 podMetrics threshold
    ++ AnalyzePods ShortHumanDuration now pods2 podMetrics threshold
  /\ AnalyzePods ShortHumanDuration now [] podMetrics threshold = []
  /\ forall pod : Pod.t,
       Pod.Containers pod = [] ->
       AnalyzePods ShortHumanDuration now (pod :: pods2) podMetrics threshold
       = AnalyzePods ShortHumanDuration now pods2 podMetrics threshold.
Proof.
  split; [|split].
  - by rewrite !AnalyzePods_containers, containersOf_app, fmap_app.
  - reflexivity.
  - intros pod Hc. rewrite !AnalyzePods_containers.
    unfold containersOf. cbn [mbind list_bind]. rewrite Hc. reflexivity.
Qed.

(** The threshold reaches the suggestions only: two runs that differ in the
    threshold alone agree on every other field of every result, and on the
    suggestions too for a result without a usage sample. *)
Theorem threshold_reaches_suggestions_only (ShortHumanDuration : Z -> string)
  (now : Z) (pods : list Pod.t) (podMetrics : list PodMetrics.t)
  (threshold1 threshold2 : float) :
  let run1 := AnalyzePods ShortHumanDuration now pods podMetrics threshold1 in
  let run2 := AnalyzePods ShortHumanDuration now pods podMetrics threshold2 in
  PodAnalysis.set_Suggestions [] <$> run1 = PodAnalysis.set_Suggestions [] <$> run2
  /\ Forall2 (fun r1 r2 => PodAnalysis.CurrentUsage r1 = None -> r1 = r2) run1 run2.
Proof.
  cbv zeta. rewrite !AnalyzePods_containers. split.
  - rewrite <- !list_fmap_compose. apply list_fmap_ext. intros i pc _. reflexivity.
  - apply Forall2_fmap, Forall2_same_length_lookup_2; [done|].
    intros i pc pc' H1 H2. rewrite H1 in H2. injection H2 as <-.
    unfold resultOf. cbn [PodAnalysis.CurrentUsage]. intros Hu. rewrite Hu.
    unfold generateSuggestions. reflexivity.
Qed.

(** ** The shape of a suggestion list *)

Lemma elem_of_emitIf_iff {A} (condition : bool) (entry a : A) :
  a ∈ emitIf condition entry <-> condition = true /\ a = entry.
Proof.
  destruct condition; cbn.
  - rewrite list_elem_of_singleton. by split; [intros ->|intros [_ ->]].
  - rewrite elem_of_nil. by split; [|intros [? _]].
Qed.

Lemma usageCheck_elem increase decrease trigger used limit threshold a :
  a ∈ usageCheck increase decrease trigger used limit threshold ->
  exists u l, used = Some u /\ limit = Some l /\ 0 < l
    /\ ((Float64.gt (usagePercentOf u l) (threshold * 100)%float = true
         /\ a = increase (usagePercentOf u l))
        \/ (Float64.gt (usagePercentOf u l) (threshold * 100)%float = false
            /\ Float64.lt (usagePercentOf u l) trigger = true
            /\ a = decrease (usagePercentOf u l))).
Proof.
  unfold usageCheck. intros Ha.
  destruct used as [u|], limit as [l|]; try (by apply elem_of_nil in Ha).
  destruct (0 <? l) eqn:Hl; [|by apply elem_of_nil in Ha].
  apply Z.ltb_lt in Hl. exists u, l. repeat split; try done.
  destruct (Float64.gt _ _) eqn:Hg.
  - apply list_elem_of_singleton in Ha. by left.
  - apply elem_of_emitIf_iff in Ha as [Hlt ->]. by right.
Qed.

Lemma usageCheck_length increase decrease trigger used limit threshold :
  (length (usageCheck increase decrease trigger used limit threshold) <= 1)%nat.
Proof.
  unfold usageCheck, emitIf.
  destruct used, limit; cbn; try lia.
  repeat match goal with |- context [if ?b then _ else _] => destruct b end; cbn; lia.
Qed.

Lemma usageCheck_no_limit increase decrease trigger used threshold :
  usageCheck increase decrease trigger used None threshold = [].
Proof. by destruct used. Qed.

Lemma usageCheck_no_usage increase decrease trigger limit threshold :
  usageCheck increase decrease trigger None limit threshold = [].
Proof. reflexivity. Qed.

(** The suggestions of a container without limits. *)
Lemma suggestionsSpec_no_limits requests usage threshold :
  suggestionsSpec ∅ requests usage threshold
  = NoLimitsSet :: emitIf (bool_decide (requests = ∅)) NoRequestsSet
    ++ emitIf (negb (hasSample usage)) SetLimitsFromRequirements.
Proof.
  unfold suggestionsSpec. rewrite !lookup_empty. cbn [fmap option_fmap option_map].
  rewrite !usageCheck_no_limit, bool_decide_eq_true_2 by done.
  by rewrite andb_true_r.
Qed.

(** The suggestions of a container with limits. *)
Lemma suggestionsSpec_limits limits requests usage threshold :
  limits <> ∅ ->
  suggestionsSpec limits requests usage threshold
  = emitIf (bool_decide (requests = ∅)) NoRequestsSet
    ++ usageCheck IncreaseCPULimit DecreaseCPULimit 30%float
         (fst <$> usageValues usage)
         (Quantity.MilliValue <$> limits !! ResourceCPU) threshold
    ++ usageCheck IncreaseMemoryLimit DecreaseMemoryLimit 50%float
         (snd <$> usageValues usage)
         (Quantity.Value <$> limits !! ResourceMemory) threshold.
Proof.
  intros Hne. unfold suggestionsSpec.
  rewrite bool_decide_eq_false_2 by done. rewrite andb_false_r. cbn [emitIf].
  by rewrite app_nil_r.
Qed.

(** A suggestion list never has more than three entries. A container
    without limits gets the no-limits entry first, then the no-requests entry
    if its requests are empty, then the fallback if it has no usage sample,
    and never a usage advisory, with or without a sample; a container with
    limits never gets the no-limits entry or the fallback, and its first
    entry is the no-requests entry when its requests are empty. No list holds
    both the increase and the decrease advisory of one resource. *)
Theorem suggestion_list_shape (container : Container.t)
  (usage : option ResourceUsage.t) (threshold : float) :
  let limits := Resources.Limits (Container.Resources container) in
  let requests := Resources.Requests (Container.Resources container) in
  let suggestions := generateSuggestions container usage threshold in
  (length suggestions <= 3)%nat
  /\ (limits = ∅ ->
      suggestions
      = msgNoLimits :: emitIf (bool_decide (requests = ∅)) msgNoRequests
        ++ emitIf (negb (hasSample usage)) msgFallback)
  /\ (limits <> ∅ ->
      (msgNoLimits ∉ suggestions) /\ (msgFallback ∉ suggestions)
      /\ (requests = ∅ -> head suggestions = Some msgNoRequests))
  /\ (forall p q : float,
        ~ (msgIncrease "CPU" p ∈ suggestions /\ msgDecrease "CPU" q ∈ suggestions)
        /\ ~ (msgIncrease "Memory" p ∈ suggestions
              /\ msgDecrease "Memory" q ∈ suggestions)).
Proof.
  intros limits requests suggestions. subst suggestions.
  rewrite generateSuggestions_spec. fold limits requests.
  assert (Hmem : forall a : Advisory,
            render a ∈ render <$> suggestionsSpec limits requests usage threshold ->
            exists b, kindOf b = kindOf a
                      /\ b ∈ suggestionsSpec limits requests usage threshold).
  { intros a Ha. apply list_elem_of_fmap in Ha as (b & Hab & Hb).
    exists b. split; [symmetry; by apply render_kind|done]. }
  split; [|split; [|split]].
  - rewrite length_fmap. destruct (decide (limits = ∅)) as [He|Hne].
    + rewrite He, suggestionsSpec_no_limits. cbn. rewrite length_app.
      unfold emitIf. destruct (bool_decide _), (negb _); cbn; lia.
    + rewrite suggestionsSpec_limits by done. rewrite !length_app.
      pose proof (usageCheck_length IncreaseCPULimit DecreaseCPULimit 30%float
                    (fst <$> usageValues usage)
                    (Quantity.MilliValue <$> limits !! ResourceCPU) threshold).
      pose proof (usageCheck_length IncreaseMemoryLimit DecreaseMemoryLimit 50%float
                    (snd <$> usageValues usage)
                    (Quantity.Value <$> limits !! ResourceMemory) threshold).
      unfold emitIf at 1. destruct (bool_decide _); cbn; lia.
  - intros He. rewrite He, suggestionsSpec_no_limits. cbn. rewrite fmap_app.
    unfold emitIf. by destruct (bool_decide _), (negb _).
  - intros Hne. rewrite suggestionsSpec_limits by done. split; [|split].
    + intros Hin. change msgNoLimits with (render NoLimitsSet) in Hin.
      apply list_elem_of_fmap in Hin as (b & Hb & Hin). apply render_kind in Hb.
      rewrite !elem_of_app in Hin. destruct Hin as [Hin|[Hin|Hin]].
      * apply elem_of_emitIf in Hin. by subst b.
      * apply usageCheck_kinds in Hin as [p [-> | ->]]; discriminate.
      * apply usageCheck_kinds in Hin as [p [-> | ->]]; discriminate.
    + intros Hin. change msgFallback with (render SetLimitsFromRequirements) in Hin.
      apply list_elem_of_fmap in Hin as (b & Hb & Hin). apply render_kind in Hb.
      rewrite !elem_of_app in Hin. destruct Hin as [Hin|[Hin|Hin]].
      * apply elem_of_emitIf in Hin. by subst b.
      * apply usageCheck_kinds in Hin as [p [-> | ->]]; discriminate.
      * apply usageCheck_kinds in Hin as [p [-> | ->]]; discriminate.
    + intros Hr. by rewrite bool_decide_eq_true_2.
  - intros p q. split.
    + intros [Hi Hd].
      change (msgIncrease "CPU" p) with (render (IncreaseCPULimit p)) in Hi.
      change (msgDecrease "CPU" q) with (render (DecreaseCPULimit q)) in Hd.
      apply Hmem in Hi as (bi & Hki & Hbi). apply Hmem in Hd as (bd & Hkd & Hbd).
      apply suggestionsSpec_elem in Hbi, Hbd.
      destruct Hbi as [-> | [-> | [Hbi | [Hbi | ->]]]]; try discriminate Hki.
      2:{ apply usageCheck_kinds in Hbi as [x [-> | ->]]; discriminate. }
      destruct Hbd as [-> | [-> | [Hbd | [Hbd | ->]]]]; try discriminate Hkd.
      2:{ apply usageCheck_kinds in Hbd as [x [-> | ->]]; discriminate. }
      apply usageCheck_elem in Hbi as (u & l & Hu & Hl & _ & Hbi).
      apply usageCheck_elem in Hbd as (u' & l' & Hu' & Hl' & _ & Hbd).
      rewrite Hu in Hu'. rewrite Hl in Hl'. injection Hu' as <-. injection Hl' as <-.
      destruct Hbi as [[Hg ->] | (_ & _ & ->)]; [|discriminate].
      destruct Hbd as [[_ ->] | (Hg' & _ & _)]; [discriminate|]. congruence.
    + intros [Hi Hd].
      change (msgIncrease "Memory" p) with (render (IncreaseMemoryLimit p)) in Hi.
      change (msgDecrease "Memory" q) with (render (DecreaseMemoryLimit q)) in Hd.
      apply Hmem in Hi as (bi & Hki & Hbi). apply Hmem in Hd as (bd & Hkd & Hbd).
      apply suggestionsSpec_elem in Hbi, Hbd.
      destruct Hbi as [-> | [-> | [Hbi | [Hbi | ->]]]]; try discriminate Hki.
      { apply usageCheck_kinds in Hbi as [x [-> | ->]]; discriminate. }
      destruct Hbd as [-> | [-> | [Hbd | [Hbd | ->]]]]; try discriminate Hkd.
      { apply usageCheck_kinds in Hbd as [x [-> | ->]]; discriminate. }
      apply usageCheck_elem in Hbi as (u & l & Hu & Hl & _ & Hbi).
      apply usageCheck_elem in Hbd as (u' & l' & Hu' & Hl' & _ & Hbd).
      rewrite Hu in Hu'. rewrite Hl in Hl'. injection Hu' as <-. injection Hl' as <-.
      destruct Hbi as [[Hg ->] | (_ & _ & ->)]; [|discriminate].
      destruct Hbd as [[_ ->] | (Hg' & _ & _)]; [discriminate|]. congruence.
Qed.

(** ** Agreement between the fields of a result *)

Lemma render_plain_elem (a : Advisory) (l : list Advisory) :
  (a = NoLimitsSet \/ a = NoRequestsSet \/ a = SetLimitsFromRequirements) ->
  render a ∈ render <$> l <-> a ∈ l.
Proof.
  intros Ha. split.
  - intros Hin. apply list_elem_of_fmap in Hin as (b & Hab & Hb).
    apply render_kind in Hab.
    destruct Ha as [-> | [-> | ->]]; destruct b; try discriminate Hab; exact Hb.
  - apply list_elem_of_fmap_2.
Qed.

Lemma suggestionsSpec_plain limits requests usage threshold :
  (NoLimitsSet ∈ suggestionsSpec limits requests usage threshold <-> limits = ∅)
  /\ (NoRequestsSet ∈ suggestionsSpec limits requests usage threshold <-> requests = ∅)
  /\ (SetLimitsFromRequirements ∈ suggestionsSpec limits requests usage threshold
      <-> limits = ∅ /\ usageValues usage = None).
Proof.
  assert (Hcheck : forall a inc dec trig used lim,
            (forall p, a <> inc p) -> (forall p, a <> dec p) ->
            ~ a ∈ usageCheck inc dec trig used lim threshold).
  { intros a inc dec trig used lim Hi Hd Hin.
    apply usageCheck_kinds in Hin as [p [Hp | Hp]]; [by apply (Hi p)|by apply (Hd p)]. }
  unfold suggestionsSpec. rewrite !elem_of_app, !elem_of_emitIf_iff.
  rewrite !andb_true_iff, !negb_true_iff, !bool_decide_eq_true.
  unfold hasSample. rewrite bool_decide_eq_false.
  split; [|split].
  - split; [|by auto].
    intros [[? _] | [[_ ?] | [H | [H | [_ ?]]]]]; try done;
      exfalso; revert H; by apply Hcheck.
  - split; [|by auto].
    intros [[_ ?] | [[? _] | [H | [H | [_ ?]]]]]; try done;
      exfalso; revert H; by apply Hcheck.
  - split.
    + intros [[_ ?] | [[_ ?] | [H | [H | [[Hs He] _]]]]]; try done;
        try (exfalso; revert H; by apply Hcheck).
      split; [done|]. destruct (usageValues usage); [|done].
      exfalso. apply Hs. eauto.
    + intros [He Hu]. do 4 right. rewrite Hu. split; [|done].
      split; [|done]. by intros [? ?].
Qed.

Lemma tierName_HIGH limits requests usage :
  tierName (riskTier limits requests usage) = "HIGH" <-> limits = ∅.
Proof.
  unfold riskTier, riskRules. cbn [firstMatch]. case_bool_decide as He.
  - done.
  - split; [|done]. by repeat (case_bool_decide || destruct (_ && _)).
Qed.

Lemma resultOf_consistent metricsMap threshold pod podAge container :
  consistent (resultOf metricsMap threshold pod podAge container).
Proof.
  unfold consistent, resultOf.
  cbn [PodAnalysis.RiskLevel PodAnalysis.HasLimits PodAnalysis.HasRequests
       PodAnalysis.CurrentLimits PodAnalysis.Suggestions PodAnalysis.CurrentUsage
       PodAnalysis.ExampleYAML].
  set (limits := Resources.Limits (Container.Resources container)).
  set (requests := Resources.Requests (Container.Resources container)).
  set (usage := attachedUsage metricsMap pod container).
  rewrite calculateRiskLevel_riskTier, generateSuggestions_spec. fold limits requests.
  change msgNoLimits with (render NoLimitsSet).
  change msgNoRequests with (render NoRequestsSet).
  change msgFallback with (render SetLimitsFromRequirements).
  rewrite !render_plain_elem by auto.
  destruct (suggestionsSpec_plain limits requests usage threshold) as (H1 & H2 & H3).
  rewrite H1, H2, H3, tierName_HIGH, !negb_false_iff, !bool_decide_eq_true.
  split; [|split; [|split; [|split; [|split; [|split]]]]]; try done.
  - destruct (riskTier limits requests usage); cbn; rewrite !elem_of_cons; auto.
  - split; intros [He Hu]; (split; [done|]).
    + subst usage. destruct (attachedUsage metricsMap pod container) as [u|] eqn:Hau; [|done].
      apply attachedUsage_values in Hau as (c & m & Hcm). congruence.
    + by rewrite Hu.
  - case_bool_decide as He; [done|]. cbn [andb]. by intros H.
Qed.

(** In every result of the engine the fields that tell one fact agree: the
    tier is one of HIGH, MEDIUM and LOW; it is HIGH exactly when hasLimits is
    false, which is exactly when the limits shown are empty and exactly when
    the no-limits suggestion is present; the no-requests suggestion is
    present exactly when hasRequests is false; the fallback is present
    exactly when there are no limits and no usage sample; and a result with
    an example snippet has tier HIGH. *)
Theorem result_fields_agree (ShortHumanDuration : Z -> string) (now : Z)
  (pods : list Pod.t) (podMetrics : list PodMetrics.t) (threshold : float) :
  Forall consistent (AnalyzePods ShortHumanDuration now pods podMetrics threshold).
Proof.
  rewrite AnalyzePods_containers. apply Forall_fmap, Forall_forall.
  intros pc _. apply resultOf_consistent.
Qed.

(** ** What the recommendations guarantee *)

(** The text [%d] prints tells the number. *)
Lemma Fmt_d_inj (n n' : Z) : Fmt.d n = Fmt.d n' -> n = n'.
Proof.
  unfold Fmt.d. intros H. apply DecimalZ.to_int_inj.
  assert (Hnn : forall z, Z.to_int z <> Decimal.Pos Decimal.Nil
                          /\ Z.to_int z <> Decimal.Neg Decimal.Nil).
  { intros [|p|p]; cbn; split; try discriminate; intros [= Hp];
      by apply (DecimalPos.Unsigned.to_uint_nonnil p). }
  apply (f_equal NilZero.int_of_string) in H.
  rewrite !NilZero.isi in H by apply Hnn. by injection H.
Qed.

Lemma quot_nonneg_div (a b : Z) : 0 <= a -> 0 < b -> a ÷ b = a / b.
Proof. intros. apply Z.quot_div_nonneg; lia. Qed.

Lemma in_range_6_5 (z : Z) : 0 <= z -> Int64.in_range (z * 6) -> Int64.in_range (z * 5).
Proof. unfold Int64.in_range, Int64.min_int, Int64.max_int. lia. Qed.

(** For every usage sample the four recommendation fields print four
    numbers (milli-cores and mebibytes) that are never below the floors 100,
    50, 128 and 64, whatever the usage, negative or overflowing. For a usage
    that is not negative and whose sixfold fits in 64 bits, the CPU request
    is at least the usage and the CPU limit at least the request, the memory
    request in bytes is at least the usage although it is cut to whole
    mebibytes, and the memory limit is at least the request; more usage never
    lowers a recommendation. *)
Theorem recommendations_cover_usage (analysis : PodAnalysis.t)
  (container : Container.t) (cpu mem : Z) :
  usageValues (PodAnalysis.CurrentUsage analysis) = Some (cpu, mem) ->
  let r := generateSpecificRecommendations analysis container in
  let cl := recommendedCPULimitMilli cpu in
  let cr := recommendedCPURequestMilli cpu in
  let ml := recommendedMemoryLimitMi mem in
  let mr := recommendedMemoryRequestMi mem in
  (PodAnalysis.RecommendedCPULimit r = Fmt.d cl +:+ "m"
   /\ PodAnalysis.RecommendedCPURequest r = Fmt.d cr +:+ "m"
   /\ PodAnalysis.RecommendedMemoryLimit r = Fmt.d ml +:+ "Mi"
   /\ PodAnalysis.RecommendedMemoryRequest r = Fmt.d mr +:+ "Mi")
  /\ (100 <= cl /\ 50 <= cr /\ 128 <= ml /\ 64 <= mr)
  /\ (0 <= cpu -> Int64.in_range (cpu * 6) -> cpu <= cr <= cl)
  /\ (0 <= mem -> Int64.in_range (mem * 6) -> mem <= mr * MiB /\ mr <= ml)
  /\ (forall cpu' : Z,
        0 <= cpu <= cpu' -> Int64.in_range (cpu' * 6) ->
        cl <= recommendedCPULimitMilli cpu' /\ cr <= recommendedCPURequestMilli cpu')
  /\ (forall mem' : Z,
        0 <= mem <= mem' -> Int64.in_range (mem' * 6) ->
        ml <= recommendedMemoryLimitMi mem' /\ mr <= recommendedMemoryRequestMi mem').
Proof.
  intros Hu r cl cr ml mr. subst r cl cr ml mr.
  rewrite (generateSpecificRecommendations_sample _ _ _ _ Hu).
  assert (Hexact : forall z k, 0 <= z -> 1 <= k <= 6 -> Int64.in_range (z * 6) ->
                     Int64.mul z k = z * k).
  { intros z k Hz Hk Hr. apply wrap_in_range.
    unfold Int64.in_range, Int64.min_int, Int64.max_int in *. nia. }
  assert (Hmib : 0 < MiB) by (unfold MiB; lia).
  unfold recommendedCPULimitMilli, recommendedCPURequestMilli,
    recommendedMemoryLimitMi, recommendedMemoryRequestMi, Int64.div.
  cbv zeta. rewrite !quot_max.
  split; [|split; [|split; [|split; [|split]]]].
  - destruct analysis. cbn. unfold cpuLimitFor, cpuRequestFor, memoryLimitFor,
      memoryRequestFor, Int64.div. cbv zeta. by rewrite !quot_max.
  - repeat split; try lia.
    + rewrite quot_nonneg_div by lia. apply Z.div_le_lower_bound; lia.
    + rewrite quot_nonneg_div by lia. apply Z.div_le_lower_bound; lia.
  - intros Hc Hr. rewrite (Hexact cpu 5), (Hexact cpu 6) by (done || lia).
    rewrite !quot_nonneg_div by lia.
    pose proof (Z.div_mod (cpu * 5) 2 ltac:(lia)).
    pose proof (Z.mod_pos_bound (cpu * 5) 2 ltac:(lia)).
    pose proof (Z.div_mod (cpu * 6) 5 ltac:(lia)).
    pose proof (Z.mod_pos_bound (cpu * 6) 5 ltac:(lia)). lia.
  - intros Hm Hr. rewrite (Hexact mem 5), (Hexact mem 6) by (done || lia).
    rewrite (quot_nonneg_div (mem * 5)), (quot_nonneg_div (mem * 6)) by lia.
    rewrite !quot_nonneg_div by lia.
    pose proof (Z.div_mod (mem * 5) 2 ltac:(lia)) as H5.
    pose proof (Z.mod_pos_bound (mem * 5) 2 ltac:(lia)) as H5b.
    pose proof (Z.div_mod (mem * 6) 5 ltac:(lia)) as H6.
    pose proof (Z.mod_pos_bound (mem * 6) 5 ltac:(lia)) as H6b.
    split.
    + set (v := Z.max (mem * 6 / 5) (64 * MiB)).
      pose proof (Z.div_mod v MiB ltac:(lia)) as Hv.
      pose proof (Z.mod_pos_bound v MiB Hmib) as Hvb.
      assert (Hge : 64 * MiB <= v) by (subst v; lia).
      assert (Hge' : mem * 6 / 5 <= v) by (subst v; lia).
      unfold MiB in *. lia.
    + apply Z.div_le_mono; lia.
  - intros cpu' Hc Hr.
    assert (Hr0 : Int64.in_range (cpu * 6)).
    { unfold Int64.in_range, Int64.min_int, Int64.max_int in *. lia. }
    rewrite (Hexact cpu 5), (Hexact cpu 6), (Hexact cpu' 5), (Hexact cpu' 6)
      by (done || lia).
    rewrite !quot_nonneg_div by lia. rewrite !quot_max.
    pose proof (Z.div_le_mono (cpu * 5) (cpu' * 5) 2 ltac:(lia) ltac:(lia)).
    pose proof (Z.div_le_mono (cpu * 6) (cpu' * 6) 5 ltac:(lia) ltac:(lia)). lia.
  - intros mem' Hm Hr.
    assert (Hr0 : Int64.in_range (mem * 6)).
    { unfold Int64.in_range, Int64.min_int, Int64.max_int in *. lia. }
    rewrite (Hexact mem 5), (Hexact mem 6), (Hexact mem' 5), (Hexact mem' 6)
      by (done || lia).
    rewrite (quot_nonneg_div (mem * 5)), (quot_nonneg_div (mem * 6)),
      (quot_nonneg_div (mem' * 5)), (quot_nonneg_div (mem' * 6)) by lia.
    rewrite !quot_max. rewrite !quot_nonneg_div by lia.
    pose proof (Z.div_le_mono (mem * 5) (mem' * 5) 2 ltac:(lia) ltac:(lia)).
    pose proof (Z.div_le_mono (mem * 6) (mem' * 6) 5 ltac:(lia) ltac:(lia)).
    split; apply Z.div_le_mono; lia.
Qed.

(** ** The usage dataset as a map *)

Lemma filter_none {A} (P : A -> Prop) `{forall x, Decision (P x)} (l : list A) :
  Forall (fun x => ~ P x) l -> filter P l = [].
Proof.
  induction 1 as [|x l Hx _ IH]; [done|].
  rewrite filter_cons. by rewrite decide_False.
Qed.

Lemma filter_key_NoDup (podMetrics : list PodMetrics.t) (key : string) :
  NoDup (keyOf <$> podMetrics) ->
  (length (filter (fun pm => keyOf pm = key) podMetrics) <= 1)%nat.
Proof.
  induction podMetrics as [|pm rest IH]; cbn [fmap list_fmap]; [cbn; lia|].
  rewrite NoDup_cons. intros [Hnin Hnd]. rewrite filter_cons.
  case_decide as Hk; [|auto].
  assert (Hnone : filter (fun pm => keyOf pm = key) rest = []).
  { apply filter_none, Forall_forall. intros pm' Hin He.
    apply Hnin. rewrite Hk, <- He. by apply list_elem_of_fmap_2. }
  rewrite Hnone. cbn. lia.
Qed.

Lemma buildMetricsMap_Permutation (podMetrics podMetrics' : list PodMetrics.t) :
  NoDup (keyOf <$> podMetrics) -> podMetrics ≡ₚ podMetrics' ->
  buildMetricsMap podMetrics = buildMetricsMap podMetrics'.
Proof.
  intros Hnd Hp. apply map_eq. intros key. rewrite !buildMetricsMap_lookup.
  fold (keyOf). change (fun pm => metricsKey (PodMetrics.Namespace pm) (PodMetrics.Name pm) = key)
    with (fun pm => keyOf pm = key).
  assert (Hf : filter (fun pm => keyOf pm = key) podMetrics
               ≡ₚ filter (fun pm => keyOf pm = key) podMetrics') by by rewrite Hp.
  pose proof (filter_key_NoDup podMetrics key Hnd) as Hlen.
  destruct (filter (fun pm => keyOf pm = key) podMetrics) as [|x [|y l]].
  - apply Permutation_nil_l in Hf. by rewrite Hf.
  - apply Permutation_singleton_l in Hf. by rewrite Hf.
  - cbn in Hlen. lia.
Qed.

(** When no two entries of the usage dataset have the same key, the order of
    the dataset does not matter: a permutation of it gives the same results. *)
Theorem dataset_order_is_irrelevant (ShortHumanDuration : Z -> string) (now : Z)
  (pods : list Pod.t) (podMetrics podMetrics' : list PodMetrics.t) (threshold : float) :
  NoDup (keyOf <$> podMetrics) -> podMetrics ≡ₚ podMetrics' ->
  AnalyzePods ShortHumanDuration now pods podMetrics threshold
  = AnalyzePods ShortHumanDuration now pods podMetrics' threshold.
Proof.
  intros Hnd Hp. unfold AnalyzePods.
  by rewrite (buildMetricsMap_Permutation _ _ Hnd Hp).
Qed.


(** ** The reporter's filter *)

Lemma fold_left_keep {A} (keep : A -> bool) (l acc : list A) :
  fold_left (fun kept x => if keep x then kept ++ [x] else kept) l acc
  = acc ++ filter (fun x => keep x = true) l.
Proof.
  revert acc. induction l as [|x l IH]; intros acc; cbn [fold_left].
  - by rewrite app_nil_r.
  - rewrite IH, filter_cons. destruct (keep x); cbn.
    + rewrite decide_True by done. by rewrite <- app_assoc.
    + by rewrite decide_False by done.
Qed.

Lemma filter_Forall_ext {A} (P Q : A -> Prop) `{forall x, Decision (P x)}
  `{forall x, Decision (Q x)} (l : list A) :
  Forall (fun x => P x <-> Q x) l -> filter P l = filter Q l.
Proof.
  induction 1 as [|x l Hx _ IH]; [done|].
  rewrite !filter_cons, IH.
  destruct (decide (P x)), (decide (Q x)); tauto.
Qed.

Lemma engine_results_Forall (P : PodAnalysis.t -> Prop)
  (ShortHumanDuration : Z -> string) (now : Z) (pods : list Pod.t)
  (podMetrics : list PodMetrics.t) (threshold : float) :
  (forall metricsMap pod podAge container,
     P (resultOf metricsMap threshold pod podAge container)) ->
  Forall P (AnalyzePods ShortHumanDuration now pods podMetrics threshold).
Proof.
  intros HP. rewrite AnalyzePods_containers.
  apply Forall_fmap, Forall_forall. intros pc _. apply HP.
Qed.

Lemma shown_not_LOW (r : PodAnalysis.t) :
  consistent r -> shown r = true <-> PodAnalysis.RiskLevel r <> "LOW".
Proof.
  intros (Hlevel & _ & Hhigh & _). unfold shown.
  destruct (PodAnalysis.HasLimits r) eqn:Hl; cbn [negb orb].
  - rewrite !elem_of_cons in Hlevel.
    destruct Hlevel as [He | [He | [He | He]]]; [| | |by apply elem_of_nil in He].
    + apply Hhigh in He. discriminate He.
    + rewrite He. by cbn.
    + rewrite He. by cbn.
  - split; [|done]. intros _ He.
    destruct Hhigh as [_ Hhigh]. rewrite Hhigh in He by done. discriminate He.
Qed.

Lemma items_appended {A} (l : list A) : Slice.items (Slice.appended l) = l.
Proof. by destruct l. Qed.

Lemma keptResults_filter (results : list PodAnalysis.t) :
  keptResults results = filter (fun r => shown r = true) results.
Proof. unfold keptResults. by rewrite fold_left_keep. Qed.

Lemma items_filteredResults (results : list PodAnalysis.t) (showAll : bool) :
  Slice.items (filteredResults (Slice.appended results) showAll)
  = if showAll then results else keptResults results.
Proof.
  unfold filteredResults. destruct showAll; cbn [negb Slice.items].
  - apply items_appended.
  - by rewrite items_appended.
Qed.

Lemma keptResults_not_LOW (results : list PodAnalysis.t) :
  Forall consistent results ->
  keptResults results = filter (fun r => PodAnalysis.RiskLevel r <> "LOW") results.
Proof.
  intros Hc. rewrite keptResults_filter. apply filter_Forall_ext.
  eapply Forall_impl; [exact Hc|]. intros r Hr. by apply shown_not_LOW.
Qed.

(** With [showAll] unset the report keeps the results of an engine run
    whose risk level is not LOW, in their order, in a slice that is never
    [nil]; with [showAll] set it keeps the slice of the run. *)
Theorem report_hides_exactly_the_low_risk_results (ShortHumanDuration : Z -> string)
  (now : Z) (pods : list Pod.t) (podMetrics : list PodMetrics.t) (threshold : float) :
  let results := AnalyzePods ShortHumanDuration now pods podMetrics threshold in
  filteredResults (Slice.appended results) false
  = Some (filter (fun r => PodAnalysis.RiskLevel r <> "LOW") results)
  /\ filteredResults (Slice.appended results) true = Slice.appended results.
Proof.
  intros results. split; [|done].
  unfold filteredResults. cbn [negb]. rewrite items_appended. f_equal.
  apply keptResults_not_LOW, (engine_results_Forall consistent).
  intros. apply resultOf_consistent.
Qed.
(** ** The summary *)

Lemma summaryCounters_count (results : list PodAnalysis.t) :
  let count (P : PodAnalysis.t -> Prop) `{forall r, Decision (P r)} :=
    Z.of_nat (length (filter P results)) in
  summaryCounters results
  = Counters.mk
      (count (fun r => PodAnalysis.RiskLevel r = "HIGH"))
      (count (fun r => PodAnalysis.RiskLevel r = "MEDIUM"))
      (count (fun r => PodAnalysis.RiskLevel r = "LOW"))
      (count (fun r => PodAnalysis.HasLimits r = false))
      (count (fun r => PodAnalysis.HasRequests r = false))
      (count (fun r => is_Some (usageQuantities (PodAnalysis.CurrentUsage r)))).
Proof.
  cbn zeta. unfold summaryCounters.
  assert (forall c : Counters.t,
    fold_left countResult results c
    = Counters.mk
        (Counters.highRisk c
         + Z.of_nat (length (filter (fun r => PodAnalysis.RiskLevel r = "HIGH") results)))
        (Counters.mediumRisk c
         + Z.of_nat (length (filter (fun r => PodAnalysis.RiskLevel r = "MEDIUM") results)))
        (Counters.lowRisk c
         + Z.of_nat (length (filter (fun r => PodAnalysis.RiskLevel r = "LOW") results)))
        (Counters.noLimits c
         + Z.of_nat (length (filter (fun r => PodAnalysis.HasLimits r = false) results)))
        (Counters.noRequests c
         + Z.of_nat (length (filter (fun r => PodAnalysis.HasRequests r = false) results)))
        (Counters.withUsageData c
         + Z.of_nat (length (filter
             (fun r => is_Some (usageQuantities (PodAnalysis.CurrentUsage r))) results))))
    as Hgen.
  { induction results as [|r results IH]; intros c; cbn [fold_left].
    - destruct c. cbn. f_equal; lia.
    - rewrite IH. rewrite !filter_cons. unfold countResult.
      cbn [Counters.highRisk Counters.mediumRisk Counters.lowRisk Counters.noLimits
           Counters.noRequests Counters.withUsageData].
      f_equal.
      + destruct (String.eqb_spec (PodAnalysis.RiskLevel r) "HIGH") as [He|Hne].
        * rewrite decide_True by done. cbn [length]. lia.
        * rewrite decide_False by done. lia.
      + destruct (String.eqb_spec (PodAnalysis.RiskLevel r) "HIGH") as [He|Hne];
          cbn [negb andb].
        * rewrite decide_False by (rewrite He; discriminate). lia.
        * destruct (String.eqb_spec (PodAnalysis.RiskLevel r) "MEDIUM") as [He'|Hne'].
          -- rewrite decide_True by done. cbn [length]. lia.
          -- rewrite decide_False by done. lia.
      + destruct (String.eqb_spec (PodAnalysis.RiskLevel r) "HIGH") as [He|Hne];
          cbn [negb andb].
        * rewrite decide_False by (rewrite He; discriminate). lia.
        * destruct (String.eqb_spec (PodAnalysis.RiskLevel r) "MEDIUM") as [He'|Hne'];
            cbn [negb andb].
          -- rewrite decide_False by (rewrite He'; discriminate). lia.
          -- destruct (String.eqb_spec (PodAnalysis.RiskLevel r) "LOW") as [He''|Hne''].
             ++ rewrite decide_True by done. cbn [length]. lia.
             ++ rewrite decide_False by done. lia.
      + destruct (PodAnalysis.HasLimits r); cbn [negb].
        * rewrite decide_False by done. lia.
        * rewrite decide_True by done. cbn [length]. lia.
      + destruct (PodAnalysis.HasRequests r); cbn [negb].
        * rewrite decide_False by done. lia.
        * rewrite decide_True by done. cbn [length]. lia.
      + case_bool_decide.
        * rewrite decide_True by done. cbn [length]. lia.
        * rewrite decide_False by done. lia. }
  rewrite Hgen. cbn. done.
Qed.
Lemma filteredResults_Forall (P : PodAnalysis.t -> Prop) (results : list PodAnalysis.t)
  (showAll : bool) :
  Forall P results ->
  Forall P (Slice.items (filteredResults (Slice.appended results) showAll)).
Proof.
  intros HP. rewrite items_filteredResults. destruct showAll; [done|].
  rewrite keptResults_filter.
  rewrite Forall_forall in HP. apply Forall_forall. intros r Hr.
  apply list_elem_of_filter in Hr as [_ Hr]. by apply HP.
Qed.

Lemma usageQuantities_values (usage : option ResourceUsage.t) :
  is_Some (usageQuantities usage) <-> is_Some (usageValues usage).
Proof.
  destruct usage as [[[cpu|] [mem|]]|]; cbn; split; intros [x Hx]; try discriminate; eauto.
Qed.

Lemma resultOf_usage_complete metricsMap threshold pod podAge container :
  let r := resultOf metricsMap threshold pod podAge container in
  is_Some (usageQuantities (PodAnalysis.CurrentUsage r))
  <-> is_Some (PodAnalysis.CurrentUsage r).
Proof.
  cbn. rewrite usageQuantities_values. split.
  - destruct (attachedUsage metricsMap pod container); [eauto|].
    cbn. intros [x Hx]. discriminate Hx.
  - intros [u Hu]. rewrite Hu.
    apply attachedUsage_values in Hu as (cpu & mem & ->). eauto.
Qed.

Lemma risk_levels_partition (results : list PodAnalysis.t) :
  Forall (fun r => PodAnalysis.RiskLevel r ∈ ["HIGH"; "MEDIUM"; "LOW"]) results ->
  (length (filter (fun r => PodAnalysis.RiskLevel r = "HIGH") results)
   + length (filter (fun r => PodAnalysis.RiskLevel r = "MEDIUM") results)
   + length (filter (fun r => PodAnalysis.RiskLevel r = "LOW") results)
   = length results)%nat.
Proof.
  induction 1 as [|r results Hr _ IH]; [done|].
  rewrite !filter_cons. rewrite !elem_of_cons in Hr.
  destruct (decide (PodAnalysis.RiskLevel r = "HIGH")) as [He1|Hne1],
           (decide (PodAnalysis.RiskLevel r = "MEDIUM")) as [He2|Hne2],
           (decide (PodAnalysis.RiskLevel r = "LOW")) as [He3|Hne3];
    cbn [length]; try lia; try congruence.
  destruct Hr as [He | [He | [He | He]]]; [done|done|done|by apply elem_of_nil in He].
Qed.

Lemma risk_levels_at_most (results : list PodAnalysis.t) :
  (length (filter (fun r => PodAnalysis.RiskLevel r = "HIGH") results)
   + length (filter (fun r => PodAnalysis.RiskLevel r = "MEDIUM") results)
   + length (filter (fun r => PodAnalysis.RiskLevel r = "LOW") results)
   <= length results)%nat.
Proof.
  induction results as [|r results IH]; [done|].
  rewrite !filter_cons.
  destruct (decide (PodAnalysis.RiskLevel r = "HIGH")) as [He1|Hne1],
           (decide (PodAnalysis.RiskLevel r = "MEDIUM")) as [He2|Hne2],
           (decide (PodAnalysis.RiskLevel r = "LOW")) as [He3|Hne3];
    cbn [length]; try lia; congruence.
Qed.

(** In the summary of a report of an engine run the three risk counters
    add up to the number of results reported, the no-limits counter equals
    the high-risk counter, the usage counter counts the results that carry a
    usage sample, and with [showAll] unset the low-risk counter is zero. For
    results of any origin the three risk counters add up to at most the
    number of results. *)
Theorem summary_counters_of_a_report (ShortHumanDuration : Z -> string) (now : Z)
  (pods : list Pod.t) (podMetrics : list PodMetrics.t) (threshold : float)
  (showAll : bool) :
  let results :=
    Slice.items
      (filteredResults
         (Slice.appended (AnalyzePods ShortHumanDuration now pods podMetrics threshold))
         showAll) in
  let c := summaryCounters results in
  Counters.highRisk c + Counters.mediumRisk c + Counters.lowRisk c
  = Z.of_nat (length results)
  /\ Counters.noLimits c = Counters.highRisk c
  /\ Counters.withUsageData c
     = Z.of_nat (length (filter (fun r => is_Some (PodAnalysis.CurrentUsage r)) results))
  /\ (showAll = false -> Counters.lowRisk c = 0)
  /\ forall others : list PodAnalysis.t,
       let c' := summaryCounters others in
       Counters.highRisk c' + Counters.mediumRisk c' + Counters.lowRisk c'
       <= Z.of_nat (length others).
Proof.
  intros results c.
  assert (Forall consistent results) as Hc.
  { apply filteredResults_Forall, (engine_results_Forall consistent).
    intros. apply resultOf_consistent. }
  subst c. rewrite summaryCounters_count.
  cbn [Counters.highRisk Counters.mediumRisk Counters.lowRisk Counters.noLimits
       Counters.withUsageData].
  split; [|split; [|split; [|split]]].
  - rewrite <- !Nat2Z.inj_add. f_equal. apply risk_levels_partition.
    eapply Forall_impl; [exact Hc|]. by intros r (H & _).
  - do 2 f_equal. apply filter_Forall_ext.
    eapply Forall_impl; [exact Hc|]. intros r (_ & _ & H & _). by symmetry.
  - do 2 f_equal. apply filter_Forall_ext.
    apply filteredResults_Forall,
      (engine_results_Forall
         (fun r => is_Some (usageQuantities (PodAnalysis.CurrentUsage r))
                   <-> is_Some (PodAnalysis.CurrentUsage r))).
    intros. apply resultOf_usage_complete.
  - intros ->. rewrite filter_none; [done|].
    subst results. rewrite items_filteredResults, keptResults_filter.
    apply Forall_forall. intros r Hr.
    apply list_elem_of_filter in Hr as [Hs Hr].
    apply shown_not_LOW in Hs; [done|].
    pose proof (engine_results_Forall consistent ShortHumanDuration now pods
                  podMetrics threshold) as Hall.
    rewrite Forall_forall in Hall. apply Hall; [|done].
    intros. apply resultOf_consistent.
  - intros others. cbn zeta. rewrite summaryCounters_count.
    cbn [Counters.highRisk Counters.mediumRisk Counters.lowRisk].
    rewrite <- !Nat2Z.inj_add. apply inj_le, risk_levels_at_most.
Qed.
(** ** The examples of a report *)

Lemma resultOf_needs_example metricsMap threshold pod podAge container :
  let r := resultOf metricsMap threshold pod podAge container in
  negb (PodAnalysis.HasLimits r)
  && bool_decide (is_Some (usageQuantities (PodAnalysis.CurrentUsage r))) = true
  <-> PodAnalysis.ExampleYAML r <> EmptyString.
Proof.
  intros r.
  pose proof (resultOf_consistent metricsMap threshold pod podAge container)
    as (_ & Hlimits & _).
  pose proof (resultOf_gated metricsMap threshold pod podAge container)
    as (_ & _ & Hsnippet & _).
  pose proof (resultOf_usage_complete metricsMap threshold pod podAge container)
    as Husage.
  fold r in Hlimits, Hsnippet, Husage. cbn zeta in Husage.
  unfold populated in Hsnippet. rewrite Hsnippet, <- Husage, <- Hlimits.
  rewrite andb_true_iff, negb_true_iff, bool_decide_eq_true. tauto.
Qed.

(** The results a report gives a specific fix for are the results of the
    engine run that carry an example snippet, in their order; the filter of
    [showAll] removes none of them; and each of them has its four
    recommendation fields populated. *)
Theorem fixes_are_listed_for_the_results_with_a_snippet
  (ShortHumanDuration : Z -> string) (now : Z) (pods : list Pod.t)
  (podMetrics : list PodMetrics.t) (threshold : float) (showAll : bool) :
  let results := AnalyzePods ShortHumanDuration now pods podMetrics threshold in
  podsNeedingExamples results
  = filter (fun r => PodAnalysis.ExampleYAML r <> EmptyString) results
  /\ podsNeedingExamples (Slice.items (filteredResults (Slice.appended results) showAll))
     = podsNeedingExamples results
  /\ Forall (fun r => Forall populated (recommendations r)) (podsNeedingExamples results).
Proof.
  intros results.
  assert (forall l, Forall (fun r =>
            negb (PodAnalysis.HasLimits r)
            && bool_decide (is_Some (usageQuantities (PodAnalysis.CurrentUsage r))) = true
            <-> PodAnalysis.ExampleYAML r <> EmptyString) l ->
          podsNeedingExamples l
          = filter (fun r => PodAnalysis.ExampleYAML r <> EmptyString) l) as Hneed.
  { intros l Hl. unfold podsNeedingExamples. rewrite fold_left_keep. cbn [app].
    by apply filter_Forall_ext. }
  assert (Forall (fun r =>
            negb (PodAnalysis.HasLimits r)
            && bool_decide (is_Some (usageQuantities (PodAnalysis.CurrentUsage r))) = true
            <-> PodAnalysis.ExampleYAML r <> EmptyString) results) as Hall.
  { apply (engine_results_Forall (fun r =>
            negb (PodAnalysis.HasLimits r)
            && bool_decide (is_Some (usageQuantities (PodAnalysis.CurrentUsage r))) = true
            <-> PodAnalysis.ExampleYAML r <> EmptyString)).
    intros. apply resultOf_needs_example. }
  assert (Forall consistent results) as Hc.
  { apply (engine_results_Forall consistent). intros. apply resultOf_consistent. }
  assert (Forall gated results) as Hg.
  { apply (engine_results_Forall gated). intros. apply resultOf_gated. }
  split; [|split].
  - by apply Hneed.
  - rewrite !Hneed by (try apply filteredResults_Forall; done).
    rewrite items_filteredResults. destruct showAll; [done|].
    rewrite keptResults_filter.
    clear Hneed Hall Hg. induction Hc as [|r l Hr _ IH]; [done|].
    rewrite (filter_cons (fun x => shown x = true)).
    destruct (decide (shown r = true)) as [Hs|Hs].
    + by rewrite !filter_cons, IH.
    + rewrite IH, filter_cons. rewrite decide_False; [done|].
      intros Hp. apply Hs, shown_not_LOW; [done|].
      destruct Hr as (_ & _ & _ & _ & _ & _ & Hhigh).
      rewrite (Hhigh Hp). discriminate.
  - rewrite Hneed by done. apply Forall_forall. intros r Hr.
    apply list_elem_of_filter in Hr as [Hp Hr].
    rewrite Forall_forall in Hg. destruct (Hg r Hr) as (_ & _ & _ & Hrec).
    by apply Hrec.
Qed.

(** ** The rows of the compact table *)

Lemma generateSuggestions_headline (container : Container.t)
  (usage : option ResourceUsage.t) (threshold : float) :
  let suggestions := generateSuggestions container usage threshold in
  (length suggestions <= 3)%nat
  /\ (Resources.Limits (Container.Resources container) = ∅ ->
      head suggestions = Some msgNoLimits).
Proof.
  cbn zeta. rewrite generateSuggestions_spec.
  set (limits := Resources.Limits (Container.Resources container)).
  set (requests := Resources.Requests (Container.Resources container)).
  split.
  - rewrite length_fmap. destruct (decide (limits = ∅)) as [He|Hne].
    + rewrite He, suggestionsSpec_no_limits. cbn. rewrite length_app.
      unfold emitIf. destruct (bool_decide _), (negb _); cbn; lia.
    + rewrite suggestionsSpec_limits by done. rewrite !length_app.
      pose proof (usageCheck_length IncreaseCPULimit DecreaseCPULimit 30%float
                    (fst <$> usageValues usage)
                    (Quantity.MilliValue <$> limits !! ResourceCPU) threshold).
      pose proof (usageCheck_length IncreaseMemoryLimit DecreaseMemoryLimit 50%float
                    (snd <$> usageValues usage)
                    (Quantity.Value <$> limits !! ResourceMemory) threshold).
      unfold emitIf at 1. destruct (bool_decide _); cbn; lia.
  - intros He. by rewrite He, suggestionsSpec_no_limits.
Qed.

(** A row of the compact table of an engine run shows the first
    suggestion of its result and hides at most two; the row of a container
    without limits shows the no-limits suggestion and [None] as its limits;
    and the limits cell of a container whose limits name neither CPU nor
    memory is empty. *)
Theorem compact_row_cells (QuantityString : Quantity.t -> string)
  (ShortHumanDuration : Z -> string) (now : Z) (pods : list Pod.t)
  (podMetrics : list PodMetrics.t) (threshold : float) :
  Forall
    (fun r =>
       match PodAnalysis.Suggestions r with
       | [] => suggestionCell r = EmptyString
       | [first] => suggestionCell r = first
       | [first; _] => suggestionCell r = first +:+ " (+1 more)"
       | [first; _; _] => suggestionCell r = first +:+ " (+2 more)"
       | _ => False
       end
       /\ (PodAnalysis.HasLimits r = false ->
           head (PodAnalysis.Suggestions r) = Some msgNoLimits
           /\ limitsCell QuantityString r = "None")
       /\ (PodAnalysis.HasLimits r = true ->
           PodAnalysis.CurrentLimits r !! ResourceCPU = None ->
           PodAnalysis.CurrentLimits r !! ResourceMemory = None ->
           limitsCell QuantityString r = EmptyString))
    (AnalyzePods ShortHumanDuration now pods podMetrics threshold).
Proof.
  apply engine_results_Forall. intros metricsMap pod podAge container.
  pose proof (generateSuggestions_headline container
                (attachedUsage metricsMap pod container) threshold) as [Hlen Hhead].
  cbn zeta in Hlen, Hhead.
  unfold suggestionCell, limitsCell, resultOf.
  cbn [PodAnalysis.Suggestions PodAnalysis.HasLimits PodAnalysis.CurrentLimits].
  set (limits := Resources.Limits (Container.Resources container)) in *.
  split; [|split].
  - destruct (generateSuggestions _ _ _) as [|a [|b [|c [|d l]]]]; cbn in Hlen |- *;
      [done|done|done|done|lia].
  - rewrite negb_false_iff, bool_decide_eq_true. intros He. split; [by apply Hhead|].
    by rewrite len_pos_decide, bool_decide_eq_true_2.
  - rewrite negb_true_iff, bool_decide_eq_false. intros Hne -> ->.
    rewrite len_pos_decide, bool_decide_eq_false_2 by done. done.
Qed.
(** ** The detailed view *)

Lemma eqb_empty_populated (field : string) :
  populated field -> String.eqb field EmptyString = false.
Proof. intros Hp. by apply String.eqb_neq. Qed.

(** The detailed view of a result of an engine run ends with the
    recommended limits exactly when the result carries a usage sample, and
    the recommended limits are followed by the example snippet exactly when
    the container also has no limits. *)
Theorem details_recommend_exactly_with_a_sample (ShortHumanDuration : Z -> string)
  (now : Z) (pods : list Pod.t) (podMetrics : list PodMetrics.t) (threshold : float) :
  Forall
    (fun r =>
       (PodAnalysis.CurrentUsage r = None -> recommendedBlock r = EmptyString)
       /\ (is_Some (PodAnalysis.CurrentUsage r) ->
           recommendedBlock r
           = Printf.lit "  Recommended limits (based on current usage):\n"
             +:+ Printf.sprintf (Printf.lit "    CPU: %s (request: %s)\n")
                   [ Printf.S (PodAnalysis.RecommendedCPULimit r);
                     Printf.S (PodAnalysis.RecommendedCPURequest r) ]
             +:+ Printf.sprintf (Printf.lit "    Memory: %s (request: %s)\n")
                   [ Printf.S (PodAnalysis.RecommendedMemoryLimit r);
                     Printf.S (PodAnalysis.RecommendedMemoryRequest r) ]
             +:+ (if PodAnalysis.HasLimits r then EmptyString
                  else Printf.lit "  Example YAML to add to container spec:\n"
                       +:+ PodAnalysis.ExampleYAML r +:+ lf)))
    (AnalyzePods ShortHumanDuration now pods podMetrics threshold).
Proof.
  apply engine_results_Forall. intros metricsMap pod podAge container.
  pose proof (resultOf_gated metricsMap threshold pod podAge container)
    as (Hsome & Hnone & Hsnippet & _).
  pose proof (resultOf_consistent metricsMap threshold pod podAge container)
    as (_ & Hlimits & _).
  set (r := resultOf metricsMap threshold pod podAge container) in *.
  unfold recommendedBlock, recommendations in *. split.
  - intros Hu. specialize (Hnone Hu).
    rewrite !Forall_cons in Hnone. destruct Hnone as (-> & _). done.
  - intros Hu. specialize (Hsome Hu).
    rewrite !Forall_cons in Hsome. destruct Hsome as (Hcl & _ & Hml & _).
    rewrite !eqb_empty_populated by done. cbn [negb andb].
    do 3 f_equal.
    destruct (PodAnalysis.HasLimits r) eqn:Hl.
    + assert (~ populated (PodAnalysis.ExampleYAML r)) as Hnp.
      { rewrite Hsnippet, <- Hlimits. intros [_ He]. discriminate He. }
      unfold populated in Hnp. apply dec_stable in Hnp. by rewrite Hnp.
    + rewrite eqb_empty_populated; [done|].
      apply Hsnippet. split; [done|by apply Hlimits].
Qed.
(** ** The report as a whole *)

(** A report in a format other than json and yaml, with [showAll] unset,
    of an engine run whose results are all of low risk, whatever their
    number, is the single line that all pods have proper limits, and no
    error; the verbose and examples settings play no part. *)
Theorem report_of_low_risk_results_is_the_all_clear
  (QuantityString : Quantity.t -> string) (tabwrite : string -> string)
  (MarshalIndent YamlMarshal : Slice.t PodAnalysis.t -> string + string)
  (ToLower : string -> string) (rep : Reporter.t)
  (ShortHumanDuration : Z -> string) (now : Z) (pods : list Pod.t)
  (podMetrics : list PodMetrics.t) (threshold : float) :
  let results := AnalyzePods ShortHumanDuration now pods podMetrics threshold in
  ToLower (Reporter.format rep) <> "json" ->
  ToLower (Reporter.format rep) <> "yaml" ->
  Forall (fun r => PodAnalysis.RiskLevel r = "LOW") results ->
  GenerateReport QuantityString tabwrite MarshalIndent YamlMarshal ToLower rep
    (Slice.appended results) false
  = (Printf.println "✅ All pods have proper resource limits configured.", None).
Proof.
  intros results Hjson Hyaml Hlow. unfold GenerateReport.
  apply String.eqb_neq in Hjson, Hyaml. rewrite Hjson, Hyaml.
  rewrite items_filteredResults, keptResults_not_LOW.
  - rewrite filter_none; [done|].
    eapply Forall_impl; [exact Hlow|]. intros r Hr Hne. by apply Hne.
  - apply (engine_results_Forall consistent). intros. apply resultOf_consistent.
Qed.

Lemma report_of_low_risk_results_is_the_all_clear_witness :
  let results :=
    AnalyzePods Duration.ShortHumanDuration Scenario.threeHours
      [Scenario.podB; Scenario.podB] [Scenario.metricsB] Scenario.threshold in
  length results = 2%nat
  /\ GenerateReport (fun _ => EmptyString) (fun written => written)
       (fun _ => inl EmptyString) (fun _ => inl EmptyString) (fun format => format)
       (Reporter.SetVerbose true (Reporter.NewReporter "table"))
       (Slice.appended results) false
     = (Printf.println "✅ All pods have proper resource limits configured.", None).
Proof.
  split; [by vm_compute|].
  apply (report_of_low_risk_results_is_the_all_clear
           (fun _ => EmptyString) (fun written => written)
           (fun _ => inl EmptyString) (fun _ => inl EmptyString) (fun format => format)
           (Reporter.SetVerbose true (Reporter.NewReporter "table"))
           Duration.ShortHumanDuration Scenario.threeHours
           [Scenario.podB; Scenario.podB] [Scenario.metricsB] Scenario.threshold).
  - intros H. vm_compute in H. discriminate H.
  - intros H. vm_compute in H. discriminate H.
  - vm_compute. repeat constructor.
Defined.

(** A report returns an error exactly when its format, in lower case, is
    json or yaml and the marshaller of that format fails on the filtered
    slice, the error is the marshaller's, and then it prints nothing; a table
    report, which any other format gives, never fails. *)
Theorem report_fails_exactly_when_marshalling_fails
  (QuantityString : Quantity.t -> string) (tabwrite : string -> string)
  (MarshalIndent YamlMarshal : Slice.t PodAnalysis.t -> string + string)
  (ToLower : string -> string) (rep : Reporter.t)
  (results : Slice.t PodAnalysis.t) (showAll : bool) :
  let report :=
    GenerateReport QuantityString tabwrite MarshalIndent YamlMarshal ToLower rep
      results showAll in
  let format := ToLower (Reporter.format rep) in
  (forall err : string,
     report.2 = Some err
     <-> (format = "json" /\ MarshalIndent (filteredResults results showAll) = inr err)
         \/ (format = "yaml" /\ YamlMarshal (filteredResults results showAll) = inr err))
  /\ (report.2 <> None -> report.1 = EmptyString)
  /\ (format <> "json" -> format <> "yaml" ->
      report
      = (generateTable QuantityString tabwrite rep
           (Slice.items (filteredResults results showAll)), None)).
Proof.
  intros report format. subst report. unfold GenerateReport. fold format.
  destruct (String.eqb_spec format "json") as [Hj|Hj];
    [|destruct (String.eqb_spec format "yaml") as [Hy|Hy]].
  - unfold generateJSON.
    destruct (MarshalIndent (filteredResults results showAll)) as [data|e]; cbn [fst snd].
    + split; [|split]; [|done|done].
      intros err. split; [discriminate|].
      intros [[_ H]|[H _]]; [discriminate H|]. rewrite Hj in H. discriminate H.
    + split; [|split]; [|done|done].
      intros err. split.
      * intros [= ->]. by left.
      * intros [[_ [= ->]]|[H _]]; [done|]. rewrite Hj in H. discriminate H.
  - unfold generateYAML.
    destruct (YamlMarshal (filteredResults results showAll)) as [data|e]; cbn [fst snd].
    + split; [|split]; [|done|done].
      intros err. split; [discriminate|].
      intros [[H _]|[_ H]]; [|discriminate H]. rewrite Hy in H. discriminate H.
    + split; [|split]; [|done|done].
      intros err. split.
      * intros [= ->]. by right.
      * intros [[H _]|[_ [= ->]]]; [|done]. rewrite Hy in H. discriminate H.
  - cbn [fst snd]. split; [|split]; [|done|done].
    intros err. split; [discriminate|]. by intros [[H _]|[H _]].
Qed.

(** ** A run without usage data *)

Lemma resultOf_no_usage metricsMap threshold pod podAge container :
  attachedUsage metricsMap pod container = None ->
  let limits := Resources.Limits (Container.Resources container) in
  let requests := Resources.Requests (Container.Resources container) in
  resultOf metricsMap threshold pod podAge container
  = PodAnalysis.mk (Pod.Namespace pod) (Pod.Name pod) (Container.Name container)
      (negb (bool_decide (limits = ∅))) (negb (bool_decide (requests = ∅)))
      limits None
      (emitIf (bool_decide (limits = ∅)) msgNoLimits
       ++ emitIf (bool_decide (requests = ∅)) msgNoRequests
       ++ emitIf (bool_decide (limits = ∅)) msgFallback)
      (if bool_decide (limits = ∅) then "HIGH"
       else if bool_decide (limits !! ResourceCPU = None ∨ limits !! ResourceMemory = None)
            then "MEDIUM" else "LOW")
      podAge EmptyString EmptyString EmptyString EmptyString EmptyString.
Proof.
  intros Hu limits requests. unfold resultOf. rewrite Hu. fold limits requests.
  cbn [usageValues fmap option_fmap option_map].
  rewrite andb_false_r.
  rewrite generateSuggestions_spec, calculateRiskLevel_riskTier. fold limits requests.
  f_equal.
  - unfold suggestionsSpec, hasSample. cbn [usageValues fmap option_fmap option_map].
    rewrite !usageCheck_no_usage. cbn [app negb andb].
    rewrite !fmap_app. unfold emitIf.
    by destruct (bool_decide (limits = ∅)), (bool_decide (requests = ∅)).
  - unfold riskTier, riskRules, hasSample. cbn [firstMatch usageValues].
    destruct (bool_decide (limits = ∅)); [done|].
    by destruct (bool_decide (_ ∨ _)).
Qed.

Lemma attachedUsage_no_metrics (pod : Pod.t) (container : Container.t) :
  attachedUsage (buildMetricsMap []) pod container = None.
Proof. unfold attachedUsage, buildMetricsMap. cbn [fold_left]. by rewrite lookup_empty. Qed.

Lemma AnalyzePods_no_metrics_threshold (ShortHumanDuration : Z -> string) (now : Z)
  (pods : list Pod.t) (threshold threshold' : float) :
  AnalyzePods ShortHumanDuration now pods [] threshold
  = AnalyzePods ShortHumanDuration now pods [] threshold'.
Proof.
  rewrite !AnalyzePods_containers. apply list_fmap_ext. intros i pc _.
  by rewrite !resultOf_no_usage by apply attachedUsage_no_metrics.
Qed.

(** On an empty usage dataset every result of the engine is settled by the
    declarations of its container: no usage sample, no recommendation and no
    snippet; the no-limits, no-requests and fallback suggestions where limits
    or requests are empty, and no other; HIGH without limits, MEDIUM when the
    CPU or the memory limit is missing, LOW otherwise. The threshold plays no
    part. *)
Theorem analysis_without_usage_data (ShortHumanDuration : Z -> string) (now : Z)
  (pods : list Pod.t) (threshold threshold' : float) :
  AnalyzePods ShortHumanDuration now pods [] threshold
  = (fun pc : Pod.t * Container.t =>
       let limits := Resources.Limits (Container.Resources pc.2) in
       let requests := Resources.Requests (Container.Resources pc.2) in
       PodAnalysis.mk (Pod.Namespace pc.1) (Pod.Name pc.1) (Container.Name pc.2)
         (negb (bool_decide (limits = ∅))) (negb (bool_decide (requests = ∅)))
         limits None
         (emitIf (bool_decide (limits = ∅)) msgNoLimits
          ++ emitIf (bool_decide (requests = ∅)) msgNoRequests
          ++ emitIf (bool_decide (limits = ∅)) msgFallback)
         (if bool_decide (limits = ∅) then "HIGH"
          else if bool_decide
                    (limits !! ResourceCPU = None ∨ limits !! ResourceMemory = None)
               then "MEDIUM" else "LOW")
         (ShortHumanDuration (Since now (Pod.CreationTimestamp pc.1)))
         EmptyString EmptyString EmptyString EmptyString EmptyString)
    <$> containersOf pods
  /\ AnalyzePods ShortHumanDuration now pods [] threshold'
     = AnalyzePods ShortHumanDuration now pods [] threshold.
Proof.
  split.
  - rewrite AnalyzePods_containers. apply list_fmap_ext. intros i pc _.
    apply resultOf_no_usage.
    unfold attachedUsage, buildMetricsMap. cbn [fold_left]. by rewrite lookup_empty.
  - rewrite !AnalyzePods_containers. apply list_fmap_ext. intros i pc _.
    rewrite !resultOf_no_usage; [done| |];
      unfold attachedUsage, buildMetricsMap; cbn [fold_left]; by rewrite lookup_empty.
Qed.

(** ** Witnesses of the engine properties *)

Lemma recommendations_cover_usage_witness :
  let analysis := analysisWith (Scenario.sample (Scenario.milli 95) (Scenario.units (64 * MiB))) in
  usageValues (PodAnalysis.CurrentUsage analysis) = Some (95, 64 * MiB)
  /\ PodAnalysis.RecommendedCPULimit
       (generateSpecificRecommendations analysis Scenario.bare)
     = Fmt.d (recommendedCPULimitMilli 95) +:+ "m".
Proof.
  split; [reflexivity|].
  exact (proj1 (proj1 (recommendations_cover_usage
                         (analysisWith (Scenario.sample (Scenario.milli 95)
                                          (Scenario.units (64 * MiB))))
                         Scenario.bare 95 (64 * MiB) eq_refl))).
Defined.

Lemma dataset_order_is_irrelevant_witness :
  NoDup (keyOf <$> [Scenario.metricsB; Scenario.metricsStale])
  /\ [Scenario.metricsB; Scenario.metricsStale] ≡ₚ [Scenario.metricsStale; Scenario.metricsB]
  /\ AnalyzePods Duration.ShortHumanDuration Scenario.threeHours [Scenario.podB]
       [Scenario.metricsB; Scenario.metricsStale] Scenario.threshold
     = AnalyzePods Duration.ShortHumanDuration Scenario.threeHours [Scenario.podB]
         [Scenario.metricsStale; Scenario.metricsB] Scenario.threshold.
Proof.
  assert (NoDup (keyOf <$> [Scenario.metricsB; Scenario.metricsStale])) as Hnd.
  { apply (bool_decide_unpack _). by vm_compute. }
  assert ([Scenario.metricsB; Scenario.metricsStale]
          ≡ₚ [Scenario.metricsStale; Scenario.metricsB]) as Hp.
  { apply Permutation_swap. }
  split; [exact Hnd|]. split; [exact Hp|].
  exact (dataset_order_is_irrelevant Duration.ShortHumanDuration Scenario.threeHours
           [Scenario.podB] [Scenario.metricsB; Scenario.metricsStale]
           [Scenario.metricsStale; Scenario.metricsB] Scenario.threshold Hnd Hp).
Defined.


(** ** The configuration of the client *)

Lemma append_empty_r (s : string) : s +:+ EmptyString = s.
Proof.
  induction s as [|c s IH]; [done|].
  change (String c (s +:+ EmptyString) = String c s). by rewrite IH.
Qed.

(** Inside a cluster [buildConfig] returns the in-cluster configuration
    whatever the flag, the environment and the files are. Outside, it loads
    the first non-empty candidate among the flag, the variable KUBECONFIG and
    the default locations that exist, in this order, and returns what loading
    it gives, without trying a later candidate when loading fails; with no
    candidate it fails with the could-not-find message and prints nothing. *)
Theorem kubeconfig_is_the_first_candidate (rest_Config : Type)
  (InClusterConfig : rest_Config + string) (Getenv : string -> string)
  (Stat : string -> bool) (Join : list string -> string)
  (BuildConfigFromFlags : string -> string -> rest_Config + string) (flag : string) :
  let built :=
    Kubernetes.buildConfig InClusterConfig Getenv Stat Join BuildConfigFromFlags flag in
  (forall config : rest_Config,
     InClusterConfig = inl config ->
     built = (Printf.println "✅ Using in-cluster Kubernetes configuration", inl config))
  /\ (forall e : string,
        InClusterConfig = inr e ->
        Join [Kubernetes.homeDir Getenv; ".kube"; "config"] <> EmptyString ->
        built
        = match chosenKubeconfig Getenv Stat Join flag with
          | Some path =>
              (Printf.sprintf (Printf.lit "✅ Using kubeconfig: %s\n") [Printf.S path],
               BuildConfigFromFlags EmptyString path)
          | None =>
              (EmptyString, inr "could not find kubeconfig and not running in-cluster")
          end).
Proof.
  intros built. subst built. unfold Kubernetes.buildConfig. split.
  - by intros config ->.
  - intros e -> Hjoin.
    unfold chosenKubeconfig, kubeconfigCandidates. cbn [app].
    rewrite (filter_cons (fun path => path <> EmptyString) flag).
    destruct (String.eqb_spec flag EmptyString) as [Hf|Hf].
    2:{ rewrite decide_True by done. cbn [head].
        by rewrite (proj2 (String.eqb_neq flag EmptyString) Hf). }
    rewrite decide_False by (intros H; by apply H).
    rewrite (filter_cons (fun path => path <> EmptyString) (Getenv "KUBECONFIG")).
    destruct (String.eqb_spec (Getenv "KUBECONFIG") EmptyString) as [He|He];
      cbn [negb].
    2:{ rewrite decide_True by done. cbn [head].
        by rewrite (proj2 (String.eqb_neq _ EmptyString) He). }
    rewrite decide_False by (intros H; by apply H).
    subst flag. cbn [Kubernetes.firstExisting].
    rewrite !(filter_cons (fun path => Stat path = true)), filter_nil.
    destruct (Stat (Join _)) eqn:H1.
    { rewrite decide_True by done. rewrite filter_cons, decide_True by done.
      cbn [head]. by rewrite (proj2 (String.eqb_neq _ EmptyString) Hjoin). }
    rewrite decide_False by done.
    destruct (Stat "/app/kubeconfig") eqn:H2.
    { rewrite decide_True by done. by rewrite filter_cons, decide_True by done. }
    rewrite decide_False by done.
    destruct (Stat "/etc/kubernetes/kubeconfig") eqn:H3.
    { rewrite decide_True by done. by rewrite filter_cons, decide_True by done. }
    by rewrite decide_False by done.
Qed.

(** [NewClient] fails exactly when no configuration is built, with the
    error of [buildConfig], or when the clientset cannot be made, with the
    prefixed error of its constructor. A failure to make the metrics client
    never fails it: the client then has a [nil] metrics client and the
    warning follows what [buildConfig] printed; otherwise nothing is added. *)
Theorem new_client_survives_a_missing_metrics_client
  (rest_Config kubernetes_Clientset metricsv_Clientset : Type)
  (InClusterConfig : rest_Config + string) (Getenv : string -> string)
  (Stat : string -> bool) (Join : list string -> string)
  (BuildConfigFromFlags : string -> string -> rest_Config + string)
  (NewForConfig : rest_Config -> kubernetes_Clientset + string)
  (MetricsNewForConfig : rest_Config -> metricsv_Clientset + string)
  (kubeconfigPath : string) :
  let built :=
    Kubernetes.buildConfig InClusterConfig Getenv Stat Join BuildConfigFromFlags
      kubeconfigPath in
  let created :=
    Kubernetes.NewClient InClusterConfig Getenv Stat Join BuildConfigFromFlags
      NewForConfig MetricsNewForConfig kubeconfigPath in
  (forall err : string,
     created.2 = inr err
     <-> built.2 = inr err
         \/ exists config e,
              built.2 = inl config /\ NewForConfig config = inr e
              /\ err = Printf.sprintf "failed to create Kubernetes client: %v" [Printf.S e])
  /\ (forall client,
        created.2 = inl client
        <-> exists config,
              built.2 = inl config
              /\ NewForConfig config = inl (Kubernetes.Clientset client)
              /\ Kubernetes.MetricsClient client
                 = match MetricsNewForConfig config with
                   | inl metricsClient => Some metricsClient
                   | inr _ => None
                   end)
  /\ (forall client,
        created.2 = inl client ->
        created.1
        = built.1
          +:+ match Kubernetes.MetricsClient client with
              | Some _ => EmptyString
              | None =>
                  Printf.println
                    "⚠️  Metrics server not available, continuing without metrics"
              end)
  /\ (forall err : string, created.2 = inr err -> created.1 = built.1).
Proof.
  intros built created. subst built created. unfold Kubernetes.NewClient.
  destruct (Kubernetes.buildConfig _ _ _ _ _ _) as [out [config|e0]]; cbn [fst snd].
  2:{ split; [|split; [|split]].
      - intros err. split; [intros [= ->]; by left|].
        intros [[= ->]|(config & e & H & _)]; [done|discriminate H].
      - intros client. split; [discriminate|]. intros (config & H & _). discriminate H.
      - intros client H. discriminate H.
      - done. }
  destruct (NewForConfig config) as [clientset|e1] eqn:Hc; cbn [fst snd].
  2:{ split; [|split; [|split]].
      - intros err. split.
        + intros [= <-]. right. by exists config, e1.
        + intros [H|(config' & e & [= <-] & He & ->)]; [discriminate H|].
          rewrite Hc in He. by injection He as ->.
      - intros client. split; [discriminate|].
        intros (config' & [= <-] & H & _). rewrite Hc in H. discriminate H.
      - intros client H. discriminate H.
      - done. }
  destruct (MetricsNewForConfig config) as [metricsClient|e2] eqn:Hm; cbn [fst snd].
  - split; [|split; [|split]].
    + intros err. split; [discriminate|].
      intros [H|(config' & e & [= <-] & He & _)]; [discriminate H|].
      rewrite Hc in He. discriminate He.
    + intros client. split.
      * intros [= <-]. exists config. by rewrite Hc, Hm.
      * intros (config' & [= <-] & H1 & H2). rewrite Hc in H1. rewrite Hm in H2.
        destruct client as [cs mc]. cbn in H1, H2. injection H1 as <-. by subst mc.
    + intros client [= <-]. cbn [Kubernetes.MetricsClient]. by rewrite append_empty_r.
    + intros err H. discriminate H.
  - split; [|split; [|split]].
    + intros err. split; [discriminate|].
      intros [H|(config' & e & [= <-] & He & _)]; [discriminate H|].
      rewrite Hc in He. discriminate He.
    + intros client. split.
      * intros [= <-]. exists config. by rewrite Hc, Hm.
      * intros (config' & [= <-] & H1 & H2). rewrite Hc in H1. rewrite Hm in H2.
        destruct client as [cs mc]. cbn in H1, H2. injection H1 as <-. by subst mc.
    + by intros client [= <-].
    + intros err H. discriminate H.
Qed.
(** ** The command *)

Lemma GenerateReport_table (QuantityString : Quantity.t -> string)
  (tabwrite : string -> string)
  (MarshalIndent YamlMarshal : Slice.t PodAnalysis.t -> string + string)
  (ToLower : string -> string) (rep : Reporter.t) (results : Slice.t PodAnalysis.t)
  (showAll : bool) :
  ToLower (Reporter.format rep) <> "json" -> ToLower (Reporter.format rep) <> "yaml" ->
  GenerateReport QuantityString tabwrite MarshalIndent YamlMarshal ToLower rep results
    showAll
  = (generateTable QuantityString tabwrite rep
       (Slice.items (filteredResults results showAll)), None).
Proof.
  intros Hj Hy. unfold GenerateReport.
  apply String.eqb_neq in Hj, Hy. by rewrite Hj, Hy.
Qed.




(** ** What the engine reads of the requests *)

Lemma resultOf_requests metricsMap threshold pod pod' podAge container container' :
  Pod.Namespace pod = Pod.Namespace pod' -> Pod.Name pod = Pod.Name pod' ->
  sameUpToRequests container container' ->
  resultOf metricsMap threshold pod podAge container
  = resultOf metricsMap threshold pod' podAge container'.
Proof.
  intros Hns Hname (Hc & Hl & Hr). unfold resultOf, attachedUsage.
  rewrite !generateSuggestions_spec, !calculateRiskLevel_riskTier.
  rewrite <- Hns, <- Hname, <- Hc, <- Hl.
  unfold suggestionsSpec, riskTier, riskRules.
  by rewrite (bool_decide_ext _ _ Hr).
Qed.

(** The engine reads of the requests of a container only whether there are
    any: two runs on pods that differ in the requests of their containers
    only, empty in both or in neither, return the same results. *)
Theorem requests_count_only_by_presence (ShortHumanDuration : Z -> string) (now : Z)
  (pods pods' : list Pod.t) (podMetrics : list PodMetrics.t) (threshold : float) :
  Forall2 samePodUpToRequests pods pods' ->
  AnalyzePods ShortHumanDuration now pods podMetrics threshold
  = AnalyzePods ShortHumanDuration now pods' podMetrics threshold.
Proof.
  intros Hpods. rewrite !AnalyzePods_containers. unfold containersOf.
  induction Hpods as [|pod pod' pods pods' (Hns & Hname & Htime & Hcs) _ IH]; [done|].
  cbn [mbind list_bind]. rewrite !fmap_app, IH. f_equal.
  rewrite <- !list_fmap_compose. unfold compose. cbn [fst snd]. rewrite Htime.
  clear IH. induction Hcs as [|c c' cs cs' Hc _ IHc]; [done|].
  cbn [fmap list_fmap]. f_equal; [|exact IHc].
  by apply resultOf_requests.
Qed.

Lemma requests_count_only_by_presence_witness :
  let limits := Scenario.cpuAndMemory (Scenario.milli 200) (Scenario.units (256 * MiB)) in
  let pods :=
    [Scenario.podOf limits
       (Scenario.cpuAndMemory (Scenario.milli 100) (Scenario.units (128 * MiB)))] in
  let pods' :=
    [Scenario.podOf limits
       (Scenario.cpuAndMemory (Scenario.milli 150) (Scenario.units (64 * MiB)))] in
  Forall2 samePodUpToRequests pods pods'
  /\ AnalyzePods Duration.ShortHumanDuration Scenario.threeHours pods
       [Scenario.metricsB] Scenario.threshold
     = AnalyzePods Duration.ShortHumanDuration Scenario.threeHours pods'
         [Scenario.metricsB] Scenario.threshold.
Proof.
  intros limits pods pods'.
  assert (Forall2 samePodUpToRequests pods pods') as Hpods.
  { constructor; [|constructor].
    split; [reflexivity|]. split; [reflexivity|]. split; [reflexivity|].
    constructor; [|constructor].
    split; [reflexivity|]. split; [reflexivity|].
    split; intros H; cbn in H; unfold Scenario.cpuAndMemory in H;
      by apply insert_non_empty in H. }
  split; [exact Hpods|].
  exact (requests_count_only_by_presence Duration.ShortHumanDuration
           Scenario.threeHours pods pods' [Scenario.metricsB] Scenario.threshold Hpods).
Defined.
